(** * NMT Korean-to-English: encoder, attention, decoder step and drivers

    A shallow embedding of [01_Seq2Seq/model.py] and
    [02_Seq2SeqAttention/model.py].

    Tensors are modelled as a shape together with an indexing function;
    scalars are real numbers (the mathematical meaning of the tensor
    operations; rounding of the machine floats is not modelled).  Python
    exceptions are modelled by an error monad.  The modules a class receives
    at construction (embedding table, recurrent cell stack, normalisation
    layer, and for the drivers the encoder and decoder themselves) are
    section variables, exactly as the Python classes are parametric in them. *)

From Stdlib Require Import Reals Lra Lia List ZArith String Bool Arith.
Import ListNotations.

(** ** Python exceptions and the error monad *)

Inductive exn : Type :=
| NotImplementedError
| TypeError
| AttributeError
| IndexError
| RuntimeError.

Inductive result (A : Type) : Type :=
| Ok (a : A)
| Raise (e : exn).

Arguments Ok {A} a.
Arguments Raise {A} e.

Definition bind {A B : Type} (c : result A) (k : A -> result B) : result B :=
  match c with
  | Ok a => k a
  | Raise e => Raise e
  end.

Notation "x <- c ;; k" := (bind c (fun x => k))
  (at level 61, c at next level, right associativity).
Notation "' pat <- c ;; k" := (bind c (fun x => match x with pat => k end))
  (at level 61, pat pattern, c at next level, right associativity).

Definition is_ok {A : Type} (c : result A) : bool :=
  match c with Ok _ => true | Raise _ => false end.

(** ** Tensors *)

Record Tensor2 : Type := mkT2 {
  rows : nat;
  cols : nat;
  at2 : nat -> nat -> R
}.

Record Tensor3 : Type := mkT3 {
  dim0 : nat;
  dim1 : nat;
  dim2 : nat;
  at3 : nat -> nat -> nat -> R
}.

(** Integer (token / index) tensors. *)
Record LongTensor1 : Type := mkL1 {
  llen : nat;
  lat1 : nat -> Z
}.

Record LongTensor2 : Type := mkL2 {
  lrows : nat;
  lcols : nat;
  lat2 : nat -> nat -> Z
}.

Definition shape2 (x : Tensor2) : nat * nat := (rows x, cols x).
Definition shape3 (x : Tensor3) : nat * nat * nat := (dim0 x, dim1 x, dim2 x).

(** [sumR n f] is f 0 + ... + f (n-1). *)
Fixpoint sumR (n : nat) (f : nat -> R) : R :=
  match n with
  | O => 0%R
  | S k => (sumR k f + f k)%R
  end.

(** [torch.zeros(a, b, c)] *)
Definition zeros3 (a b c : nat) : Tensor3 := mkT3 a b c (fun _ _ _ => 0%R).

(** [x.permute(0, 2, 1)] *)
Definition permute021 (x : Tensor3) : Tensor3 :=
  mkT3 (dim0 x) (dim2 x) (dim1 x) (fun b i j => at3 x b j i).

(** [a.bmm(b)]: batched matrix product; the batch sizes and the inner
    dimensions must agree. *)
Definition bmm (a b : Tensor3) : result Tensor3 :=
  if (dim0 a =? dim0 b)%nat && (dim2 a =? dim1 b)%nat then
    Ok (mkT3 (dim0 a) (dim1 a) (dim2 b)
          (fun n i j => sumR (dim2 a) (fun k => (at3 a n i k * at3 b n k j)%R)))
  else Raise RuntimeError.

(** [x.expand(-1, -1, n)]: only a last axis of size 1 can be stretched. *)
Definition expand_last (x : Tensor3) (n : nat) : result Tensor3 :=
  if (dim2 x =? n)%nat then Ok x
  else if (dim2 x =? 1)%nat then
    Ok (mkT3 (dim0 x) (dim1 x) n (fun b i _ => at3 x b i 0%nat))
  else Raise RuntimeError.

(** [torch.cat((a, b), dim=1)] on rank-3 tensors. *)
Definition cat3_dim1 (a b : Tensor3) : result Tensor3 :=
  if (dim0 a =? dim0 b)%nat && (dim2 a =? dim2 b)%nat then
    Ok (mkT3 (dim0 a) (dim1 a + dim1 b) (dim2 a)
          (fun n i j => if (i <? dim1 a)%nat then at3 a n i j
                        else at3 b n (i - dim1 a)%nat j))
  else Raise RuntimeError.

(** [torch.tan(x)], elementwise (the source calls [tan]; its comments name
    the step tanh). *)
Definition tan3 (x : Tensor3) : Tensor3 :=
  mkT3 (dim0 x) (dim1 x) (dim2 x) (fun b i j => tan (at3 x b i j)).

(** [nn.Softmax(dim=1)(x)] on a rank-3 tensor. *)
Definition softmax_dim1 (x : Tensor3) : Tensor3 :=
  mkT3 (dim0 x) (dim1 x) (dim2 x)
    (fun b s k => (exp (at3 x b s k)
                   / sumR (dim1 x) (fun s' => exp (at3 x b s' k)))%R).

(** ** [nn.Linear] *)

Record Linear : Type := mkLinear {
  in_features : nat;
  out_features : nat;
  weight : nat -> nat -> R;     (* out_features x in_features *)
  bias : nat -> R
}.

(** Values of the trainable parameters of one linear layer. *)
Record LinearParams : Type := mkLinearParams {
  p_weight : nat -> nat -> R;
  p_bias : nat -> R
}.

(** [nn.Linear(i, o)]; a size that is [None] is a [TypeError]. *)
Definition nn_Linear (i o : option nat) (p : LinearParams) : result Linear :=
  match i, o with
  | Some i', Some o' => Ok (mkLinear i' o' (p_weight p) (p_bias p))
  | _, _ => Raise TypeError
  end.

(** Python's [rnn_dim * 2] where [rnn_dim] may be [None]. *)
Definition py_mul (a : option nat) (k : nat) : result (option nat) :=
  match a with
  | Some n => Ok (Some (n * k)%nat)
  | None => Raise TypeError
  end.

(** A linear layer applied on the last axis of a rank-3 tensor. *)
Definition Linear_forward3 (l : Linear) (x : Tensor3) : result Tensor3 :=
  if (dim2 x =? in_features l)%nat then
    Ok (mkT3 (dim0 x) (dim1 x) (out_features l)
          (fun b i o =>
             (sumR (in_features l) (fun k => at3 x b i k * weight l o k)
              + bias l o)%R))
  else Raise RuntimeError.

(** A linear layer applied on the last axis of a rank-2 tensor. *)
Definition Linear_forward2 (l : Linear) (x : Tensor2) : result Tensor2 :=
  if (cols x =? in_features l)%nat then
    Ok (mkT2 (rows x) (out_features l)
          (fun b o =>
             (sumR (in_features l) (fun k => at2 x b k * weight l o k)
              + bias l o)%R))
  else Raise RuntimeError.


(** ** Slicing, broadcasting and reductions *)

(** Size of an axis after broadcasting two sizes against each other. *)
Definition bdim (a b : nat) : option nat :=
  if (a =? b)%nat then Some a
  else if (a =? 1)%nat then Some b
  else if (b =? 1)%nat then Some a
  else None.

(** Index into an axis of size [d] that takes part in a broadcast. *)
Definition bidx (d i : nat) : nat := if (d =? 1)%nat then 0%nat else i.

Definition broadcast3 (op : R -> R -> R) (a b : Tensor3) : result Tensor3 :=
  match bdim (dim0 a) (dim0 b), bdim (dim1 a) (dim1 b), bdim (dim2 a) (dim2 b) with
  | Some d0, Some d1, Some d2 =>
      Ok (mkT3 d0 d1 d2
            (fun i j k =>
               op (at3 a (bidx (dim0 a) i) (bidx (dim1 a) j) (bidx (dim2 a) k))
                  (at3 b (bidx (dim0 b) i) (bidx (dim1 b) j) (bidx (dim2 b) k))))
  | _, _, _ => Raise RuntimeError
  end.

(** [a + b] and [a * b] on rank-3 tensors. *)
Definition add3 : Tensor3 -> Tensor3 -> result Tensor3 := broadcast3 Rplus.
Definition mul3 : Tensor3 -> Tensor3 -> result Tensor3 := broadcast3 Rmult.

(** [x[:n]] *)
Definition slice0_to (x : Tensor3) (n : nat) : Tensor3 :=
  mkT3 (Nat.min n (dim0 x)) (dim1 x) (dim2 x) (at3 x).

(** [x[n:]] *)
Definition slice0_from (x : Tensor3) (n : nat) : Tensor3 :=
  mkT3 (dim0 x - n) (dim1 x) (dim2 x) (fun i j k => at3 x (n + i)%nat j k).

(** [x[:, :, :n]] *)
Definition slice2_to (x : Tensor3) (n : nat) : Tensor3 :=
  mkT3 (dim0 x) (dim1 x) (Nat.min n (dim2 x)) (at3 x).

(** [x[:, :, n:]] *)
Definition slice2_from (x : Tensor3) (n : nat) : Tensor3 :=
  mkT3 (dim0 x) (dim1 x) (dim2 x - n) (fun i j k => at3 x i j (n + k)%nat).

(** [x.sum(dim=1)] *)
Definition sum_dim1 (x : Tensor3) : Tensor2 :=
  mkT2 (dim0 x) (dim2 x) (fun b k => sumR (dim1 x) (fun s => at3 x b s k)).

(** [x.unsqueeze(1)] *)
Definition unsqueeze1 (x : Tensor2) : Tensor3 :=
  mkT3 (rows x) 1 (cols x) (fun b _ k => at2 x b k).

(** [x.squeeze(1)] where the result is used as a rank-2 tensor.  A recurrent
    layer run on a single time step returns a middle axis of size 1, which
    is what both decoder steps feed it.  Were the axis any other size the
    tensor would stay rank 3: in the attention decoder the concatenation that
    follows would raise; in the plain decoder the output layer would return
    rank-3 scores; that case is not followed further and is given as an
    exception here. *)
Definition squeeze1 (x : Tensor3) : result Tensor2 :=
  if (dim1 x =? 1)%nat then Ok (mkT2 (dim0 x) (dim2 x) (fun b k => at3 x b 0%nat k))
  else Raise RuntimeError.

(** [torch.cat((a, b), dim=1)] on rank-2 tensors. *)
Definition cat2_dim1 (a b : Tensor2) : result Tensor2 :=
  if (rows a =? rows b)%nat then
    Ok (mkT2 (rows a) (cols a + cols b)
          (fun n j => if (j <? cols a)%nat then at2 a n j
                      else at2 b n (j - cols a)%nat))
  else Raise RuntimeError.

(** [x[:, t]] on an integer matrix. *)
Definition select_col (x : LongTensor2) (t : nat) : result LongTensor1 :=
  if (t <? lcols x)%nat then Ok (mkL1 (lrows x) (fun b => lat2 x b t))
  else Raise IndexError.

(** [outputs[:, t] = value]: the value is broadcast to the slot
    [(dim0 outputs, dim2 outputs)]. *)
Definition setitem_col (outputs : Tensor3) (t : nat) (value : Tensor2)
  : result Tensor3 :=
  if negb (t <? dim1 outputs)%nat then Raise IndexError
  else if ((rows value =? dim0 outputs) || (rows value =? 1))%nat
          && ((cols value =? dim2 outputs) || (cols value =? 1))%nat then
    Ok (mkT3 (dim0 outputs) (dim1 outputs) (dim2 outputs)
          (fun b t' v =>
             if (t' =? t)%nat then
               at2 value (if (rows value =? dim0 outputs)%nat then b else 0%nat)
                         (if (cols value =? dim2 outputs)%nat then v else 0%nat)
             else at3 outputs b t' v))
  else Raise RuntimeError.

Definition Rltb (x y : R) : bool := if Rlt_dec x y then true else false.

(** Position of the first maximum of [f 0 .. f n]. *)
Fixpoint argmax_upto (f : nat -> R) (n : nat) : nat :=
  match n with
  | O => O
  | S k => let i := argmax_upto f k in
           if Rltb (f i) (f (S k)) then S k else i
  end.

Definition argmax_row (x : Tensor2) (b : nat) : nat :=
  argmax_upto (at2 x b) (cols x - 1).

Definition max_row (x : Tensor2) (b : nat) : R := at2 x b (argmax_row x b).

(** [values, indices = x.max(dim=1)]; reducing an empty axis is an error. *)
Definition max_dim1 (x : Tensor2) : result ((nat -> R) * LongTensor1) :=
  if (cols x =? 0)%nat then Raise IndexError
  else Ok (max_row x, mkL1 (rows x) (fun b => Z.of_nat (argmax_row x b))).

(** Python's [for t in ts: st = body(t, st)] with exceptions. *)
Fixpoint for_range {St : Type} (body : nat -> St -> result St)
  (ts : list nat) (st : St) : result St :=
  match ts with
  | [] => Ok st
  | t :: ts' => st' <- body t st ;; for_range body ts' st'
  end.

(** [range(a, b)] *)
Definition range (a b : nat) : list nat := seq a (b - a).

(** ** [nn.Embedding] *)

Record Embedding : Type := mkEmbedding {
  num_embeddings : nat;
  embedding_dim : nat;
  table : nat -> nat -> R
}.

Definition valid_token (e : Embedding) (z : Z) : bool :=
  (0 <=? z)%Z && (z <? Z.of_nat (num_embeddings e))%Z.

(** Lookup of a vector of token ids; an id outside the table is an
    [IndexError]. *)
Definition Embedding_forward1 (e : Embedding) (x : LongTensor1) : result Tensor2 :=
  if forallb (fun b => valid_token e (lat1 x b)) (seq 0 (llen x)) then
    Ok (mkT2 (llen x) (embedding_dim e)
          (fun b j => table e (Z.to_nat (lat1 x b)) j))
  else Raise IndexError.

(** Lookup of a matrix of token ids. *)
Definition Embedding_forward2 (e : Embedding) (x : LongTensor2) : result Tensor3 :=
  if forallb (fun b => forallb (fun t => valid_token e (lat2 x b t))
                               (seq 0 (lcols x)))
             (seq 0 (lrows x)) then
    Ok (mkT3 (lrows x) (lcols x) (embedding_dim e)
          (fun b t j => table e (Z.to_nat (lat2 x b t)) j))
  else Raise IndexError.

(** ** Sequence packing ([torch.nn.utils.rnn]) *)

(** A packed batch: the padded data together with the true lengths; only the
    entries [data b t _] with [t < lengths[b]] belong to it. *)
Record PackedSequence : Type := mkPacked {
  ps_data : Tensor3;
  ps_lengths : list Z
}.

(** Every element is at least as large as the one that follows it. *)
Fixpoint sorted_decreasing (l : list Z) : bool :=
  match l with
  | [] => true
  | x :: l' =>
      match l' with
      | [] => true
      | y :: _ => (y <=? x)%Z && sorted_decreasing l'
      end
  end.

Definition numel3 (x : Tensor3) : nat := (dim0 x * dim1 x * dim2 x)%nat.

Definition length_at (l : list Z) (b : nat) : Z := nth b l 0%Z.

(** An integer that a 64-bit signed tensor entry can hold. *)
Definition fits_int64 (z : Z) : bool :=
  (-9223372036854775808 <=? z)%Z && (z <=? 9223372036854775807)%Z.

(** [pack_padded_sequence(input, lengths, batch_first=True)] with the default
    [enforce_sorted=True]: the library first converts the lengths to a tensor
    of 64-bit integers, which fails on an entry that does not fit; it then
    rejects an empty input, a length vector of the wrong size, a length that
    is not positive, and a length vector that is not sorted in decreasing
    order.  Each of these is a [RuntimeError]. *)
Definition pack_padded_sequence (input : Tensor3) (lengths : list Z)
  : result PackedSequence :=
  if negb (forallb fits_int64 lengths) then Raise RuntimeError
  else if (numel3 input =? 0)%nat then Raise RuntimeError
  else if negb (List.length lengths =? dim0 input)%nat then Raise RuntimeError
  else if (last lengths 0 <=? 0)%Z then Raise RuntimeError
  else if negb (sorted_decreasing lengths) then Raise RuntimeError
  else Ok (mkPacked input lengths).

(** [pad_packed_sequence(seq, batch_first=True)]: back to a padded tensor
    whose time axis is the longest length, zero beyond each true length. *)
Definition pad_packed_sequence (p : PackedSequence) : Tensor3 * list Z :=
  let d := ps_data p in
  (mkT3 (dim0 d) (Z.to_nat (hd 0%Z (ps_lengths p))) (dim2 d)
     (fun b t k => if (Z.of_nat t <? length_at (ps_lengths p) b)%Z
                   then at3 d b t k else 0%R),
   ps_lengths p).

(** ** Stages of an encoder call

    An encoder's [forward] is a sequence of calls into its sub-modules and the
    packing library.  The log records which of them were entered, in order,
    so that it can be said what ran before an exception was raised. *)

Inductive stage : Type :=
| StEmbedding
| StBatchNorm
| StPack
| StRecurrence
| StPad.

Definition traced (A : Type) : Type := (list stage * result A)%type.

Definition tret {A : Type} (a : A) : traced A := ([], Ok a).

Definition tbind {A B : Type} (c : traced A) (k : A -> traced B) : traced B :=
  match c with
  | (l, Ok a) => let (l', r) := k a in (l ++ l', r)
  | (l, Raise e) => (l, Raise e)
  end.

(** Enter stage [s] and run it. *)
Definition call {A : Type} (s : stage) (c : result A) : traced A := ([s], c).

(** A tensor expression of [forward] itself (no sub-module is entered). *)
Definition inline {A : Type} (c : result A) : traced A := ([], c).

Notation "x <~ c ;; k" := (tbind c (fun x => k))
  (at level 61, c at next level, right associativity).
Notation "' pat <~ c ;; k" := (tbind c (fun x => match x with pat => k end))
  (at level 61, pat pattern, c at next level, right associativity).

Definition stages_entered {A : Type} (r : traced A) : list stage := fst r.
Definition outcome {A : Type} (r : traced A) : result A := snd r.

(** The call was refused by a check at the entry of [forward]: it raised and
    no stage had been entered. *)
Definition rejected_at_entry {A : Type} (r : traced A) : Prop :=
  stages_entered r = [] /\ is_ok (outcome r) = false.

Definition stage_eqb (a b : stage) : bool :=
  match a, b with
  | StEmbedding, StEmbedding | StBatchNorm, StBatchNorm | StPack, StPack
  | StRecurrence, StRecurrence | StPad, StPad => true
  | _, _ => false
  end.

(** Some recurrence computation was started. *)
Definition recurrence_ran {A : Type} (r : traced A) : bool :=
  existsb (stage_eqb StRecurrence) (stages_entered r).

(** * [02_Seq2SeqAttention/model.py] *)

Module Attn.

(** ** [class Attention] *)

Record Attention : Type := mkAttention {
  method : string;
  nn : option Linear;
  v : option Linear
}.

(** Values of the parameters the constructor allocates. *)
Record AttentionParams : Type := mkAttentionParams {
  nn_params : LinearParams;
  v_params : LinearParams
}.

Definition valid_methods : list string :=
  ["dot"%string; "general"%string; "concat"%string].

(** Python's [s in l] on strings. *)
Definition str_in (s : string) (l : list string) : bool :=
  existsb (String.eqb s) l.

(** [Attention.__init__(self, method, rnn_dim=None)] *)
Definition Attention_init (method : string) (rnn_dim : option nat)
  (theta : AttentionParams) : result Attention :=
  let self := mkAttention method None None in
  if negb (str_in method valid_methods) then Raise NotImplementedError
  else
    self <- (if String.eqb method "general" then
               l <- nn_Linear rnn_dim rnn_dim (nn_params theta) ;;
               Ok (mkAttention method (Some l) (v self))
             else Ok self) ;;
    self <- (if String.eqb method "concat" then
               d2 <- py_mul rnn_dim 2 ;;
               l <- nn_Linear d2 rnn_dim (nn_params theta) ;;
               lv <- nn_Linear rnn_dim (Some 1%nat) (v_params theta) ;;
               Ok (mkAttention method (Some l) (Some lv))
             else Ok self) ;;
    Ok self.

(** Attribute lookup [self.nn] / [self.v]. *)
Definition getattr (a : option Linear) : result Linear :=
  match a with
  | Some l => Ok l
  | None => Raise AttributeError
  end.

Definition Attention_dot (self : Attention) (src_inputs tar_input : Tensor3)
  : result Tensor3 :=
  bmm src_inputs tar_input.

Definition Attention_general (self : Attention) (src_inputs tar_input : Tensor3)
  : result Tensor3 :=
  l <- getattr (nn self) ;;
  attention_value <- Linear_forward3 l src_inputs ;;
  bmm attention_value tar_input.

Definition Attention_concat (self : Attention) (src_inputs tar_input : Tensor3)
  : result Tensor3 :=
  let src_inputs := permute021 src_inputs in
  tar_input <- expand_last tar_input (dim2 src_inputs) ;;
  hidden <- cat3_dim1 src_inputs tar_input ;;
  l <- getattr (nn self) ;;
  h <- Linear_forward3 l (permute021 hidden) ;;
  lv <- getattr (v self) ;;
  Linear_forward3 lv (tan3 h).

(** [Attention.forward(self, src_inputs, tar_input)] *)
Definition Attention_forward (self : Attention) (src_inputs tar_input : Tensor3)
  : result Tensor3 :=
  let tar_input := permute021 tar_input in
  attention_value <-
    (if String.eqb (method self) "dot" then
       Attention_dot self src_inputs tar_input
     else if String.eqb (method self) "general" then
       Attention_general self src_inputs tar_input
     else if String.eqb (method self) "concat" then
       Attention_concat self src_inputs tar_input
     else Raise AttributeError (* the softmax of [None] *)) ;;
  Ok (softmax_dim1 attention_value).

(** ** [class EncoderRNN] (bidirectional) *)

Section EncoderRNN.

Variable embedding : Embedding.
(** [self.batch_norm], an [nn.BatchNorm1d(seq_len)]. *)
Variable batch_norm : Tensor3 -> result Tensor3.
(** [self.rnn], a bidirectional [nn.LSTM] run on a packed batch; it returns
    the packed outputs and the final (hidden, cell). *)
Variable rnn : PackedSequence -> result (PackedSequence * (Tensor3 * Tensor3)).
Variable rnn_dim : nat.

Definition EncoderRNN_forward (inputs : LongTensor2) (length : list Z)
  : traced (Tensor3 * Tensor3 * Tensor3) :=
  embedded <~ call StEmbedding (Embedding_forward2 embedding inputs) ;;
  embedded <~ call StBatchNorm (batch_norm embedded) ;;
  packed <~ call StPack (pack_padded_sequence embedded length) ;;
  '(outputs, (hidden, cell)) <~ call StRecurrence (rnn packed) ;;
  '(outputs, outputs_length) <~ call StPad (Ok (pad_packed_sequence outputs)) ;;
  outputs <~ inline (add3 (slice2_to outputs rnn_dim) (slice2_from outputs rnn_dim)) ;;
  hidden <~ inline (add3 (slice0_to hidden 1) (slice0_from hidden 1)) ;;
  cell <~ inline (add3 (slice0_to cell 1) (slice0_from cell 1)) ;;
  tret (outputs, hidden, cell).

End EncoderRNN.

(** ** [class DecoderAttentionRNN] *)

Section DecoderAttentionRNN.

Variable attention : Attention.
Variable embedding : Embedding.
(** [self.batch_norm], an [nn.BatchNorm1d(1)]. *)
Variable batch_norm : Tensor3 -> result Tensor3.
(** [self.rnn], a unidirectional [nn.LSTM] advanced from a given state. *)
Variable rnn : Tensor3 -> Tensor3 * Tensor3 -> result (Tensor3 * (Tensor3 * Tensor3)).
Variable linear : Linear.

Definition DecoderAttentionRNN_forward (src_outputs : Tensor3)
  (tar_input : LongTensor1) (last_hidden last_cell : Tensor3)
  : result (Tensor2 * Tensor3 * Tensor3) :=
  embedded <- Embedding_forward1 embedding tar_input ;;
  let embedded := unsqueeze1 embedded in
  embedded <- batch_norm embedded ;;
  '(dec_output, (dec_hidden, dec_cell)) <- rnn embedded (last_hidden, last_cell) ;;
  attention_distribution <- Attention_forward attention src_outputs dec_output ;;
  temp <- mul3 src_outputs attention_distribution ;;
  let context_vector := sum_dim1 temp in
  dec_output <- squeeze1 dec_output ;;
  concat <- cat2_dim1 dec_output context_vector ;;
  predication <- Linear_forward2 linear concat ;;
  Ok (predication, dec_hidden, dec_cell).

End DecoderAttentionRNN.

(** ** [class Seq2SeqAttention] *)

(** The variables of the decoding loop, with the position in the stream of
    values that [random.random()] returns. *)
Record loop_state : Type := mkLoop {
  input_ : LongTensor1;
  hidden : Tensor3;
  cell : Tensor3;
  outputs : Tensor3;
  rng : nat
}.

Section Seq2SeqAttention.

(** [self.encoder] and [self.decoder]. *)
Variable encoder : LongTensor2 -> list Z -> result (Tensor3 * Tensor3 * Tensor3).
Variable decoder : Tensor3 -> LongTensor1 -> Tensor3 -> Tensor3
                   -> result (Tensor2 * Tensor3 * Tensor3).
(** [self.decoder.out_dim] *)
Variable out_dim : nat.
(** [random n] is the value of the [n]-th call of [random.random()]. *)
Variable random : nat -> R.

(** One iteration of the loop body, at time index [t]. *)
Definition loop_body (enc_output : Tensor3) (tar_input : LongTensor2)
  (teacher_forcing_rate : R) (t : nat) (st : loop_state) : result loop_state :=
  '(predication, hidden, cell) <-
     decoder enc_output (input_ st) (hidden st) (cell st) ;;
  outputs <- setitem_col (outputs st) t predication ;;
  '(values, indices) <- max_dim1 predication ;;
  let u := random (rng st) in
  input_ <- (if Rltb u teacher_forcing_rate then select_col tar_input t
             else Ok indices) ;;
  Ok (mkLoop input_ hidden cell outputs (S (rng st))).

(** The state in which the loop is entered. *)
Definition loop_init (src_input : LongTensor2) (src_length : list Z)
  (tar_input : LongTensor2) (rng0 : nat) : result (Tensor3 * loop_state) :=
  '(enc_output, hidden, cell) <- encoder src_input src_length ;;
  let batch_size := lrows tar_input in
  let max_len := lcols tar_input in
  let outputs := zeros3 batch_size max_len out_dim in
  input_ <- select_col tar_input 0 ;;
  Ok (enc_output, mkLoop input_ hidden cell outputs rng0).

(** The loop state after the iterations for [t = 1 .. n]. *)
Definition state_after (src_input : LongTensor2) (src_length : list Z)
  (tar_input : LongTensor2) (teacher_forcing_rate : R) (rng0 : nat) (n : nat)
  : result loop_state :=
  '(enc_output, st) <- loop_init src_input src_length tar_input rng0 ;;
  for_range (loop_body enc_output tar_input teacher_forcing_rate)
    (range 1 (S n)) st.

(** [Seq2SeqAttention.forward]; the second component is the position reached
    in the random stream. *)
Definition Seq2SeqAttention_forward (src_input : LongTensor2)
  (src_length : list Z) (tar_input : LongTensor2) (teacher_forcing_rate : R)
  (rng0 : nat) : result (Tensor3 * nat) :=
  '(enc_output, st) <- loop_init src_input src_length tar_input rng0 ;;
  st <- for_range (loop_body enc_output tar_input teacher_forcing_rate)
          (range 1 (lcols tar_input)) st ;;
  Ok (outputs st, rng st).

End Seq2SeqAttention.

(** Invariant of the decoding loop: the output tensor keeps the shape it was
    allocated with, and its time index 0 holds zeros. *)
Definition loop_inv (out_dim : nat) (tar_input : LongTensor2) (st : loop_state)
  : Prop :=
  shape3 (outputs st) = (lrows tar_input, lcols tar_input, out_dim) /\
  (forall b k, at3 (outputs st) b 0%nat k = 0%R).

End Attn.

(** * [01_Seq2Seq/model.py] *)

Module Plain.

(** ** [class EncoderRNN] *)

Section EncoderRNN.

Variable embedding : Embedding.
(** [self.rnn], a unidirectional [nn.LSTM] run on a packed batch. *)
Variable rnn : PackedSequence -> result (PackedSequence * (Tensor3 * Tensor3)).

Definition EncoderRNN_forward (inputs : LongTensor2) (length : list Z)
  : traced (Tensor3 * Tensor3) :=
  embedded <~ call StEmbedding (Embedding_forward2 embedding inputs) ;;
  packed <~ call StPack (pack_padded_sequence embedded length) ;;
  '(outputs, (hidden, cell)) <~ call StRecurrence (rnn packed) ;;
  '(outputs, _) <~ call StPad (Ok (pad_packed_sequence outputs)) ;;
  tret (hidden, cell).

End EncoderRNN.

(** ** [class DecoderRNN] *)

Section DecoderRNN.

Variable embedding : Embedding.
Variable rnn : Tensor3 -> Tensor3 * Tensor3 -> result (Tensor3 * (Tensor3 * Tensor3)).
(** [self.out], an [nn.Linear(rnn_dim, out_dim)]. *)
Variable out : Linear.

Definition DecoderRNN_forward (inputs : LongTensor1)
  (last_hidden last_cell : Tensor3) : result (Tensor2 * Tensor3 * Tensor3) :=
  embedded <- Embedding_forward1 embedding inputs ;;
  let embedded := unsqueeze1 embedded in
  '(output, (hidden, cell)) <- rnn embedded (last_hidden, last_cell) ;;
  output <- squeeze1 output ;;
  predication <- Linear_forward2 out output ;;
  Ok (predication, hidden, cell).

End DecoderRNN.

(** ** [class Seq2Seq] *)

Record loop_state : Type := mkLoop {
  input_ : LongTensor1;
  hidden : Tensor3;
  cell : Tensor3;
  outputs : Tensor3
}.

Section Seq2Seq.

Variable encoder : LongTensor2 -> list Z -> result (Tensor3 * Tensor3).
Variable decoder : LongTensor1 -> Tensor3 -> Tensor3
                   -> result (Tensor2 * Tensor3 * Tensor3).
(** [self.decoder.out_dim] *)
Variable out_dim : nat.

(** One iteration of the loop body, at time index [t]. *)
Definition loop_body (t : nat) (st : loop_state) : result loop_state :=
  '(predication, hidden, cell) <- decoder (input_ st) (hidden st) (cell st) ;;
  outputs <- setitem_col (outputs st) t predication ;;
  '(values, indices) <- max_dim1 predication ;;
  let input_ := indices in
  Ok (mkLoop input_ hidden cell outputs).

Definition loop_init (src_input : LongTensor2) (src_length : list Z)
  (trg_input : LongTensor2) : result loop_state :=
  '(hidden, cell) <- encoder src_input src_length ;;
  let batch_size := lrows trg_input in
  let max_len := lcols trg_input in
  let trg_vocab_size := out_dim in
  let outputs := zeros3 batch_size max_len trg_vocab_size in
  input_ <- select_col trg_input 0 ;;
  Ok (mkLoop input_ hidden cell outputs).

(** The loop state after the iterations for [t = 1 .. n]. *)
Definition state_after (src_input : LongTensor2) (src_length : list Z)
  (trg_input : LongTensor2) (n : nat) : result loop_state :=
  st <- loop_init src_input src_length trg_input ;;
  for_range loop_body (range 1 (S n)) st.

(** [Seq2Seq.forward] *)
Definition Seq2Seq_forward (src_input : LongTensor2) (src_length : list Z)
  (trg_input : LongTensor2) : result Tensor3 :=
  st <- loop_init src_input src_length trg_input ;;
  st <- for_range loop_body (range 1 (lcols trg_input)) st ;;
  Ok (outputs st).

End Seq2Seq.

(** Invariant of the decoding loop: the output tensor keeps the shape it was
    allocated with, and its time index 0 holds zeros. *)
Definition loop_inv (out_dim : nat) (trg_input : LongTensor2) (st : loop_state)
  : Prop :=
  shape3 (outputs st) = (lrows trg_input, lcols trg_input, out_dim) /\
  (forall b k, at3 (outputs st) b 0%nat k = 0%R).

End Plain.

(** * The loop states of the two drivers

    The loop state of the plain driver is the loop state of the attention
    driver without the position in the random stream. *)
Definition forget_rng (st : Attn.loop_state) : Plain.loop_state :=
  Plain.mkLoop (Attn.input_ st) (Attn.hidden st) (Attn.cell st) (Attn.outputs st).

(** Two rank-3 tensors have the same shape and the same entries at batch
    element [b]. *)
Definition same_at_batch (b : nat) (x y : Tensor3) : Prop :=
  shape3 x = shape3 y /\
  forall i j, (i < dim1 x)%nat -> (j < dim2 x)%nat -> at3 x b i j = at3 y b i j.

(** * Concrete inputs

    Small models and batches on which the statements below are exercised. *)

Definition ex_attention_params : Attn.AttentionParams :=
  Attn.mkAttentionParams
    (mkLinearParams (fun o k => if (o =? k)%nat then 1%R else 0%R) (fun _ => 0%R))
    (mkLinearParams (fun _ _ => 1%R) (fun _ => 0%R)).

Definition ex_general : Attn.Attention :=
  Attn.mkAttention "general"
    (Some (mkLinear 16 16 (p_weight (Attn.nn_params ex_attention_params))
                          (p_bias (Attn.nn_params ex_attention_params))))
    None.

(** Encoder outputs of shape (2, 4, 16) and a decoder state of shape
    (2, 1, 16). *)
Definition ex_enc_outputs : Tensor3 :=
  mkT3 2 4 16 (fun b s k => INR (b + s + k)).

Definition ex_dec_state : Tensor3 :=
  mkT3 2 1 16 (fun _ _ _ => 1%R).

(** A vocabulary of 10 tokens embedded in dimension 8. *)
Definition ex_embedding : Embedding :=
  mkEmbedding 10 8 (fun tok j => INR (tok + j)).

(** A normalisation layer in which the learned rescaling is the identity. *)
Definition ex_batch_norm (x : Tensor3) : result Tensor3 := Ok x.

(** A bidirectional one-layer recurrent stack with [rnn_dim = 16] whose
    outputs and states are constant. *)
Definition ex_enc_rnn (p : PackedSequence)
  : result (PackedSequence * (Tensor3 * Tensor3)) :=
  let B := dim0 (ps_data p) in
  Ok (mkPacked (mkT3 B (dim1 (ps_data p)) 32 (fun _ _ _ => 1%R)) (ps_lengths p),
      (mkT3 2 B 16 (fun _ _ _ => 1%R), mkT3 2 B 16 (fun _ _ _ => 1%R))).

(** A batch of two source sequences padded to 4 time steps. *)
Definition ex_src_tokens : LongTensor2 :=
  mkL2 2 4 (fun b t => Z.of_nat (b + t)).

(** A bidirectional two-layer recurrent stack with [rnn_dim = 16]; slice
    [i] of the final states is filled with [i + 1]: layer 0 forward is 1,
    layer 0 backward 2, layer 1 forward 3, layer 1 backward 4. *)
Definition ex_enc_rnn_2layers (p : PackedSequence)
  : result (PackedSequence * (Tensor3 * Tensor3)) :=
  let B := dim0 (ps_data p) in
  Ok (mkPacked (mkT3 B (dim1 (ps_data p)) 32 (fun _ _ _ => 1%R)) (ps_lengths p),
      (mkT3 4 B 16 (fun i _ _ => INR (i + 1)),
       mkT3 4 B 16 (fun i _ _ => INR (i + 1)))).

(** A target batch of two sequences of 3 tokens. *)
Definition ex_tar_tokens : LongTensor2 :=
  mkL2 2 3 (fun b t => Z.of_nat (b + 2 * t)).

(** A unidirectional one-layer recurrent stack with [rnn_dim = 16]. *)
Definition ex_plain_enc_rnn (p : PackedSequence)
  : result (PackedSequence * (Tensor3 * Tensor3)) :=
  let B := dim0 (ps_data p) in
  Ok (mkPacked (mkT3 B (dim1 (ps_data p)) 16 (fun _ _ _ => 1%R)) (ps_lengths p),
      (mkT3 1 B 16 (fun _ _ _ => 1%R), mkT3 1 B 16 (fun _ _ _ => 1%R))).

(** The two encoders, built from the modules above. *)
Definition ex_attn_encoder (src : LongTensor2) (len : list Z)
  : result (Tensor3 * Tensor3 * Tensor3) :=
  outcome (Attn.EncoderRNN_forward ex_embedding ex_batch_norm ex_enc_rnn 16 src len).

Definition ex_plain_encoder (src : LongTensor2) (len : list Z)
  : result (Tensor3 * Tensor3) :=
  outcome (Plain.EncoderRNN_forward ex_embedding ex_plain_enc_rnn src len).

(** Decoders over a vocabulary of 3 words that score word [k] with [k] and
    leave the recurrent state as it is. *)
Definition ex_attn_decoder (enc : Tensor3) (inp : LongTensor1) (h c : Tensor3)
  : result (Tensor2 * Tensor3 * Tensor3) :=
  Ok (mkT2 (llen inp) 3 (fun _ k => INR k), h, c).

Definition ex_plain_decoder (inp : LongTensor1) (h c : Tensor3)
  : result (Tensor2 * Tensor3 * Tensor3) :=
  Ok (mkT2 (llen inp) 3 (fun _ k => INR k), h, c).

(** A random stream that always returns 1/2. *)
Definition ex_random (n : nat) : R := (/ 2)%R.

(** The same parameters with the biases set to 5. *)
Definition ex_attention_params_biased : Attn.AttentionParams :=
  Attn.mkAttentionParams
    (mkLinearParams (p_weight (Attn.nn_params ex_attention_params)) (fun _ => 5%R))
    (Attn.v_params ex_attention_params).

Definition ex_attention_params_vbiased : Attn.AttentionParams :=
  Attn.mkAttentionParams
    (Attn.nn_params ex_attention_params)
    (mkLinearParams (p_weight (Attn.v_params ex_attention_params)) (fun _ => 5%R)).

Definition ex_general_biased : Attn.Attention :=
  Attn.mkAttention "general"
    (Some (mkLinear 16 16 (p_weight (Attn.nn_params ex_attention_params_biased))
                          (p_bias (Attn.nn_params ex_attention_params_biased))))
    None.

Definition ex_concat : Attn.Attention :=
  Attn.mkAttention "concat"
    (Some (mkLinear 32 16 (p_weight (Attn.nn_params ex_attention_params))
                          (p_bias (Attn.nn_params ex_attention_params))))
    (Some (mkLinear 16 1 (p_weight (Attn.v_params ex_attention_params))
                         (p_bias (Attn.v_params ex_attention_params)))).

Definition ex_concat_biased : Attn.Attention :=
  Attn.mkAttention "concat"
    (Some (mkLinear 32 16 (p_weight (Attn.nn_params ex_attention_params_vbiased))
                          (p_bias (Attn.nn_params ex_attention_params_vbiased))))
    (Some (mkLinear 16 1 (p_weight (Attn.v_params ex_attention_params_vbiased))
                         (p_bias (Attn.v_params ex_attention_params_vbiased)))).

(** Encoder outputs of shape (2, 4, 16) for lengths [4; 2]: the second
    sequence is zero from position 2 on. *)
Definition ex_enc_outputs_padded : Tensor3 :=
  mkT3 2 4 16 (fun b s k => if (b =? 1)%nat && (2 <=? s)%nat then 0%R
                            else INR (b + s + k)).

(** A source batch in which the last token of the second sequence is 10,
    one past the vocabulary of [ex_embedding]. *)
Definition ex_src_tokens_invalid : LongTensor2 :=
  mkL2 2 4 (fun b t => if (b =? 1)%nat && (t =? 3)%nat then 10%Z
                       else Z.of_nat (b + t)).

(** A unidirectional one-layer decoder stack with [rnn_dim = 16] whose
    output is constant and which leaves the state as it is. *)
Definition ex_dec_rnn (x : Tensor3) (hc : Tensor3 * Tensor3)
  : result (Tensor3 * (Tensor3 * Tensor3)) :=
  Ok (mkT3 (dim0 x) 1 16 (fun _ _ _ => 1%R), hc).

(** Output layers onto a vocabulary of 3 words: word [v] is scored with [v]
    times the sum of the input features. *)
Definition ex_out_linear : Linear :=
  mkLinear 16 3 (fun v _ => INR v) (fun _ => 0%R).

Definition ex_attn_linear : Linear :=
  mkLinear 32 3 (fun v _ => INR v) (fun _ => 0%R).

(** A target batch that holds the seed column only. *)
Definition ex_tar_seed : LongTensor2 := mkL2 2 1 (fun b _ => Z.of_nat b).

(** A target batch with the seed column of [ex_tar_tokens] and the token 7
    everywhere else. *)
Definition ex_tar_tokens_alt : LongTensor2 :=
  mkL2 2 3 (fun b t => if (t =? 0)%nat then Z.of_nat (b + 2 * t) else 7%Z).

(** The final state of [ex_attn_encoder], as an encoder for the plain
    driver. *)
Definition ex_attn_encoder_states (src : LongTensor2) (len : list Z)
  : result (Tensor3 * Tensor3) :=
  '(_, h, c) <- ex_attn_encoder src len ;; Ok (h, c).

(** Encoder outputs of shape (2, 1, 16): a single source position. *)
Definition ex_enc_outputs_single : Tensor3 :=
  mkT3 2 1 16 (fun b _ k => INR (b + k)).

(** * Properties *)

Lemma bind_Ok_inv {A B : Type} (c : result A) (k : A -> result B) (b : B) :
  bind c k = Ok b -> exists a, c = Ok a /\ k a = Ok b.
Proof.
  destruct c as [a|e]; simpl; intros H.
  - exists a; split; [reflexivity | exact H].
  - discriminate H.
Qed.

(** ** Sums *)

Lemma sumR_ext (n : nat) (f g : nat -> R) :
  (forall i, (i < n)%nat -> f i = g i) -> sumR n f = sumR n g.
Proof.
  induction n as [|n IH]; intros H; simpl.
  - reflexivity.
  - rewrite IH by (intros i Hi; apply H; lia).
    rewrite (H n) by lia. reflexivity.
Qed.

Lemma sumR_scale (n : nat) (f : nat -> R) (c : R) :
  sumR n (fun i => (f i * c)%R) = (sumR n f * c)%R.
Proof.
  induction n as [|n IH]; simpl.
  - lra.
  - rewrite IH. lra.
Qed.

Lemma sumR_pos (n : nat) (f : nat -> R) :
  (0 < n)%nat -> (forall i, (i < n)%nat -> (0 < f i)%R) -> (0 < sumR n f)%R.
Proof.
  induction n as [|n IH]; intros Hn Hf.
  - lia.
  - simpl. destruct n as [|m].
    + simpl. specialize (Hf 0%nat ltac:(lia)). lra.
    + assert (0 < sumR (S m) f)%R by (apply IH; [lia | intros; apply Hf; lia]).
      specialize (Hf (S m) ltac:(lia)). lra.
Qed.

(** ** Softmax *)

Lemma softmax_dim1_shape (x : Tensor3) : shape3 (softmax_dim1 x) = shape3 x.
Proof. reflexivity. Qed.

Lemma softmax_dim1_pos (x : Tensor3) (b s k : nat) :
  (s < dim1 x)%nat -> (0 < at3 (softmax_dim1 x) b s k)%R.
Proof.
  intros Hs. simpl. apply Rdiv_lt_0_compat.
  - apply exp_pos.
  - apply sumR_pos; [lia | intros; apply exp_pos].
Qed.

Lemma softmax_dim1_sum (x : Tensor3) (b k : nat) :
  (0 < dim1 x)%nat ->
  sumR (dim1 x) (fun s => at3 (softmax_dim1 x) b s k) = 1%R.
Proof.
  intros Hs. simpl. unfold Rdiv. rewrite sumR_scale.
  apply Rinv_r.
  apply Rgt_not_eq, Rlt_gt.
  apply sumR_pos; [exact Hs | intros; apply exp_pos].
Qed.

(** ** The attention scorer *)

Lemma str_in_In (s : string) (l : list string) :
  Attn.str_in s l = true <-> In s l.
Proof.
  unfold Attn.str_in. rewrite existsb_exists. split.
  - intros [x [Hx He]]. apply String.eqb_eq in He. subst x. exact Hx.
  - intros H. exists s. split; [exact H | apply String.eqb_refl].
Qed.

Lemma shape3_inv (x : Tensor3) (a b c : nat) :
  shape3 x = (a, b, c) -> dim0 x = a /\ dim1 x = b /\ dim2 x = c.
Proof. unfold shape3. intros H. inversion H. auto. Qed.

(** What the constructor builds for each of the three methods. *)
Lemma Attention_init_cases (m : string) (rd : option nat)
  (theta : Attn.AttentionParams) (self : Attn.Attention) :
  Attn.Attention_init m rd theta = Ok self ->
  (m = "dot"%string /\ self = Attn.mkAttention "dot" None None) \/
  (m = "general"%string /\ exists d, rd = Some d /\
     self = Attn.mkAttention "general"
              (Some (mkLinear d d (p_weight (Attn.nn_params theta))
                                  (p_bias (Attn.nn_params theta)))) None) \/
  (m = "concat"%string /\ exists d, rd = Some d /\
     self = Attn.mkAttention "concat"
              (Some (mkLinear (d * 2) d (p_weight (Attn.nn_params theta))
                                        (p_bias (Attn.nn_params theta))))
              (Some (mkLinear d 1 (p_weight (Attn.v_params theta))
                                  (p_bias (Attn.v_params theta))))).
Proof.
  unfold Attn.Attention_init.
  destruct (Attn.str_in m Attn.valid_methods) eqn:Hin; simpl; [|discriminate].
  apply str_in_In in Hin. simpl in Hin.
  destruct Hin as [<- | [<- | [<- | []]]]; simpl.
  - intros H. inversion H. left. auto.
  - destruct rd as [d|]; simpl; [|discriminate].
    intros H. inversion H. right; left. split; [reflexivity|]. exists d. auto.
  - destruct rd as [d|]; simpl; [|discriminate].
    intros H. inversion H. right; right. split; [reflexivity|]. exists d. auto.
Qed.

(** Shape rules of the operations the scoring methods are made of. *)

Lemma bmm_ok (a b : Tensor3) (B S D K : nat) :
  shape3 a = (B, S, D) -> shape3 b = (B, D, K) ->
  exists y, bmm a b = Ok y /\ shape3 y = (B, S, K).
Proof.
  intros Ha Hb.
  destruct (shape3_inv _ _ _ _ Ha) as [Ha0 [Ha1 Ha2]].
  destruct (shape3_inv _ _ _ _ Hb) as [Hb0 [Hb1 Hb2]].
  unfold bmm. rewrite Ha0, Hb0, Ha2, Hb1, !Nat.eqb_refl. simpl.
  eexists. split; [reflexivity|].
  unfold shape3; simpl. rewrite Ha1, Hb2. reflexivity.
Qed.

Lemma Linear_forward3_ok (l : Linear) (x : Tensor3) (B S : nat) :
  shape3 x = (B, S, in_features l) ->
  exists y, Linear_forward3 l x = Ok y /\ shape3 y = (B, S, out_features l).
Proof.
  intros Hx. destruct (shape3_inv _ _ _ _ Hx) as [H0 [H1 H2]].
  unfold Linear_forward3. rewrite H2, Nat.eqb_refl.
  eexists. split; [reflexivity|].
  unfold shape3; simpl. rewrite H0, H1. reflexivity.
Qed.

Lemma expand_last_ok (x : Tensor3) (B D n : nat) :
  shape3 x = (B, D, 1%nat) ->
  exists y, expand_last x n = Ok y /\ shape3 y = (B, D, n).
Proof.
  intros Hx. destruct (shape3_inv _ _ _ _ Hx) as [H0 [H1 H2]].
  unfold expand_last. rewrite H2.
  destruct (1 =? n)%nat eqn:E.
  - apply Nat.eqb_eq in E. exists x. split; [reflexivity|].
    rewrite Hx, E. reflexivity.
  - simpl. eexists. split; [reflexivity|].
    unfold shape3; simpl. rewrite H0, H1. reflexivity.
Qed.

Lemma cat3_dim1_ok (a b : Tensor3) (B D1 D2 S : nat) :
  shape3 a = (B, D1, S) -> shape3 b = (B, D2, S) ->
  exists y, cat3_dim1 a b = Ok y /\ shape3 y = (B, (D1 + D2)%nat, S).
Proof.
  intros Ha Hb.
  destruct (shape3_inv _ _ _ _ Ha) as [Ha0 [Ha1 Ha2]].
  destruct (shape3_inv _ _ _ _ Hb) as [Hb0 [Hb1 Hb2]].
  unfold cat3_dim1. rewrite Ha0, Hb0, Ha2, Hb2, !Nat.eqb_refl. simpl.
  eexists. split; [reflexivity|].
  unfold shape3; simpl. rewrite Ha1, Hb1. reflexivity.
Qed.

Lemma permute021_shape (x : Tensor3) (a b c : nat) :
  shape3 x = (a, b, c) -> shape3 (permute021 x) = (a, c, b).
Proof.
  intros Hx. destruct (shape3_inv _ _ _ _ Hx) as [H0 [H1 H2]].
  unfold shape3; simpl. rewrite H0, H1, H2. reflexivity.
Qed.

Lemma tan3_shape (x : Tensor3) : shape3 (tan3 x) = shape3 x.
Proof. reflexivity. Qed.

(** The normalisation step alone: whatever scores of shape (B, S, 1) come out
    of the scoring method, the result is a distribution along the axis S. *)
Lemma softmax_distribution (x : Tensor3) (B S : nat) :
  shape3 x = (B, S, 1%nat) -> (0 < S)%nat ->
  shape3 (softmax_dim1 x) = (B, S, 1%nat) /\
  (forall b s, (b < B)%nat -> (s < S)%nat -> (0 <= at3 (softmax_dim1 x) b s 0)%R) /\
  (forall b, (b < B)%nat -> sumR S (fun s => at3 (softmax_dim1 x) b s 0) = 1%R).
Proof.
  intros Hx HS. destruct (shape3_inv _ _ _ _ Hx) as [H0 [H1 H2]].
  split; [rewrite softmax_dim1_shape; exact Hx|]. split.
  - intros b s _ Hs. apply Rlt_le, softmax_dim1_pos. lia.
  - intros b _. rewrite <- H1. apply softmax_dim1_sum. lia.
Qed.

(** The scoring methods return scores of shape (B, S, 1), which [forward]
    normalises. *)
Lemma Attention_forward_ok
  (m : string) (rd : option nat) (theta : Attn.AttentionParams)
  (self : Attn.Attention) (src_inputs tar_input : Tensor3) (B S D : nat) :
  Attn.Attention_init m rd theta = Ok self ->
  shape3 src_inputs = (B, S, D) ->
  shape3 tar_input = (B, 1%nat, D) ->
  (forall d, rd = Some d -> m <> "dot"%string -> D = d) ->
  exists x,
    Attn.Attention_forward self src_inputs tar_input = Ok (softmax_dim1 x) /\
    shape3 x = (B, S, 1%nat).
Proof.
  intros Hinit Hsrc Htar HD.
  pose proof (permute021_shape _ _ _ _ Htar) as Htar'.
  assert (Hscore : exists x,
             (if String.eqb (Attn.method self) "dot" then
                Attn.Attention_dot self src_inputs (permute021 tar_input)
              else if String.eqb (Attn.method self) "general" then
                Attn.Attention_general self src_inputs (permute021 tar_input)
              else if String.eqb (Attn.method self) "concat" then
                Attn.Attention_concat self src_inputs (permute021 tar_input)
              else Raise AttributeError) = Ok x /\
             shape3 x = (B, S, 1%nat)).
  { destruct (Attention_init_cases _ _ _ _ Hinit)
      as [[-> ->] | [[-> [d [-> ->]]] | [-> [d [-> ->]]]]]; simpl.
    - unfold Attn.Attention_dot. eapply bmm_ok; eassumption.
    - assert (Hd : d = D) by (symmetry; apply HD; [reflexivity | discriminate]).
      subst d. unfold Attn.Attention_general. simpl.
      destruct (Linear_forward3_ok
                  (mkLinear D D (p_weight (Attn.nn_params theta))
                     (p_bias (Attn.nn_params theta))) src_inputs B S Hsrc)
        as [y [Hy Hys]].
      rewrite Hy. simpl. eapply bmm_ok; eassumption.
    - assert (Hd : d = D) by (symmetry; apply HD; [reflexivity | discriminate]).
      subst d. unfold Attn.Attention_concat. simpl.
      pose proof (permute021_shape _ _ _ _ Hsrc) as Hsrc'.
      destruct (expand_last_ok (permute021 tar_input) B D (dim1 src_inputs) Htar')
        as [e [He Hes]].
      rewrite He. simpl.
      destruct (shape3_inv _ _ _ _ Hsrc) as [_ [Hs1 _]]. rewrite Hs1 in Hes.
      destruct (cat3_dim1_ok _ _ _ _ _ _ Hsrc' Hes) as [h [Hh Hhs]].
      rewrite Hh. simpl.
      apply permute021_shape in Hhs.
      replace (D + D)%nat with (D * 2)%nat in Hhs by lia.
      destruct (Linear_forward3_ok
                  (mkLinear (D * 2) D (p_weight (Attn.nn_params theta))
                     (p_bias (Attn.nn_params theta))) _ B S Hhs)
        as [y [Hy Hys]].
      rewrite Hy. simpl.
      apply (Linear_forward3_ok
               (mkLinear D 1 (p_weight (Attn.v_params theta))
                  (p_bias (Attn.v_params theta))) (tan3 y) B S).
      rewrite tan3_shape. exact Hys. }
  destruct Hscore as [x [Hx Hshape]].
  exists x. split; [|exact Hshape].
  unfold Attn.Attention_forward. cbv zeta. rewrite Hx. reflexivity.
Qed.

(** C1. For each of the three methods (an [Attention] object that the
    constructor returned), encoder outputs of shape (B, S, D) with S >= 1 and a
    decoder state of shape (B, 1, D) -- where D is the [rnn_dim] the linear
    layers of 'general' and 'concat' were built for -- [forward] returns a
    tensor of shape (B, S, 1) whose entries are non-negative and, for every
    batch element, sum to 1 over all S positions.  No position is masked:
    [forward] is not given the true lengths, and the sum ranges over the
    whole padded axis. *)
Theorem Attention_forward_distribution
  (m : string) (rd : option nat) (theta : Attn.AttentionParams)
  (self : Attn.Attention) (src_inputs tar_input : Tensor3) (B S D : nat) :
  Attn.Attention_init m rd theta = Ok self ->
  shape3 src_inputs = (B, S, D) ->
  shape3 tar_input = (B, 1%nat, D) ->
  (0 < S)%nat ->
  (forall d, rd = Some d -> m <> "dot"%string -> D = d) ->
  exists out,
    Attn.Attention_forward self src_inputs tar_input = Ok out /\
    shape3 out = (B, S, 1%nat) /\
    (forall b s, (b < B)%nat -> (s < S)%nat -> (0 <= at3 out b s 0)%R) /\
    (forall b, (b < B)%nat -> sumR S (fun s => at3 out b s 0) = 1%R).
Proof.
  intros Hinit Hsrc Htar HS HD.
  destruct (Attention_forward_ok m rd theta self src_inputs tar_input B S D
              Hinit Hsrc Htar HD) as [x [Hx Hshape]].
  exists (softmax_dim1 x). split; [exact Hx|].
  apply softmax_distribution; assumption.
Qed.

(** C1, at the shapes of the spec's scenario: encoder outputs (2, 4, 16) and
    a decoder state (2, 1, 16), with the 'general' scorer. *)
Lemma Attention_forward_distribution_witness :
  Attn.Attention_init "general" (Some 16%nat) ex_attention_params = Ok ex_general /\
  exists out,
    Attn.Attention_forward ex_general ex_enc_outputs ex_dec_state = Ok out /\
    shape3 out = (2%nat, 4%nat, 1%nat) /\
    (forall b s, (b < 2)%nat -> (s < 4)%nat -> (0 <= at3 out b s 0)%R) /\
    (forall b, (b < 2)%nat -> sumR 4 (fun s => at3 out b s 0) = 1%R).
Proof.
  split; [reflexivity|].
  apply (Attention_forward_distribution "general" (Some 16%nat)
           ex_attention_params ex_general ex_enc_outputs ex_dec_state
           2%nat 4%nat 16%nat).
  - reflexivity.
  - reflexivity.
  - reflexivity.
  - lia.
  - intros d Hd _. inversion Hd. reflexivity.
Defined.

(** C3. A method string outside {dot, general, concat} makes the constructor
    raise (the [NotImplementedError] of its first statement), whatever
    [rnn_dim] is, so no [Attention] object exists on which [forward] could be
    called.  With one of the three strings the constructor returns an object
    carrying that method: for 'dot' always, for 'general' and 'concat' when the
    [rnn_dim] their linear layers are built from is supplied. *)
Theorem Attention_init_method_check :
  (forall method rnn_dim theta,
      ~ In method Attn.valid_methods ->
      Attn.Attention_init method rnn_dim theta = Raise NotImplementedError) /\
  (forall method d theta,
      In method Attn.valid_methods ->
      exists self, Attn.Attention_init method (Some d) theta = Ok self /\
                   Attn.method self = method) /\
  (forall rnn_dim theta,
      exists self, Attn.Attention_init "dot" rnn_dim theta = Ok self /\
                   Attn.method self = "dot"%string).
Proof.
  split; [|split].
  - intros method rnn_dim theta Hnot.
    unfold Attn.Attention_init.
    destruct (Attn.str_in method Attn.valid_methods) eqn:Hin.
    + apply str_in_In in Hin. contradiction.
    + reflexivity.
  - intros method d theta Hin. simpl in Hin.
    destruct Hin as [<- | [<- | [<- | []]]]; eexists; split; reflexivity.
  - intros rnn_dim theta. eexists; split; reflexivity.
Qed.

(** C3 at 'bilinear' (refused) and at 'concat' with [rnn_dim = 16]
    (accepted). *)
Lemma Attention_init_method_check_witness :
  Attn.Attention_init "bilinear" None ex_attention_params
    = Raise NotImplementedError /\
  exists self, Attn.Attention_init "concat" (Some 16%nat) ex_attention_params
                 = Ok self /\ Attn.method self = "concat"%string.
Proof.
  split.
  - apply (proj1 Attention_init_method_check).
    simpl. intros [H | [H | [H | []]]]; discriminate H.
  - apply (proj1 (proj2 Attention_init_method_check)).
    simpl. right; right; left. reflexivity.
Defined.

(** Without [rnn_dim] the linear layers of 'general' and 'concat' cannot be
    built; the failure is a [TypeError], not the method check. *)
Lemma Attention_init_needs_rnn_dim (theta : Attn.AttentionParams) :
  Attn.Attention_init "general" None theta = Raise TypeError /\
  Attn.Attention_init "concat" None theta = Raise TypeError.
Proof. split; reflexivity. Qed.

(** ** The encoders and the length vector *)

Lemma pack_padded_sequence_unsorted (input : Tensor3) (lengths : list Z) :
  sorted_decreasing lengths = false ->
  pack_padded_sequence input lengths = Raise RuntimeError.
Proof.
  intros Hs. unfold pack_padded_sequence.
  destruct (negb (forallb fits_int64 lengths)); [reflexivity|].
  destruct (numel3 input =? 0)%nat; [reflexivity|].
  destruct (negb (List.length lengths =? dim0 input)%nat); [reflexivity|].
  destruct (last lengths 0 <=? 0)%Z; [reflexivity|].
  rewrite Hs. reflexivity.
Qed.

(** A sorted length vector of 64-bit integers, of the right size and
    positive, is accepted. *)
Lemma pack_padded_sequence_sorted (input : Tensor3) (lengths : list Z) :
  forallb fits_int64 lengths = true ->
  numel3 input <> 0%nat ->
  List.length lengths = dim0 input ->
  (0 < last lengths 0)%Z ->
  sorted_decreasing lengths = true ->
  pack_padded_sequence input lengths = Ok (mkPacked input lengths).
Proof.
  intros Hf Hn Hl Hp Hs. unfold pack_padded_sequence. rewrite Hf. cbn [negb].
  destruct (Nat.eqb_spec (numel3 input) 0); [contradiction|].
  rewrite Hl, Nat.eqb_refl. simpl.
  destruct (Z.leb_spec (last lengths 0%Z) 0%Z); [lia|].
  rewrite Hs. reflexivity.
Qed.

Lemma Attn_EncoderRNN_forward_unsorted
  (embedding : Embedding) (batch_norm : Tensor3 -> result Tensor3)
  (rnn : PackedSequence -> result (PackedSequence * (Tensor3 * Tensor3)))
  (rnn_dim : nat) (inputs : LongTensor2) (lengths : list Z) :
  sorted_decreasing lengths = false ->
  let r := Attn.EncoderRNN_forward embedding batch_norm rnn rnn_dim inputs lengths in
  is_ok (outcome r) = false /\
  recurrence_ran r = false /\
  (forall e e', Embedding_forward2 embedding inputs = Ok e ->
                batch_norm e = Ok e' ->
                stages_entered r = [StEmbedding; StBatchNorm; StPack] /\
                outcome r = Raise RuntimeError).
Proof.
  intros Hs r. subst r. unfold Attn.EncoderRNN_forward.
  destruct (Embedding_forward2 embedding inputs) as [e|x] eqn:He; simpl.
  - destruct (batch_norm e) as [e'|x] eqn:Hb; simpl.
    + rewrite (pack_padded_sequence_unsorted e' lengths Hs). simpl.
      split; [reflexivity | split; [reflexivity | split; reflexivity]].
    + split; [reflexivity | split; [reflexivity|]].
      intros e0 e0' H0 H1. inversion H0; subst e0.
      rewrite Hb in H1. discriminate H1.
  - split; [reflexivity | split; [reflexivity|]].
    intros e0 e0' H0. discriminate H0.
Qed.

Lemma Plain_EncoderRNN_forward_unsorted
  (embedding : Embedding)
  (rnn : PackedSequence -> result (PackedSequence * (Tensor3 * Tensor3)))
  (inputs : LongTensor2) (lengths : list Z) :
  sorted_decreasing lengths = false ->
  let r := Plain.EncoderRNN_forward embedding rnn inputs lengths in
  is_ok (outcome r) = false /\
  recurrence_ran r = false /\
  (forall e, Embedding_forward2 embedding inputs = Ok e ->
             stages_entered r = [StEmbedding; StPack] /\
             outcome r = Raise RuntimeError).
Proof.
  intros Hs r. subst r. unfold Plain.EncoderRNN_forward.
  destruct (Embedding_forward2 embedding inputs) as [e|x] eqn:He; simpl.
  - rewrite (pack_padded_sequence_unsorted e lengths Hs). simpl.
    split; [reflexivity | split; [reflexivity | split; reflexivity]].
  - split; [reflexivity | split; [reflexivity|]].
    intros e0 H0. discriminate H0.
Qed.

(** C2, as the code has it.  For every length vector that is not sorted in
    decreasing order, and whatever the other inputs and sub-modules are, the
    [forward] of either encoder raises and no recurrence computation is
    started.  The exception is not produced by a check at the entry of
    [forward]: when the embedding (and, in the attention variant, the
    normalisation) succeed, they have run, and the [RuntimeError] comes out
    of the packing call. *)
Theorem EncoderRNN_forward_unsorted_lengths (lengths : list Z) :
  sorted_decreasing lengths = false ->
  (forall embedding batch_norm rnn rnn_dim inputs,
      let r := Attn.EncoderRNN_forward embedding batch_norm rnn rnn_dim
                 inputs lengths in
      is_ok (outcome r) = false /\
      recurrence_ran r = false /\
      (forall e e', Embedding_forward2 embedding inputs = Ok e ->
                    batch_norm e = Ok e' ->
                    stages_entered r = [StEmbedding; StBatchNorm; StPack] /\
                    outcome r = Raise RuntimeError)) /\
  (forall embedding rnn inputs,
      let r := Plain.EncoderRNN_forward embedding rnn inputs lengths in
      is_ok (outcome r) = false /\
      recurrence_ran r = false /\
      (forall e, Embedding_forward2 embedding inputs = Ok e ->
                 stages_entered r = [StEmbedding; StPack] /\
                 outcome r = Raise RuntimeError)).
Proof.
  intros Hs. split.
  - intros. apply Attn_EncoderRNN_forward_unsorted. exact Hs.
  - intros. apply Plain_EncoderRNN_forward_unsorted. exact Hs.
Qed.

(** C2 at the lengths [2; 4] of a batch of two sequences padded to 4. *)
Lemma EncoderRNN_forward_unsorted_lengths_witness :
  sorted_decreasing [2; 4]%Z = false /\
  is_ok (outcome (Attn.EncoderRNN_forward ex_embedding ex_batch_norm ex_enc_rnn
                    16 ex_src_tokens [2; 4]%Z)) = false /\
  recurrence_ran (Plain.EncoderRNN_forward ex_embedding ex_enc_rnn
                    ex_src_tokens [2; 4]%Z) = false.
Proof.
  split; [reflexivity|]. split.
  - apply (proj1 (EncoderRNN_forward_unsorted_lengths [2; 4]%Z eq_refl)
             ex_embedding ex_batch_norm ex_enc_rnn 16%nat ex_src_tokens).
  - apply (proj2 (EncoderRNN_forward_unsorted_lengths [2; 4]%Z eq_refl)
             ex_embedding ex_enc_rnn ex_src_tokens).
Defined.

(** C2 as stated fails: on the unsorted lengths [2; 4] the attention encoder
    has entered the embedding, the normalisation and the packing call before
    the exception appears, so the call is not refused at entry. *)
Lemma EncoderRNN_forward_unsorted_not_rejected_at_entry :
  sorted_decreasing [2; 4]%Z = false /\
  stages_entered (Attn.EncoderRNN_forward ex_embedding ex_batch_norm ex_enc_rnn
                    16 ex_src_tokens [2; 4]%Z)
    = [StEmbedding; StBatchNorm; StPack] /\
  stages_entered (Plain.EncoderRNN_forward ex_embedding ex_enc_rnn
                    ex_src_tokens [2; 4]%Z)
    = [StEmbedding; StPack] /\
  ~ rejected_at_entry (Attn.EncoderRNN_forward ex_embedding ex_batch_norm
                         ex_enc_rnn 16 ex_src_tokens [2; 4]%Z) /\
  ~ rejected_at_entry (Plain.EncoderRNN_forward ex_embedding ex_enc_rnn
                         ex_src_tokens [2; 4]%Z).
Proof.
  split; [reflexivity|]. split; [reflexivity|]. split; [reflexivity|].
  split; intros [H _]; discriminate H.
Qed.

(** ** Merging the two directions of the attention encoder *)

Lemma bdim_refl (a : nat) : bdim a a = Some a.
Proof. unfold bdim. rewrite Nat.eqb_refl. reflexivity. Qed.

Lemma bdim_one_l (a : nat) : bdim 1 a = Some a.
Proof.
  unfold bdim. destruct (Nat.eqb_spec 1 a) as [<-|_]; reflexivity.
Qed.

Lemma bidx_lt (d i : nat) : (i < d)%nat -> bidx d i = i.
Proof.
  unfold bidx. intros H. destruct (Nat.eqb_spec d 1); [lia | reflexivity].
Qed.

(** Adding two tensors of one shape is the elementwise sum. *)
Lemma add3_same_shape (a b : Tensor3) (x y z : nat) :
  shape3 a = (x, y, z) -> shape3 b = (x, y, z) ->
  exists c, add3 a b = Ok c /\ shape3 c = (x, y, z) /\
    forall i j k, (i < x)%nat -> (j < y)%nat -> (k < z)%nat ->
      at3 c i j k = (at3 a i j k + at3 b i j k)%R.
Proof.
  intros Ha Hb.
  destruct (shape3_inv _ _ _ _ Ha) as [Ha0 [Ha1 Ha2]].
  destruct (shape3_inv _ _ _ _ Hb) as [Hb0 [Hb1 Hb2]].
  unfold add3, broadcast3.
  rewrite Ha0, Ha1, Ha2, Hb0, Hb1, Hb2, !bdim_refl.
  eexists. split; [reflexivity|]. split; [reflexivity|].
  intros i j k Hi Hj Hk. simpl.
  rewrite !bidx_lt by assumption. reflexivity.
Qed.

(** Adding a tensor whose first axis has size 1 to one whose first axis has
    size n: the single slice is added to each of the n slices. *)
Lemma add3_broadcast_first (a b : Tensor3) (n y z : nat) :
  shape3 a = (1%nat, y, z) -> shape3 b = (n, y, z) ->
  exists c, add3 a b = Ok c /\ shape3 c = (n, y, z) /\
    forall i j k, (i < n)%nat -> (j < y)%nat -> (k < z)%nat ->
      at3 c i j k = (at3 a 0%nat j k + at3 b i j k)%R.
Proof.
  intros Ha Hb.
  destruct (shape3_inv _ _ _ _ Ha) as [Ha0 [Ha1 Ha2]].
  destruct (shape3_inv _ _ _ _ Hb) as [Hb0 [Hb1 Hb2]].
  unfold add3, broadcast3.
  rewrite Ha0, Ha1, Ha2, Hb0, Hb1, Hb2, bdim_one_l, !bdim_refl.
  eexists. split; [reflexivity|]. split; [reflexivity|].
  intros i j k Hi Hj Hk. simpl.
  rewrite (bidx_lt n i), !(bidx_lt y j), !(bidx_lt z k) by assumption.
  reflexivity.
Qed.

(** The output channels: [outputs[:, :, :rnn_dim] + outputs[:, :, rnn_dim:]]
    adds the forward half to the backward half, for any number of layers. *)
Lemma merge_output_directions (outputs : Tensor3) (B T rnn_dim : nat) :
  shape3 outputs = (B, T, (2 * rnn_dim)%nat) ->
  exists o, add3 (slice2_to outputs rnn_dim) (slice2_from outputs rnn_dim) = Ok o /\
    shape3 o = (B, T, rnn_dim) /\
    forall b t k, (b < B)%nat -> (t < T)%nat -> (k < rnn_dim)%nat ->
      at3 o b t k = (at3 outputs b t k + at3 outputs b t (rnn_dim + k)%nat)%R.
Proof.
  intros Ho. destruct (shape3_inv _ _ _ _ Ho) as [H0 [H1 H2]].
  apply (add3_same_shape (slice2_to outputs rnn_dim) (slice2_from outputs rnn_dim)).
  - unfold shape3, slice2_to. cbn [dim0 dim1 dim2].
    rewrite H0, H1, H2. f_equal. lia.
  - unfold shape3, slice2_from. cbn [dim0 dim1 dim2].
    rewrite H0, H1, H2. f_equal. lia.
Qed.

(** The states: [hidden[:1] + hidden[1:]] on the (2 * n_layer, B, rnn_dim)
    state of a bidirectional stack adds slice 0 (layer 0, forward) to every
    other slice; the result has 2 * n_layer - 1 slices. *)
Lemma merge_state_directions (hidden : Tensor3) (n_layer B rnn_dim : nat) :
  (1 <= n_layer)%nat ->
  shape3 hidden = ((2 * n_layer)%nat, B, rnn_dim) ->
  exists h, add3 (slice0_to hidden 1) (slice0_from hidden 1) = Ok h /\
    shape3 h = ((2 * n_layer - 1)%nat, B, rnn_dim) /\
    forall i b k, (i < 2 * n_layer - 1)%nat -> (b < B)%nat -> (k < rnn_dim)%nat ->
      at3 h i b k = (at3 hidden 0%nat b k + at3 hidden (1 + i)%nat b k)%R.
Proof.
  intros Hn Hh. destruct (shape3_inv _ _ _ _ Hh) as [H0 [H1 H2]].
  apply (add3_broadcast_first (slice0_to hidden 1) (slice0_from hidden 1)).
  - unfold shape3, slice0_to. cbn [dim0 dim1 dim2].
    rewrite H0, H1, H2. f_equal. f_equal. lia.
  - unfold shape3, slice0_from. cbn [dim0 dim1 dim2].
    rewrite H0, H1, H2. reflexivity.
Qed.

(** With a single layer the merged state is (1, B, rnn_dim): the forward state
    plus the backward state. *)
Lemma merge_state_directions_one_layer (hidden : Tensor3) (B rnn_dim : nat) :
  shape3 hidden = (2%nat, B, rnn_dim) ->
  exists h, add3 (slice0_to hidden 1) (slice0_from hidden 1) = Ok h /\
    shape3 h = (1%nat, B, rnn_dim) /\
    forall b k, (b < B)%nat -> (k < rnn_dim)%nat ->
      at3 h 0%nat b k = (at3 hidden 0%nat b k + at3 hidden 1%nat b k)%R.
Proof.
  intros Hh.
  destruct (merge_state_directions hidden 1 B rnn_dim (le_n 1) Hh)
    as [h [Hadd [Hs Hat]]].
  exists h. split; [exact Hadd|]. split; [exact Hs|].
  intros b k Hb Hk. apply (Hat 0%nat b k); [simpl; lia | exact Hb | exact Hk].
Qed.

(** C4 at [n_layer = 2].  The recurrent stack returns a state of 4 slices
    (layer 0 forward, layer 0 backward, layer 1 forward, layer 1 backward,
    here filled with 1, 2, 3, 4).  The encoder returns 3 slices, not 2, and
    they are 1+2, 1+3 and 1+4: slice 0 added to each other slice, not the
    forward and backward states of each layer added together. *)
Theorem EncoderRNN_forward_two_layers_state :
  exists outputs hidden cell,
    outcome (Attn.EncoderRNN_forward ex_embedding ex_batch_norm ex_enc_rnn_2layers
               16 ex_src_tokens [4; 2]%Z) = Ok (outputs, hidden, cell) /\
    shape3 outputs = (2%nat, 4%nat, 16%nat) /\
    shape3 hidden = (3%nat, 2%nat, 16%nat) /\
    shape3 cell = (3%nat, 2%nat, 16%nat) /\
    shape3 hidden <> (2%nat, 2%nat, 16%nat) /\
    forall b k, (b < 2)%nat -> (k < 16)%nat ->
      at3 hidden 0%nat b k = (1 + 2)%R /\
      at3 hidden 1%nat b k = (1 + 3)%R /\
      at3 hidden 2%nat b k = (1 + 4)%R.
Proof.
  eexists. eexists. eexists.
  split; [reflexivity|].
  split; [reflexivity|]. split; [reflexivity|]. split; [reflexivity|].
  split; [discriminate|].
  intros b k Hb Hk. cbn. repeat split; lra.
Qed.

(** ** Loops *)

Lemma for_range_app {St : Type} (body : nat -> St -> result St)
  (l1 l2 : list nat) (st : St) :
  for_range body (l1 ++ l2) st
  = bind (for_range body l1 st) (for_range body l2).
Proof.
  revert st. induction l1 as [|t l1 IH]; intros st; simpl.
  - reflexivity.
  - destruct (body t st) as [st'|e]; simpl; [apply IH | reflexivity].
Qed.

(** A property that every iteration preserves holds when the loop ends. *)
Lemma for_range_invariant {St : Type} (body : nat -> St -> result St)
  (P : St -> Prop) (ts : list nat) :
  (forall t st st', In t ts -> P st -> body t st = Ok st' -> P st') ->
  forall st st', P st -> for_range body ts st = Ok st' -> P st'.
Proof.
  induction ts as [|t ts IH]; intros Hstep st st' HP Hrun; simpl in Hrun.
  - inversion Hrun. subst st'. exact HP.
  - destruct (bind_Ok_inv _ _ _ Hrun) as [st1 [H1 H2]].
    apply (IH (fun t' s s' Hin => Hstep t' s s' (or_intror Hin)) st1 st').
    + apply (Hstep t st st1 (or_introl eq_refl) HP H1).
    + exact H2.
Qed.

(** If every iteration succeeds on the states that satisfy an invariant, the
    loop runs to its end. *)
Lemma for_range_total {St : Type} (body : nat -> St -> result St)
  (P : St -> Prop) (ts : list nat) :
  (forall t st, In t ts -> P st -> exists st', body t st = Ok st' /\ P st') ->
  forall st, P st -> exists st', for_range body ts st = Ok st' /\ P st'.
Proof.
  induction ts as [|t ts IH]; intros Hstep st HP; simpl.
  - exists st. split; [reflexivity | exact HP].
  - destruct (Hstep t st (or_introl eq_refl) HP) as [st1 [H1 HP1]].
    rewrite H1. simpl.
    apply IH; [|exact HP1].
    intros t' s Hin. apply Hstep. right. exact Hin.
Qed.

Lemma range_from_one_snoc (n : nat) :
  range 1 (S (S n)) = range 1 (S n) ++ [S n].
Proof.
  unfold range. replace (S (S n) - 1)%nat with (S n) by lia.
  replace (S n - 1)%nat with n by lia.
  rewrite seq_S. reflexivity.
Qed.

Lemma range_from_one_In (t n : nat) :
  In t (range 1 n) -> (1 <= t < n)%nat.
Proof. unfold range. rewrite in_seq. lia. Qed.

(** ** Writing one time index of the output tensor *)

Lemma setitem_col_inv (o : Tensor3) (t : nat) (v : Tensor2) (o' : Tensor3) :
  setitem_col o t v = Ok o' ->
  shape3 o' = shape3 o /\
  (forall b t' k, t' <> t -> at3 o' b t' k = at3 o b t' k) /\
  (rows v = dim0 o -> cols v = dim2 o ->
   forall b k, at3 o' b t k = at2 v b k).
Proof.
  unfold setitem_col.
  destruct (negb (t <? dim1 o)%nat); [discriminate|].
  destruct (((rows v =? dim0 o)%nat || (rows v =? 1)%nat)
            && ((cols v =? dim2 o)%nat || (cols v =? 1)%nat)); [|discriminate].
  intros H. inversion H. subst o'. clear H.
  split; [reflexivity|]. split.
  - intros b t' k Hne. simpl.
    destruct (Nat.eqb_spec t' t); [contradiction | reflexivity].
  - intros Hr Hc b k. simpl.
    rewrite Nat.eqb_refl, Hr, Hc, !Nat.eqb_refl. reflexivity.
Qed.

Lemma setitem_col_ok (o : Tensor3) (t : nat) (v : Tensor2) :
  (t < dim1 o)%nat -> rows v = dim0 o -> cols v = dim2 o ->
  exists o', setitem_col o t v = Ok o'.
Proof.
  intros Ht Hr Hc. unfold setitem_col.
  destruct (Nat.ltb_spec t (dim1 o)); [|lia]. simpl.
  rewrite Hr, Hc, !Nat.eqb_refl. simpl. eexists. reflexivity.
Qed.

(** ** The maximum along the vocabulary axis *)

Lemma Rltb_true (x y : R) : Rltb x y = true <-> (x < y)%R.
Proof.
  unfold Rltb. destruct (Rlt_dec x y); split; intros H;
    try reflexivity; try assumption; try discriminate; contradiction.
Qed.

Lemma Rltb_false (x y : R) : Rltb x y = false <-> (y <= x)%R.
Proof.
  unfold Rltb. destruct (Rlt_dec x y); split; intros H;
    try reflexivity; try discriminate; lra.
Qed.

Lemma argmax_upto_le (f : nat -> R) (n : nat) : (argmax_upto f n <= n)%nat.
Proof.
  induction n as [|n IH]; simpl; [lia|].
  destruct (Rltb (f (argmax_upto f n)) (f (S n))); lia.
Qed.

(** The selected entry is a maximum ... *)
Lemma argmax_upto_max (f : nat -> R) (n j : nat) :
  (j <= n)%nat -> (f j <= f (argmax_upto f n))%R.
Proof.
  induction n as [|n IH]; intros Hj; simpl.
  - replace j with 0%nat by lia. lra.
  - destruct (Rltb (f (argmax_upto f n)) (f (S n))) eqn:E.
    + apply Rltb_true in E.
      destruct (Nat.eq_dec j (S n)) as [->|Hne]; [lra|].
      specialize (IH ltac:(lia)). lra.
    + apply Rltb_false in E.
      destruct (Nat.eq_dec j (S n)) as [->|Hne]; [lra|].
      apply IH. lia.
Qed.

(** ... and the first one. *)
Lemma argmax_upto_first (f : nat -> R) (n j : nat) :
  (j < argmax_upto f n)%nat -> (f j < f (argmax_upto f n))%R.
Proof.
  induction n as [|n IH]; simpl.
  - lia.
  - destruct (Rltb (f (argmax_upto f n)) (f (S n))) eqn:E.
    + apply Rltb_true in E. intros Hj.
      pose proof (argmax_upto_max f n j ltac:(lia)). lra.
    + exact IH.
Qed.

Lemma argmax_row_spec (x : Tensor2) (b : nat) :
  (0 < cols x)%nat ->
  (argmax_row x b < cols x)%nat /\
  (forall j, (j < cols x)%nat -> (at2 x b j <= at2 x b (argmax_row x b))%R) /\
  (forall j, (j < argmax_row x b)%nat -> (at2 x b j < at2 x b (argmax_row x b))%R).
Proof.
  intros Hc. unfold argmax_row. split; [|split].
  - pose proof (argmax_upto_le (at2 x b) (cols x - 1)). lia.
  - intros j Hj. apply argmax_upto_max. lia.
  - intros j Hj. apply argmax_upto_first. exact Hj.
Qed.

Lemma max_dim1_inv (x : Tensor2) (values : nat -> R) (indices : LongTensor1) :
  max_dim1 x = Ok (values, indices) ->
  (0 < cols x)%nat /\
  indices = mkL1 (rows x) (fun b => Z.of_nat (argmax_row x b)).
Proof.
  unfold max_dim1. destruct (Nat.eqb_spec (cols x) 0); [discriminate|].
  intros H. inversion H. split; [lia | reflexivity].
Qed.

Lemma select_col_inv (x : LongTensor2) (t : nat) (c : LongTensor1) :
  select_col x t = Ok c ->
  (t < lcols x)%nat /\ c = mkL1 (lrows x) (fun b => lat2 x b t).
Proof.
  unfold select_col. destruct (Nat.ltb_spec t (lcols x)) as [Hlt|Hge]; [|discriminate].
  intros H. inversion H. split; [exact Hlt | reflexivity].
Qed.

(** ** The attention driver *)

Section Seq2SeqAttentionFacts.

Variable encoder : LongTensor2 -> list Z -> result (Tensor3 * Tensor3 * Tensor3).
Variable decoder : Tensor3 -> LongTensor1 -> Tensor3 -> Tensor3
                   -> result (Tensor2 * Tensor3 * Tensor3).
Variable out_dim : nat.
Variable random : nat -> R.

(** What one successful iteration has done. *)
Lemma Attn_loop_body_inv (enc : Tensor3) (tar : LongTensor2) (rate : R)
  (t : nat) (st st' : Attn.loop_state) :
  Attn.loop_body decoder random enc tar rate t st = Ok st' ->
  exists pred h c,
    decoder enc (Attn.input_ st) (Attn.hidden st) (Attn.cell st) = Ok (pred, h, c) /\
    setitem_col (Attn.outputs st) t pred = Ok (Attn.outputs st') /\
    (0 < cols pred)%nat /\
    Attn.hidden st' = h /\ Attn.cell st' = c /\
    Attn.rng st' = S (Attn.rng st) /\
    ((Rltb (random (Attn.rng st)) rate = true /\
      select_col tar t = Ok (Attn.input_ st')) \/
     (Rltb (random (Attn.rng st)) rate = false /\
      Attn.input_ st' = mkL1 (rows pred) (fun b => Z.of_nat (argmax_row pred b)))).
Proof.
  unfold Attn.loop_body. intros H.
  destruct (bind_Ok_inv _ _ _ H) as [[[pred h] c] [Hdec H1]]. clear H.
  destruct (bind_Ok_inv _ _ _ H1) as [o [Hset H2]]. clear H1.
  destruct (bind_Ok_inv _ _ _ H2) as [[values indices] [Hmax H3]]. clear H2.
  destruct (bind_Ok_inv _ _ _ H3) as [inp [Hsel H4]]. clear H3.
  inversion H4. subst st'. clear H4. simpl.
  destruct (max_dim1_inv _ _ _ Hmax) as [Hc Hidx].
  exists pred, h, c.
  split; [exact Hdec|]. split; [exact Hset|]. split; [exact Hc|].
  split; [reflexivity|]. split; [reflexivity|]. split; [reflexivity|].
  destruct (Rltb (random (Attn.rng st)) rate).
  - left. split; [reflexivity | exact Hsel].
  - right. split; [reflexivity|]. inversion Hsel. subst inp. exact Hidx.
Qed.

Lemma Attn_loop_init_inv (src : LongTensor2) (len : list Z) (tar : LongTensor2)
  (rng0 : nat) (enc : Tensor3) (st0 : Attn.loop_state) :
  Attn.loop_init encoder out_dim src len tar rng0 = Ok (enc, st0) ->
  exists h c,
    encoder src len = Ok (enc, h, c) /\
    (0 < lcols tar)%nat /\
    st0 = Attn.mkLoop (mkL1 (lrows tar) (fun b => lat2 tar b 0%nat)) h c
            (zeros3 (lrows tar) (lcols tar) out_dim) rng0.
Proof.
  unfold Attn.loop_init. intros H.
  destruct (bind_Ok_inv _ _ _ H) as [[[enc' h] c] [Henc H1]]. clear H.
  destruct (bind_Ok_inv _ _ _ H1) as [inp [Hsel H2]]. clear H1.
  inversion H2. subst enc' st0. clear H2.
  destruct (select_col_inv _ _ _ Hsel) as [Hlt ->].
  exists h, c. split; [exact Henc|]. split; [exact Hlt | reflexivity].
Qed.

(** The state after iteration [S n] is the body at time index [S n] applied
    to the state after iteration [n]. *)
Lemma Attn_state_after_step (src : LongTensor2) (len : list Z)
  (tar : LongTensor2) (rate : R) (rng0 n : nat) (st st' : Attn.loop_state) :
  Attn.state_after encoder decoder out_dim random src len tar rate rng0 n = Ok st ->
  Attn.state_after encoder decoder out_dim random src len tar rate rng0 (S n) = Ok st' ->
  exists enc h0 c0,
    encoder src len = Ok (enc, h0, c0) /\
    Attn.loop_body decoder random enc tar rate (S n) st = Ok st'.
Proof.
  unfold Attn.state_after. intros Hn HSn.
  destruct (Attn.loop_init encoder out_dim src len tar rng0)
    as [[enc st0]|e] eqn:Hinit;
    cbv beta iota delta [bind] in Hn, HSn; [|discriminate].
  destruct (Attn_loop_init_inv _ _ _ _ _ _ Hinit) as [h0 [c0 [Henc _]]].
  exists enc, h0, c0. split; [exact Henc|].
  rewrite range_from_one_snoc, for_range_app, Hn in HSn. simpl in HSn.
  destruct (Attn.loop_body decoder random enc tar rate (S n) st); simpl in HSn;
    [exact HSn | discriminate].
Qed.

(** [forward] returns the output tensor of the state after the last
    iteration, [t = max_len - 1]. *)
Lemma Attn_forward_state_after (src : LongTensor2) (len : list Z)
  (tar : LongTensor2) (rate : R) (rng0 : nat) :
  Attn.Seq2SeqAttention_forward encoder decoder out_dim random src len tar rate rng0
  = bind (Attn.state_after encoder decoder out_dim random src len tar rate rng0
            (lcols tar - 1))
      (fun st => Ok (Attn.outputs st, Attn.rng st)).
Proof.
  unfold Attn.Seq2SeqAttention_forward, Attn.state_after.
  destruct (Attn.loop_init encoder out_dim src len tar rng0)
    as [[enc st0]|e] eqn:Hinit; simpl; [|reflexivity].
  destruct (Attn_loop_init_inv _ _ _ _ _ _ Hinit) as [_ [_ [_ [HL _]]]].
  replace (S (lcols tar - 1)) with (lcols tar) by lia. reflexivity.
Qed.

Lemma Attn_loop_body_preserves (enc : Tensor3) (tar : LongTensor2) (rate : R)
  (t : nat) (st st' : Attn.loop_state) :
  (1 <= t)%nat ->
  Attn.loop_inv out_dim tar st ->
  Attn.loop_body decoder random enc tar rate t st = Ok st' ->
  Attn.loop_inv out_dim tar st'.
Proof.
  intros Ht [Hshape Hzero] Hbody.
  destruct (Attn_loop_body_inv _ _ _ _ _ _ Hbody)
    as [pred [h [c [_ [Hset _]]]]].
  destruct (setitem_col_inv _ _ _ _ Hset) as [Hs [Hother _]].
  split.
  - rewrite Hs. exact Hshape.
  - intros b k. rewrite Hother by lia. apply Hzero.
Qed.

Lemma Attn_forward_inv (src : LongTensor2) (len : list Z) (tar : LongTensor2)
  (rate : R) (rng0 : nat) (out : Tensor3) (n : nat) :
  Attn.Seq2SeqAttention_forward encoder decoder out_dim random src len tar rate rng0
    = Ok (out, n) ->
  (0 < lcols tar)%nat /\
  shape3 out = (lrows tar, lcols tar, out_dim) /\
  (forall b k, at3 out b 0%nat k = 0%R).
Proof.
  unfold Attn.Seq2SeqAttention_forward. intros H.
  destruct (bind_Ok_inv _ _ _ H) as [[enc st0] [Hinit H1]]. clear H.
  destruct (bind_Ok_inv _ _ _ H1) as [st [Hrun H2]]. clear H1.
  inversion H2. subst out n. clear H2.
  destruct (Attn_loop_init_inv _ _ _ _ _ _ Hinit) as [h [c [_ [HL ->]]]].
  split; [exact HL|].
  apply (for_range_invariant
           (Attn.loop_body decoder random enc tar rate) (Attn.loop_inv out_dim tar)
           (range 1 (lcols tar))) with (st := Attn.mkLoop
             (mkL1 (lrows tar) (fun b => lat2 tar b 0%nat)) h c
             (zeros3 (lrows tar) (lcols tar) out_dim) rng0).
  - intros t s s' Hin HP Hb.
    apply (Attn_loop_body_preserves enc tar rate t s s'); try assumption.
    apply range_from_one_In in Hin. lia.
  - split; [reflexivity | intros; reflexivity].
  - exact Hrun.
Qed.

End Seq2SeqAttentionFacts.

(** ** The plain driver *)

Section Seq2SeqFacts.

Variable encoder : LongTensor2 -> list Z -> result (Tensor3 * Tensor3).
Variable decoder : LongTensor1 -> Tensor3 -> Tensor3
                   -> result (Tensor2 * Tensor3 * Tensor3).
Variable out_dim : nat.

Lemma Plain_loop_body_inv (t : nat) (st st' : Plain.loop_state) :
  Plain.loop_body decoder t st = Ok st' ->
  exists pred h c,
    decoder (Plain.input_ st) (Plain.hidden st) (Plain.cell st) = Ok (pred, h, c) /\
    setitem_col (Plain.outputs st) t pred = Ok (Plain.outputs st') /\
    (0 < cols pred)%nat /\
    Plain.hidden st' = h /\ Plain.cell st' = c /\
    Plain.input_ st' = mkL1 (rows pred) (fun b => Z.of_nat (argmax_row pred b)).
Proof.
  unfold Plain.loop_body. intros H.
  destruct (bind_Ok_inv _ _ _ H) as [[[pred h] c] [Hdec H1]]. clear H.
  destruct (bind_Ok_inv _ _ _ H1) as [o [Hset H2]]. clear H1.
  destruct (bind_Ok_inv _ _ _ H2) as [[values indices] [Hmax H3]]. clear H2.
  inversion H3. subst st'. clear H3. simpl.
  destruct (max_dim1_inv _ _ _ Hmax) as [Hc Hidx].
  exists pred, h, c.
  split; [exact Hdec|]. split; [exact Hset|]. split; [exact Hc|].
  split; [reflexivity|]. split; [reflexivity | exact Hidx].
Qed.

Lemma Plain_loop_init_inv (src : LongTensor2) (len : list Z) (trg : LongTensor2)
  (st0 : Plain.loop_state) :
  Plain.loop_init encoder out_dim src len trg = Ok st0 ->
  exists h c,
    encoder src len = Ok (h, c) /\
    (0 < lcols trg)%nat /\
    st0 = Plain.mkLoop (mkL1 (lrows trg) (fun b => lat2 trg b 0%nat)) h c
            (zeros3 (lrows trg) (lcols trg) out_dim).
Proof.
  unfold Plain.loop_init. intros H.
  destruct (bind_Ok_inv _ _ _ H) as [[h c] [Henc H1]]. clear H.
  destruct (bind_Ok_inv _ _ _ H1) as [inp [Hsel H2]]. clear H1.
  inversion H2. subst st0. clear H2.
  destruct (select_col_inv _ _ _ Hsel) as [Hlt ->].
  exists h, c. split; [exact Henc|]. split; [exact Hlt | reflexivity].
Qed.

Lemma Plain_state_after_step (src : LongTensor2) (len : list Z)
  (trg : LongTensor2) (n : nat) (st st' : Plain.loop_state) :
  Plain.state_after encoder decoder out_dim src len trg n = Ok st ->
  Plain.state_after encoder decoder out_dim src len trg (S n) = Ok st' ->
  Plain.loop_body decoder (S n) st = Ok st'.
Proof.
  unfold Plain.state_after. intros Hn HSn.
  destruct (Plain.loop_init encoder out_dim src len trg) as [st0|e];
    cbv beta iota delta [bind] in Hn, HSn; [|discriminate].
  rewrite range_from_one_snoc, for_range_app, Hn in HSn. simpl in HSn.
  destruct (Plain.loop_body decoder (S n) st); simpl in HSn;
    [exact HSn | discriminate].
Qed.

Lemma Plain_forward_state_after (src : LongTensor2) (len : list Z)
  (trg : LongTensor2) :
  Plain.Seq2Seq_forward encoder decoder out_dim src len trg
  = bind (Plain.state_after encoder decoder out_dim src len trg (lcols trg - 1))
      (fun st => Ok (Plain.outputs st)).
Proof.
  unfold Plain.Seq2Seq_forward, Plain.state_after.
  destruct (Plain.loop_init encoder out_dim src len trg) as [st0|e] eqn:Hinit;
    simpl; [|reflexivity].
  destruct (Plain_loop_init_inv _ _ _ _ Hinit) as [_ [_ [_ [HL _]]]].
  replace (S (lcols trg - 1)) with (lcols trg) by lia. reflexivity.
Qed.

Lemma Plain_loop_body_preserves (trg : LongTensor2)
  (t : nat) (st st' : Plain.loop_state) :
  (1 <= t)%nat ->
  Plain.loop_inv out_dim trg st ->
  Plain.loop_body decoder t st = Ok st' ->
  Plain.loop_inv out_dim trg st'.
Proof.
  intros Ht [Hshape Hzero] Hbody.
  destruct (Plain_loop_body_inv _ _ _ Hbody) as [pred [h [c [_ [Hset _]]]]].
  destruct (setitem_col_inv _ _ _ _ Hset) as [Hs [Hother _]].
  split.
  - rewrite Hs. exact Hshape.
  - intros b k. rewrite Hother by lia. apply Hzero.
Qed.

Lemma Plain_forward_inv (src : LongTensor2) (len : list Z) (trg : LongTensor2)
  (out : Tensor3) :
  Plain.Seq2Seq_forward encoder decoder out_dim src len trg = Ok out ->
  (0 < lcols trg)%nat /\
  shape3 out = (lrows trg, lcols trg, out_dim) /\
  (forall b k, at3 out b 0%nat k = 0%R).
Proof.
  unfold Plain.Seq2Seq_forward. intros H.
  destruct (bind_Ok_inv _ _ _ H) as [st0 [Hinit H1]]. clear H.
  destruct (bind_Ok_inv _ _ _ H1) as [st [Hrun H2]]. clear H1.
  inversion H2. subst out. clear H2.
  destruct (Plain_loop_init_inv _ _ _ _ Hinit) as [h [c [_ [HL ->]]]].
  split; [exact HL|].
  apply (for_range_invariant
           (Plain.loop_body decoder) (Plain.loop_inv out_dim trg)
           (range 1 (lcols trg))) with (st := Plain.mkLoop
             (mkL1 (lrows trg) (fun b => lat2 trg b 0%nat)) h c
             (zeros3 (lrows trg) (lcols trg) out_dim)).
  - intros t s s' Hin HP Hb.
    apply (Plain_loop_body_preserves trg t s s'); try assumption.
    apply range_from_one_In in Hin. lia.
  - split; [reflexivity | intros; reflexivity].
  - exact Hrun.
Qed.

(** The loop runs to its end when the decoder accepts every state the loop
    can put it in: [Inv] holds of the seed column and the encoder's state, and
    a decoder step from a state in [Inv] returns scores of shape
    (batch, out_dim) and a state that is in [Inv] again with the arg-max
    indices as the next input. *)
Lemma Plain_forward_returns (Inv : LongTensor1 -> Tensor3 -> Tensor3 -> Prop)
  (src : LongTensor2) (len : list Z) (trg : LongTensor2) (h0 c0 : Tensor3) :
  encoder src len = Ok (h0, c0) ->
  (1 <= lcols trg)%nat ->
  (1 <= out_dim)%nat ->
  Inv (mkL1 (lrows trg) (fun b => lat2 trg b 0%nat)) h0 c0 ->
  (forall inp h c, Inv inp h c ->
     exists pred h' c',
       decoder inp h c = Ok (pred, h', c') /\
       shape2 pred = (lrows trg, out_dim) /\
       Inv (mkL1 (rows pred) (fun b => Z.of_nat (argmax_row pred b))) h' c') ->
  exists out, Plain.Seq2Seq_forward encoder decoder out_dim src len trg = Ok out.
Proof.
  intros Henc HL HV H0 Hdec.
  unfold Plain.Seq2Seq_forward, Plain.loop_init. rewrite Henc. simpl.
  unfold select_col. destruct (Nat.ltb_spec 0 (lcols trg)) as [_|Hge]; [|lia].
  simpl.
  destruct (for_range_total (Plain.loop_body decoder)
              (fun st => Inv (Plain.input_ st) (Plain.hidden st) (Plain.cell st)
                         /\ shape3 (Plain.outputs st)
                            = (lrows trg, lcols trg, out_dim))
              (range 1 (lcols trg))) with
      (st := Plain.mkLoop (mkL1 (lrows trg) (fun b => lat2 trg b 0%nat)) h0 c0
               (zeros3 (lrows trg) (lcols trg) out_dim))
    as [st [Hrun _]].
  - intros t st Hin [HI Hshape].
    apply range_from_one_In in Hin.
    destruct (Hdec _ _ _ HI) as [pred [h' [c' [Hd [Hp HI']]]]].
    unfold shape2 in Hp. injection Hp as Hrows Hcols.
    destruct (shape3_inv _ _ _ _ Hshape) as [Hd0 [Hd1 Hd2]].
    destruct (setitem_col_ok (Plain.outputs st) t pred) as [o Ho];
      [lia | congruence | congruence |].
    unfold Plain.loop_body. rewrite Hd. simpl. rewrite Ho. simpl.
    unfold max_dim1. destruct (Nat.eqb_spec (cols pred) 0) as [Hz|_]; [lia|].
    simpl. eexists. split; [reflexivity|]. simpl. split; [exact HI'|].
    destruct (setitem_col_inv _ _ _ _ Ho) as [Hs _]. rewrite Hs. exact Hshape.
  - simpl. split; [exact H0 | reflexivity].
  - rewrite Hrun. simpl. eexists. reflexivity.
Qed.

End Seq2SeqFacts.

(** ** The attention driver: termination and the random stream *)

Section Seq2SeqAttentionRuns.

Variable encoder : LongTensor2 -> list Z -> result (Tensor3 * Tensor3 * Tensor3).
Variable decoder : Tensor3 -> LongTensor1 -> Tensor3 -> Tensor3
                   -> result (Tensor2 * Tensor3 * Tensor3).
Variable out_dim : nat.
Variable random : nat -> R.

(** Each iteration consumes one value of the random stream. *)
Lemma Attn_for_range_rng (enc : Tensor3) (tar : LongTensor2) (rate : R)
  (ts : list nat) (st st' : Attn.loop_state) :
  for_range (Attn.loop_body decoder random enc tar rate) ts st = Ok st' ->
  Attn.rng st' = (Attn.rng st + List.length ts)%nat.
Proof.
  revert st. induction ts as [|t ts IH]; intros st Hrun; simpl in Hrun.
  - inversion Hrun. simpl. lia.
  - destruct (bind_Ok_inv _ _ _ Hrun) as [st1 [H1 H2]].
    destruct (Attn_loop_body_inv _ _ _ _ _ _ _ _ H1)
      as [_ [_ [_ [_ [_ [_ [_ [_ [Hrng _]]]]]]]]].
    rewrite (IH st1 H2), Hrng. simpl. lia.
Qed.

Lemma Attn_state_after_rng (src : LongTensor2) (len : list Z)
  (tar : LongTensor2) (rate : R) (rng0 n : nat) (st : Attn.loop_state) :
  Attn.state_after encoder decoder out_dim random src len tar rate rng0 n = Ok st ->
  Attn.rng st = (rng0 + n)%nat.
Proof.
  unfold Attn.state_after. intros H.
  destruct (bind_Ok_inv _ _ _ H) as [[enc st0] [Hinit Hrun]]. clear H.
  destruct (Attn_loop_init_inv _ _ _ _ _ _ _ _ Hinit) as [h [c [_ [_ ->]]]].
  rewrite (Attn_for_range_rng _ _ _ _ _ _ Hrun). simpl.
  unfold range. rewrite length_seq. lia.
Qed.

(** The loop runs to its end when the decoder accepts every state the loop
    can put it in: [Inv] holds of the seed column with the encoder's state,
    and a decoder step from a state in [Inv] returns scores of shape
    (batch, out_dim) and a state that is in [Inv] again with either candidate
    for the next input (the arg-max indices, or a column of the target). *)
Lemma Attn_forward_returns (Inv : LongTensor1 -> Tensor3 -> Tensor3 -> Prop)
  (src : LongTensor2) (len : list Z) (tar : LongTensor2) (rate : R)
  (rng0 : nat) (enc h0 c0 : Tensor3) :
  encoder src len = Ok (enc, h0, c0) ->
  (1 <= lcols tar)%nat ->
  (1 <= out_dim)%nat ->
  Inv (mkL1 (lrows tar) (fun b => lat2 tar b 0%nat)) h0 c0 ->
  (forall inp h c, Inv inp h c ->
     exists pred h' c',
       decoder enc inp h c = Ok (pred, h', c') /\
       shape2 pred = (lrows tar, out_dim) /\
       Inv (mkL1 (rows pred) (fun b => Z.of_nat (argmax_row pred b))) h' c' /\
       (forall t, (1 <= t < lcols tar)%nat ->
                  Inv (mkL1 (lrows tar) (fun b => lat2 tar b t)) h' c')) ->
  exists out,
    Attn.Seq2SeqAttention_forward encoder decoder out_dim random src len tar
      rate rng0 = Ok (out, (rng0 + (lcols tar - 1))%nat).
Proof.
  intros Henc HL HV H0 Hdec.
  unfold Attn.Seq2SeqAttention_forward, Attn.loop_init. rewrite Henc. simpl.
  unfold select_col. destruct (Nat.ltb_spec 0 (lcols tar)) as [_|Hge]; [|lia].
  simpl.
  destruct (for_range_total (Attn.loop_body decoder random enc tar rate)
              (fun st => Inv (Attn.input_ st) (Attn.hidden st) (Attn.cell st)
                         /\ shape3 (Attn.outputs st)
                            = (lrows tar, lcols tar, out_dim))
              (range 1 (lcols tar))) with
      (st := Attn.mkLoop (mkL1 (lrows tar) (fun b => lat2 tar b 0%nat)) h0 c0
               (zeros3 (lrows tar) (lcols tar) out_dim) rng0)
    as [st [Hrun _]].
  - intros t st Hin [HI Hshape].
    apply range_from_one_In in Hin.
    destruct (Hdec _ _ _ HI) as [pred [h' [c' [Hd [Hp [HIa HIt]]]]]].
    unfold shape2 in Hp. injection Hp as Hrows Hcols.
    destruct (shape3_inv _ _ _ _ Hshape) as [Hd0 [Hd1 Hd2]].
    destruct (setitem_col_ok (Attn.outputs st) t pred) as [o Ho];
      [lia | congruence | congruence |].
    unfold Attn.loop_body. rewrite Hd. simpl. rewrite Ho. simpl.
    unfold max_dim1. destruct (Nat.eqb_spec (cols pred) 0) as [Hz|_]; [lia|].
    simpl.
    destruct (setitem_col_inv _ _ _ _ Ho) as [Hs _].
    destruct (Rltb (random (Attn.rng st)) rate).
    + unfold select_col.
      destruct (Nat.ltb_spec t (lcols tar)) as [_|Hge]; [|lia]. simpl.
      eexists. split; [reflexivity|]. simpl.
      split; [apply HIt; lia | rewrite Hs; exact Hshape].
    + simpl. eexists. split; [reflexivity|]. simpl.
      split; [exact HIa | rewrite Hs; exact Hshape].
  - simpl. split; [exact H0 | reflexivity].
  - rewrite Hrun. simpl.
    rewrite (Attn_for_range_rng _ _ _ _ _ _ Hrun). simpl.
    unfold range. rewrite length_seq. eexists. reflexivity.
Qed.

End Seq2SeqAttentionRuns.

(** ** The output tensor of the drivers *)

(** C5. Whenever a driver returns -- with any encoder, any decoder, any
    output size, and for the attention driver any teacher-forcing rate and
    random stream -- the target has a time index 0 and the returned tensor
    holds 0 at time index 0, for every batch element and vocabulary entry. *)
Theorem forward_outputs_time_zero :
  (forall encoder decoder out_dim src len trg out,
      Plain.Seq2Seq_forward encoder decoder out_dim src len trg = Ok out ->
      (0 < lcols trg)%nat /\
      forall b k, at3 out b 0%nat k = 0%R) /\
  (forall encoder decoder out_dim random src len tar rate rng0 out n,
      Attn.Seq2SeqAttention_forward encoder decoder out_dim random src len tar
        rate rng0 = Ok (out, n) ->
      (0 < lcols tar)%nat /\
      forall b k, at3 out b 0%nat k = 0%R).
Proof.
  split.
  - intros encoder decoder out_dim src len trg out H.
    destruct (Plain_forward_inv _ _ _ _ _ _ _ H) as [HL [_ Hz]]. auto.
  - intros encoder decoder out_dim random src len tar rate rng0 out n H.
    destruct (Attn_forward_inv _ _ _ _ _ _ _ _ _ _ _ H) as [HL [_ Hz]]. auto.
Qed.

(** Both example drivers return on the example batch. *)
Lemma ex_plain_forward_returns :
  exists out,
    Plain.Seq2Seq_forward ex_plain_encoder ex_plain_decoder 3
      ex_src_tokens [4; 2]%Z ex_tar_tokens = Ok out.
Proof.
  eapply (Plain_forward_returns ex_plain_encoder ex_plain_decoder 3
            (fun inp _ _ => llen inp = 2%nat)).
  - reflexivity.
  - simpl. lia.
  - lia.
  - reflexivity.
  - intros inp h c Hinp. unfold ex_plain_decoder.
    eexists. eexists. eexists. split; [reflexivity|].
    split; [unfold shape2; simpl; rewrite Hinp; reflexivity|].
    simpl. exact Hinp.
Qed.

Lemma ex_attn_forward_returns (rate : R) :
  exists out,
    Attn.Seq2SeqAttention_forward ex_attn_encoder ex_attn_decoder 3 ex_random
      ex_src_tokens [4; 2]%Z ex_tar_tokens rate 0 = Ok (out, 2%nat).
Proof.
  eapply (Attn_forward_returns ex_attn_encoder ex_attn_decoder 3 ex_random
            (fun inp _ _ => llen inp = 2%nat)
            ex_src_tokens [4; 2]%Z ex_tar_tokens rate 0).
  - reflexivity.
  - simpl. lia.
  - lia.
  - reflexivity.
  - intros inp h c Hinp. unfold ex_attn_decoder.
    eexists. eexists. eexists. split; [reflexivity|].
    split; [unfold shape2; simpl; rewrite Hinp; reflexivity|].
    split; [simpl; exact Hinp | intros; reflexivity].
Qed.

(** C5 on the example batch, for both drivers. *)
Lemma forward_outputs_time_zero_witness :
  (exists out,
      Plain.Seq2Seq_forward ex_plain_encoder ex_plain_decoder 3
        ex_src_tokens [4; 2]%Z ex_tar_tokens = Ok out /\
      forall b k, at3 out b 0%nat k = 0%R) /\
  (exists out,
      Attn.Seq2SeqAttention_forward ex_attn_encoder ex_attn_decoder 3 ex_random
        ex_src_tokens [4; 2]%Z ex_tar_tokens (/ 2)%R 0 = Ok (out, 2%nat) /\
      forall b k, at3 out b 0%nat k = 0%R).
Proof.
  split.
  - destruct ex_plain_forward_returns as [out Hout].
    exists out. split; [exact Hout|].
    exact (proj2 (proj1 forward_outputs_time_zero _ _ _ _ _ _ _ Hout)).
  - destruct (ex_attn_forward_returns (/ 2)%R) as [out Hout].
    exists out. split; [exact Hout|].
    exact (proj2 (proj2 forward_outputs_time_zero _ _ _ _ _ _ _ _ _ _ _ Hout)).
Defined.

(** C9. For a target of shape (B, L) and a decoder output size V: a tensor a
    driver returns has shape (B, L, V); and a driver does return one when
    L >= 1, V >= 1, the encoder succeeds, and the decoder accepts every state
    the loop can put it in and answers with scores of shape (B, V). *)
Theorem forward_output_shape :
  (forall encoder decoder out_dim src len trg,
      (forall out,
          Plain.Seq2Seq_forward encoder decoder out_dim src len trg = Ok out ->
          shape3 out = (lrows trg, lcols trg, out_dim)) /\
      (forall (Inv : LongTensor1 -> Tensor3 -> Tensor3 -> Prop) h0 c0,
          encoder src len = Ok (h0, c0) ->
          (1 <= lcols trg)%nat ->
          (1 <= out_dim)%nat ->
          Inv (mkL1 (lrows trg) (fun b => lat2 trg b 0%nat)) h0 c0 ->
          (forall inp h c, Inv inp h c ->
             exists pred h' c',
               decoder inp h c = Ok (pred, h', c') /\
               shape2 pred = (lrows trg, out_dim) /\
               Inv (mkL1 (rows pred) (fun b => Z.of_nat (argmax_row pred b)))
                   h' c') ->
          exists out,
            Plain.Seq2Seq_forward encoder decoder out_dim src len trg = Ok out /\
            shape3 out = (lrows trg, lcols trg, out_dim))) /\
  (forall encoder decoder out_dim random src len tar rate rng0,
      (forall out n,
          Attn.Seq2SeqAttention_forward encoder decoder out_dim random src len
            tar rate rng0 = Ok (out, n) ->
          shape3 out = (lrows tar, lcols tar, out_dim)) /\
      (forall (Inv : LongTensor1 -> Tensor3 -> Tensor3 -> Prop) enc h0 c0,
          encoder src len = Ok (enc, h0, c0) ->
          (1 <= lcols tar)%nat ->
          (1 <= out_dim)%nat ->
          Inv (mkL1 (lrows tar) (fun b => lat2 tar b 0%nat)) h0 c0 ->
          (forall inp h c, Inv inp h c ->
             exists pred h' c',
               decoder enc inp h c = Ok (pred, h', c') /\
               shape2 pred = (lrows tar, out_dim) /\
               Inv (mkL1 (rows pred) (fun b => Z.of_nat (argmax_row pred b)))
                   h' c' /\
               (forall t, (1 <= t < lcols tar)%nat ->
                          Inv (mkL1 (lrows tar) (fun b => lat2 tar b t)) h' c')) ->
          exists out n,
            Attn.Seq2SeqAttention_forward encoder decoder out_dim random src len
              tar rate rng0 = Ok (out, n) /\
            shape3 out = (lrows tar, lcols tar, out_dim))).
Proof.
  split.
  - intros encoder decoder out_dim src len trg. split.
    + intros out H.
      destruct (Plain_forward_inv _ _ _ _ _ _ _ H) as [_ [Hs _]]. exact Hs.
    + intros Inv h0 c0 Henc HL HV H0 Hdec.
      destruct (Plain_forward_returns encoder decoder out_dim Inv src len trg
                  h0 c0 Henc HL HV H0 Hdec) as [out Hout].
      exists out. split; [exact Hout|].
      destruct (Plain_forward_inv _ _ _ _ _ _ _ Hout) as [_ [Hs _]]. exact Hs.
  - intros encoder decoder out_dim random src len tar rate rng0. split.
    + intros out n H.
      destruct (Attn_forward_inv _ _ _ _ _ _ _ _ _ _ _ H) as [_ [Hs _]]. exact Hs.
    + intros Inv enc h0 c0 Henc HL HV H0 Hdec.
      destruct (Attn_forward_returns encoder decoder out_dim random Inv src len
                  tar rate rng0 enc h0 c0 Henc HL HV H0 Hdec) as [out Hout].
      exists out. eexists. split; [exact Hout|].
      destruct (Attn_forward_inv _ _ _ _ _ _ _ _ _ _ _ Hout) as [_ [Hs _]]. exact Hs.
Qed.

(** C9 on the example batch: B = 2, L = 3, V = 3. *)
Lemma forward_output_shape_witness :
  (exists out,
      Plain.Seq2Seq_forward ex_plain_encoder ex_plain_decoder 3
        ex_src_tokens [4; 2]%Z ex_tar_tokens = Ok out /\
      shape3 out = (2%nat, 3%nat, 3%nat)) /\
  (exists out n,
      Attn.Seq2SeqAttention_forward ex_attn_encoder ex_attn_decoder 3 ex_random
        ex_src_tokens [4; 2]%Z ex_tar_tokens (/ 2)%R 0 = Ok (out, n) /\
      shape3 out = (2%nat, 3%nat, 3%nat)).
Proof.
  split.
  - apply (proj2 (proj1 forward_output_shape ex_plain_encoder ex_plain_decoder
                    3%nat ex_src_tokens [4; 2]%Z ex_tar_tokens)
             (fun inp _ _ => llen inp = 2%nat)
             (mkT3 1 2 16 (fun _ _ _ => 1%R)) (mkT3 1 2 16 (fun _ _ _ => 1%R))).
    + reflexivity.
    + simpl. lia.
    + lia.
    + reflexivity.
    + intros inp h c Hinp. unfold ex_plain_decoder.
      eexists. eexists. eexists. split; [reflexivity|].
      split; [unfold shape2; simpl; rewrite Hinp; reflexivity|].
      simpl. exact Hinp.
  - destruct (ex_attn_forward_returns (/ 2)%R) as [out Hout].
    exists out, 2%nat. split; [exact Hout|].
    exact (proj1 (proj2 forward_output_shape ex_attn_encoder ex_attn_decoder
                    3%nat ex_random ex_src_tokens [4; 2]%Z ex_tar_tokens
                    (/ 2)%R 0%nat) out 2%nat Hout).
Defined.

(** ** The next input token *)

(** Values of [random.random()] lie in [0, 1). *)
Lemma ex_random_range (i : nat) : (0 <= ex_random i < 1)%R.
Proof. unfold ex_random. lra. Qed.

(** C6. With a teacher-forcing rate of 0, and a random stream whose values
    lie in [0, 1) as those of [random.random()] do, the iteration at time
    index [S n] of the attention driver calls the decoder on the current
    input and leaves as next input, for every batch element [b], the position
    of the maximum of row [b] of the scores that call returned. *)
Theorem Seq2SeqAttention_rate_zero_feeds_argmax
  (encoder : LongTensor2 -> list Z -> result (Tensor3 * Tensor3 * Tensor3))
  (decoder : Tensor3 -> LongTensor1 -> Tensor3 -> Tensor3
             -> result (Tensor2 * Tensor3 * Tensor3))
  (out_dim : nat) (random : nat -> R)
  (src : LongTensor2) (len : list Z) (tar : LongTensor2) (rng0 n : nat)
  (st st' : Attn.loop_state) :
  (forall i, (0 <= random i < 1)%R) ->
  Attn.state_after encoder decoder out_dim random src len tar 0%R rng0 n = Ok st ->
  Attn.state_after encoder decoder out_dim random src len tar 0%R rng0 (S n) = Ok st' ->
  exists enc h0 c0 pred h c,
    encoder src len = Ok (enc, h0, c0) /\
    decoder enc (Attn.input_ st) (Attn.hidden st) (Attn.cell st) = Ok (pred, h, c) /\
    llen (Attn.input_ st') = rows pred /\
    forall b,
      lat1 (Attn.input_ st') b = Z.of_nat (argmax_row pred b) /\
      (argmax_row pred b < cols pred)%nat /\
      (forall j, (j < cols pred)%nat ->
                 (at2 pred b j <= at2 pred b (argmax_row pred b))%R).
Proof.
  intros Hrand Hn HSn.
  destruct (Attn_state_after_step _ _ _ _ _ _ _ _ _ _ _ _ Hn HSn)
    as [enc [h0 [c0 [Henc Hbody]]]].
  destruct (Attn_loop_body_inv _ _ _ _ _ _ _ _ Hbody)
    as [pred [h [c [Hdec [_ [Hc [_ [_ [_ Hchoice]]]]]]]]].
  exists enc, h0, c0, pred, h, c.
  split; [exact Henc|]. split; [exact Hdec|].
  destruct Hchoice as [[Hlt _] | [_ Hinp]].
  - apply Rltb_true in Hlt. specialize (Hrand (Attn.rng st)). lra.
  - rewrite Hinp. simpl. split; [reflexivity|].
    intros b. destruct (argmax_row_spec pred b Hc) as [Hb [Hmax _]].
    split; [reflexivity|]. split; [exact Hb | exact Hmax].
Qed.

(** C7. With a teacher-forcing rate of 1, and a random stream whose values
    lie in [0, 1), the iteration at time index [S n] leaves as next input the
    column [S n] of the target, whatever scores the decoder returned. *)
Theorem Seq2SeqAttention_rate_one_feeds_target
  (encoder : LongTensor2 -> list Z -> result (Tensor3 * Tensor3 * Tensor3))
  (decoder : Tensor3 -> LongTensor1 -> Tensor3 -> Tensor3
             -> result (Tensor2 * Tensor3 * Tensor3))
  (out_dim : nat) (random : nat -> R)
  (src : LongTensor2) (len : list Z) (tar : LongTensor2) (rng0 n : nat)
  (st st' : Attn.loop_state) :
  (forall i, (0 <= random i < 1)%R) ->
  Attn.state_after encoder decoder out_dim random src len tar 1%R rng0 n = Ok st ->
  Attn.state_after encoder decoder out_dim random src len tar 1%R rng0 (S n) = Ok st' ->
  (S n < lcols tar)%nat /\
  llen (Attn.input_ st') = lrows tar /\
  forall b, lat1 (Attn.input_ st') b = lat2 tar b (S n).
Proof.
  intros Hrand Hn HSn.
  destruct (Attn_state_after_step _ _ _ _ _ _ _ _ _ _ _ _ Hn HSn)
    as [enc [h0 [c0 [Henc Hbody]]]].
  destruct (Attn_loop_body_inv _ _ _ _ _ _ _ _ Hbody)
    as [pred [h [c [Hdec [_ [Hc [_ [_ [_ Hchoice]]]]]]]]].
  destruct Hchoice as [[_ Hsel] | [Hge _]].
  - destruct (select_col_inv _ _ _ Hsel) as [Hlt Hinp].
    rewrite Hinp. simpl. split; [exact Hlt|]. split; [reflexivity|].
    intros b. reflexivity.
  - apply Rltb_false in Hge. specialize (Hrand (Attn.rng st)). lra.
Qed.

(** C10. The iteration at time index [S n] consumes exactly one value of the
    random stream, the one at position [rng0 + n], and that single value
    decides for the whole batch: the next input is either the whole column
    [S n] of the target or the whole vector of arg-max indices. *)
Theorem Seq2SeqAttention_one_draw_per_step
  (encoder : LongTensor2 -> list Z -> result (Tensor3 * Tensor3 * Tensor3))
  (decoder : Tensor3 -> LongTensor1 -> Tensor3 -> Tensor3
             -> result (Tensor2 * Tensor3 * Tensor3))
  (out_dim : nat) (random : nat -> R)
  (src : LongTensor2) (len : list Z) (tar : LongTensor2) (rate : R)
  (rng0 n : nat) (st st' : Attn.loop_state) :
  Attn.state_after encoder decoder out_dim random src len tar rate rng0 n = Ok st ->
  Attn.state_after encoder decoder out_dim random src len tar rate rng0 (S n) = Ok st' ->
  Attn.rng st = (rng0 + n)%nat /\
  Attn.rng st' = S (Attn.rng st) /\
  exists enc pred h c,
    decoder enc (Attn.input_ st) (Attn.hidden st) (Attn.cell st) = Ok (pred, h, c) /\
    (((random (rng0 + n)%nat < rate)%R /\
      Attn.input_ st' = mkL1 (lrows tar) (fun b => lat2 tar b (S n))) \/
     ((rate <= random (rng0 + n)%nat)%R /\
      Attn.input_ st' = mkL1 (rows pred) (fun b => Z.of_nat (argmax_row pred b)))).
Proof.
  intros Hn HSn.
  pose proof (Attn_state_after_rng _ _ _ _ _ _ _ _ _ _ _ Hn) as Hrng.
  destruct (Attn_state_after_step _ _ _ _ _ _ _ _ _ _ _ _ Hn HSn)
    as [enc [h0 [c0 [Henc Hbody]]]].
  destruct (Attn_loop_body_inv _ _ _ _ _ _ _ _ Hbody)
    as [pred [h [c [Hdec [_ [Hc [_ [_ [Hstep Hchoice]]]]]]]]].
  split; [exact Hrng|]. split; [exact Hstep|].
  exists enc, pred, h, c. split; [exact Hdec|].
  rewrite Hrng in Hchoice.
  destruct Hchoice as [[Hlt Hsel] | [Hge Hinp]].
  - left. apply Rltb_true in Hlt. split; [exact Hlt|].
    destruct (select_col_inv _ _ _ Hsel) as [_ Hcol]. exact Hcol.
  - right. apply Rltb_false in Hge. split; [exact Hge | exact Hinp].
Qed.

(** C8. The plain driver: the iteration at time index [S n] leaves as next
    input the vector of arg-max indices of the scores the decoder just
    returned; and the driver takes no random stream and reads nothing of the
    target but its shape and its column 0. *)
Theorem Seq2Seq_always_feeds_argmax
  (encoder : LongTensor2 -> list Z -> result (Tensor3 * Tensor3))
  (decoder : LongTensor1 -> Tensor3 -> Tensor3
             -> result (Tensor2 * Tensor3 * Tensor3))
  (out_dim : nat) (src : LongTensor2) (len : list Z) (trg : LongTensor2) :
  (forall n st st',
      Plain.state_after encoder decoder out_dim src len trg n = Ok st ->
      Plain.state_after encoder decoder out_dim src len trg (S n) = Ok st' ->
      exists pred h c,
        decoder (Plain.input_ st) (Plain.hidden st) (Plain.cell st)
          = Ok (pred, h, c) /\
        Plain.input_ st'
          = mkL1 (rows pred) (fun b => Z.of_nat (argmax_row pred b)) /\
        forall b,
          (argmax_row pred b < cols pred)%nat /\
          (forall j, (j < cols pred)%nat ->
                     (at2 pred b j <= at2 pred b (argmax_row pred b))%R)) /\
  (forall trg',
      lrows trg' = lrows trg -> lcols trg' = lcols trg ->
      select_col trg' 0 = select_col trg 0 ->
      Plain.Seq2Seq_forward encoder decoder out_dim src len trg'
      = Plain.Seq2Seq_forward encoder decoder out_dim src len trg).
Proof.
  split.
  - intros n st st' Hn HSn.
    pose proof (Plain_state_after_step _ _ _ _ _ _ _ _ _ Hn HSn) as Hbody.
    destruct (Plain_loop_body_inv _ _ _ _ Hbody)
      as [pred [h [c [Hdec [_ [Hc [_ [_ Hinp]]]]]]]].
    exists pred, h, c. split; [exact Hdec|]. split; [exact Hinp|].
    intros b. destruct (argmax_row_spec pred b Hc) as [Hb [Hmax _]].
    split; [exact Hb | exact Hmax].
  - intros trg' Hr Hc Hs.
    unfold Plain.Seq2Seq_forward, Plain.loop_init. rewrite Hr, Hc, Hs.
    reflexivity.
Qed.

(** Evaluation of one iteration of the example attention driver; the
    teacher-forcing test is settled by [lra]. *)
Ltac eval_attn_step rate :=
  cbv - [Rltb ex_random INR IZR Rplus Rmult Rinv Rlt Rle];
  first [ rewrite (proj2 (Rltb_false (ex_random 0) rate)) by (unfold ex_random; lra)
        | rewrite (proj2 (Rltb_true (ex_random 0) rate)) by (unfold ex_random; lra) ];
  reflexivity.

(** C6 on the example batch, at the first iteration. *)
Lemma Seq2SeqAttention_rate_zero_feeds_argmax_witness :
  exists st st',
    Attn.state_after ex_attn_encoder ex_attn_decoder 3 ex_random
      ex_src_tokens [4; 2]%Z ex_tar_tokens 0%R 0 0 = Ok st /\
    Attn.state_after ex_attn_encoder ex_attn_decoder 3 ex_random
      ex_src_tokens [4; 2]%Z ex_tar_tokens 0%R 0 1 = Ok st' /\
    exists enc h0 c0 pred h c,
      ex_attn_encoder ex_src_tokens [4; 2]%Z = Ok (enc, h0, c0) /\
      ex_attn_decoder enc (Attn.input_ st) (Attn.hidden st) (Attn.cell st)
        = Ok (pred, h, c) /\
      llen (Attn.input_ st') = rows pred /\
      forall b,
        lat1 (Attn.input_ st') b = Z.of_nat (argmax_row pred b) /\
        (argmax_row pred b < cols pred)%nat /\
        (forall j, (j < cols pred)%nat ->
                   (at2 pred b j <= at2 pred b (argmax_row pred b))%R).
Proof.
  eexists. eexists.
  split; [reflexivity|].
  split; [eval_attn_step 0%R|].
  apply (Seq2SeqAttention_rate_zero_feeds_argmax ex_attn_encoder ex_attn_decoder
           3%nat ex_random ex_src_tokens [4; 2]%Z ex_tar_tokens 0%nat 0%nat).
  - exact ex_random_range.
  - reflexivity.
  - eval_attn_step 0%R.
Defined.

(** C7 on the example batch, at the first iteration. *)
Lemma Seq2SeqAttention_rate_one_feeds_target_witness :
  exists st st',
    Attn.state_after ex_attn_encoder ex_attn_decoder 3 ex_random
      ex_src_tokens [4; 2]%Z ex_tar_tokens 1%R 0 0 = Ok st /\
    Attn.state_after ex_attn_encoder ex_attn_decoder 3 ex_random
      ex_src_tokens [4; 2]%Z ex_tar_tokens 1%R 0 1 = Ok st' /\
    (1 < lcols ex_tar_tokens)%nat /\
    llen (Attn.input_ st') = lrows ex_tar_tokens /\
    forall b, lat1 (Attn.input_ st') b = lat2 ex_tar_tokens b 1%nat.
Proof.
  eexists. eexists.
  split; [reflexivity|].
  split; [eval_attn_step 1%R|].
  eapply (Seq2SeqAttention_rate_one_feeds_target ex_attn_encoder ex_attn_decoder
           3%nat ex_random ex_src_tokens [4; 2]%Z ex_tar_tokens 0%nat 0%nat).
  - exact ex_random_range.
  - reflexivity.
  - eval_attn_step 1%R.
Defined.

(** C10 on the example batch, at the first iteration, with the default rate
    of 1/2 (the draw 1/2 is not below it, so the arg-max is taken). *)
Lemma Seq2SeqAttention_one_draw_per_step_witness :
  exists st st',
    Attn.state_after ex_attn_encoder ex_attn_decoder 3 ex_random
      ex_src_tokens [4; 2]%Z ex_tar_tokens (/ 2)%R 0 0 = Ok st /\
    Attn.state_after ex_attn_encoder ex_attn_decoder 3 ex_random
      ex_src_tokens [4; 2]%Z ex_tar_tokens (/ 2)%R 0 1 = Ok st' /\
    Attn.rng st = (0 + 0)%nat /\
    Attn.rng st' = S (Attn.rng st) /\
    exists enc pred h c,
      ex_attn_decoder enc (Attn.input_ st) (Attn.hidden st) (Attn.cell st)
        = Ok (pred, h, c) /\
      (((ex_random (0 + 0)%nat < / 2)%R /\
        Attn.input_ st' = mkL1 (lrows ex_tar_tokens)
                            (fun b => lat2 ex_tar_tokens b 1%nat)) \/
       ((/ 2 <= ex_random (0 + 0)%nat)%R /\
        Attn.input_ st' = mkL1 (rows pred)
                            (fun b => Z.of_nat (argmax_row pred b)))).
Proof.
  eexists. eexists.
  split; [reflexivity|].
  split; [eval_attn_step (/ 2)%R|].
  apply (Seq2SeqAttention_one_draw_per_step ex_attn_encoder ex_attn_decoder
           3%nat ex_random ex_src_tokens [4; 2]%Z ex_tar_tokens (/ 2)%R
           0%nat 0%nat).
  - reflexivity.
  - eval_attn_step (/ 2)%R.
Defined.

(** C8 on the example batch, at the first iteration. *)
Lemma Seq2Seq_always_feeds_argmax_witness :
  exists st st',
    Plain.state_after ex_plain_encoder ex_plain_decoder 3
      ex_src_tokens [4; 2]%Z ex_tar_tokens 0 = Ok st /\
    Plain.state_after ex_plain_encoder ex_plain_decoder 3
      ex_src_tokens [4; 2]%Z ex_tar_tokens 1 = Ok st' /\
    exists pred h c,
      ex_plain_decoder (Plain.input_ st) (Plain.hidden st) (Plain.cell st)
        = Ok (pred, h, c) /\
      Plain.input_ st'
        = mkL1 (rows pred) (fun b => Z.of_nat (argmax_row pred b)) /\
      forall b,
        (argmax_row pred b < cols pred)%nat /\
        (forall j, (j < cols pred)%nat ->
                   (at2 pred b j <= at2 pred b (argmax_row pred b))%R).
Proof.
  eexists. eexists.
  split; [reflexivity|].
  split; [reflexivity|].
  apply (proj1 (Seq2Seq_always_feeds_argmax ex_plain_encoder ex_plain_decoder
                  3%nat ex_src_tokens [4; 2]%Z ex_tar_tokens) 0%nat);
    reflexivity.
Defined.

(** ** The encoder's [forward] as a whole *)

(** When every stage succeeds and the recurrent stack returns outputs with
    2 * rnn_dim channels and a state of 2 * n_layer slices, [forward] returns
    the padded outputs with the two channel halves added, and the states with
    slice 0 added to each other slice.  For [n_layer = 1] that is the
    forward state plus the backward state, of shape (1, B, rnn_dim). *)
Lemma Attn_EncoderRNN_forward_merges
  (embedding : Embedding) (batch_norm : Tensor3 -> result Tensor3)
  (rnn : PackedSequence -> result (PackedSequence * (Tensor3 * Tensor3)))
  (rnn_dim n_layer B : nat) (inputs : LongTensor2) (lengths : list Z)
  (e e' : Tensor3) (p po : PackedSequence) (h c : Tensor3) :
  Embedding_forward2 embedding inputs = Ok e ->
  batch_norm e = Ok e' ->
  pack_padded_sequence e' lengths = Ok p ->
  rnn p = Ok (po, (h, c)) ->
  dim0 (ps_data po) = B ->
  dim2 (ps_data po) = (2 * rnn_dim)%nat ->
  (1 <= n_layer)%nat ->
  shape3 h = ((2 * n_layer)%nat, B, rnn_dim) ->
  shape3 c = ((2 * n_layer)%nat, B, rnn_dim) ->
  let r := Attn.EncoderRNN_forward embedding batch_norm rnn rnn_dim inputs lengths in
  let padded := fst (pad_packed_sequence po) in
  let T := Z.to_nat (hd 0%Z (ps_lengths po)) in
  exists outputs hidden cell,
    outcome r = Ok (outputs, hidden, cell) /\
    stages_entered r = [StEmbedding; StBatchNorm; StPack; StRecurrence; StPad] /\
    shape3 outputs = (B, T, rnn_dim) /\
    shape3 hidden = ((2 * n_layer - 1)%nat, B, rnn_dim) /\
    shape3 cell = ((2 * n_layer - 1)%nat, B, rnn_dim) /\
    (forall b t k, (b < B)%nat -> (t < T)%nat -> (k < rnn_dim)%nat ->
       at3 outputs b t k
       = (at3 padded b t k + at3 padded b t (rnn_dim + k)%nat)%R) /\
    (forall i b k, (i < 2 * n_layer - 1)%nat -> (b < B)%nat -> (k < rnn_dim)%nat ->
       at3 hidden i b k = (at3 h 0%nat b k + at3 h (1 + i)%nat b k)%R /\
       at3 cell i b k = (at3 c 0%nat b k + at3 c (1 + i)%nat b k)%R).
Proof.
  intros He Hb Hp Hr HB HD Hn Hh Hc r padded T. subst r.
  assert (Hpad : shape3 padded = (B, T, (2 * rnn_dim)%nat)).
  { subst padded T. unfold pad_packed_sequence, shape3. cbn [fst dim0 dim1 dim2].
    rewrite HB, HD. reflexivity. }
  destruct (merge_output_directions padded B T rnn_dim Hpad) as [o [Ho [Hos Hoat]]].
  destruct (merge_state_directions h n_layer B rnn_dim Hn Hh) as [h' [Hh' [Hhs Hhat]]].
  destruct (merge_state_directions c n_layer B rnn_dim Hn Hc) as [c' [Hc' [Hcs Hcat]]].
  exists o, h', c'.
  unfold Attn.EncoderRNN_forward, outcome, stages_entered, call, inline, tret, tbind.
  rewrite He, Hb, Hp, Hr.
  subst padded. destruct (pad_packed_sequence po) as [pd pl] eqn:Hpd.
  cbn [fst] in Ho. rewrite Ho, Hh', Hc'. cbn.
  split; [reflexivity|]. split; [reflexivity|].
  split; [exact Hos|]. split; [exact Hhs|]. split; [exact Hcs|].
  split; [exact Hoat|].
  intros i b k Hi Hb' Hk. split; [apply Hhat | apply Hcat]; assumption.
Qed.

(** ** The decoder steps *)

Lemma bdim_one_r (a : nat) : bdim a 1 = Some a.
Proof.
  unfold bdim. destruct (Nat.eqb_spec a 1) as [->|_]; reflexivity.
Qed.

Lemma Embedding_forward1_ok (e : Embedding) (x : LongTensor1) :
  (forall b, (b < llen x)%nat -> valid_token e (lat1 x b) = true) ->
  exists y, Embedding_forward1 e x = Ok y /\
            shape2 y = (llen x, embedding_dim e).
Proof.
  intros Hv. unfold Embedding_forward1.
  assert (Hall : forallb (fun b => valid_token e (lat1 x b)) (seq 0 (llen x)) = true).
  { apply forallb_forall. intros b Hb. apply in_seq in Hb. apply Hv. lia. }
  rewrite Hall. eexists. split; reflexivity.
Qed.

(** Weighting the encoder outputs: [(B, S, D) * (B, S, 1)]. *)
Lemma mul3_broadcast_last (a b : Tensor3) (B S D : nat) :
  shape3 a = (B, S, D) -> shape3 b = (B, S, 1%nat) ->
  exists c, mul3 a b = Ok c /\ shape3 c = (B, S, D) /\
    forall i j k, (i < B)%nat -> (j < S)%nat -> (k < D)%nat ->
      at3 c i j k = (at3 a i j k * at3 b i j 0%nat)%R.
Proof.
  intros Ha Hb.
  destruct (shape3_inv _ _ _ _ Ha) as [Ha0 [Ha1 Ha2]].
  destruct (shape3_inv _ _ _ _ Hb) as [Hb0 [Hb1 Hb2]].
  unfold mul3, broadcast3.
  rewrite Ha0, Ha1, Ha2, Hb0, Hb1, Hb2, !bdim_refl, bdim_one_r.
  eexists. split; [reflexivity|]. split; [reflexivity|].
  intros i j k Hi Hj Hk. simpl.
  rewrite !(bidx_lt B i), !(bidx_lt S j), (bidx_lt D k) by assumption.
  reflexivity.
Qed.

Lemma squeeze1_ok (x : Tensor3) (B D : nat) :
  shape3 x = (B, 1%nat, D) ->
  exists y, squeeze1 x = Ok y /\ shape2 y = (B, D).
Proof.
  intros Hx. destruct (shape3_inv _ _ _ _ Hx) as [H0 [H1 H2]].
  unfold squeeze1. rewrite H1. simpl.
  eexists. split; [reflexivity|]. unfold shape2. simpl. rewrite H0, H2. reflexivity.
Qed.

Lemma cat2_dim1_ok (a b : Tensor2) (B D1 D2 : nat) :
  shape2 a = (B, D1) -> shape2 b = (B, D2) ->
  exists y, cat2_dim1 a b = Ok y /\ shape2 y = (B, (D1 + D2)%nat).
Proof.
  unfold shape2. intros Ha Hb.
  injection Ha as Ha0 Ha1. injection Hb as Hb0 Hb1.
  unfold cat2_dim1. rewrite Ha0, Hb0, Nat.eqb_refl.
  eexists. split; [reflexivity|]. simpl. rewrite Ha1, Hb1. reflexivity.
Qed.

Lemma Linear_forward2_ok (l : Linear) (x : Tensor2) (B : nat) :
  shape2 x = (B, in_features l) ->
  exists y, Linear_forward2 l x = Ok y /\ shape2 y = (B, out_features l).
Proof.
  unfold shape2. intros Hx. injection Hx as H0 H1.
  unfold Linear_forward2. rewrite H1, Nat.eqb_refl.
  eexists. split; [reflexivity|]. simpl. rewrite H0. reflexivity.
Qed.

(** The index that [max] selects is a valid token of a vocabulary that has at
    least as many entries as there are scores. *)
Lemma argmax_row_valid_token (e : Embedding) (x : Tensor2) (b : nat) :
  (0 < cols x)%nat -> (cols x <= num_embeddings e)%nat ->
  valid_token e (Z.of_nat (argmax_row x b)) = true.
Proof.
  intros Hc Hle. destruct (argmax_row_spec x b Hc) as [Hlt _].
  unfold valid_token. apply andb_true_intro. split.
  - apply Z.leb_le. lia.
  - apply Z.ltb_lt. lia.
Qed.

Section DecoderContracts.

(** The shape contract of the sub-modules: [B] is the batch size, [D] the
    recurrent dimension, [StateOK] what the recurrent stack requires of the
    (hidden, cell) pair it is advanced from and guarantees of the one it
    returns. *)
Variable embedding : Embedding.
Variable rnn : Tensor3 -> Tensor3 * Tensor3 -> result (Tensor3 * (Tensor3 * Tensor3)).
Variables B D : nat.
Variable StateOK : Tensor3 -> Tensor3 -> Prop.

Hypothesis rnn_step :
  forall x h c, shape3 x = (B, 1%nat, embedding_dim embedding) -> StateOK h c ->
    exists o h' c', rnn x (h, c) = Ok (o, (h', c')) /\
                    shape3 o = (B, 1%nat, D) /\ StateOK h' c'.

(** The plain decoder step returns scores of shape (B, out_dim). *)
Lemma DecoderRNN_forward_ok (out : Linear) (inputs : LongTensor1)
  (last_hidden last_cell : Tensor3) :
  in_features out = D ->
  llen inputs = B ->
  (forall b, (b < B)%nat -> valid_token embedding (lat1 inputs b) = true) ->
  StateOK last_hidden last_cell ->
  exists predication hidden cell,
    Plain.DecoderRNN_forward embedding rnn out inputs last_hidden last_cell
      = Ok (predication, hidden, cell) /\
    shape2 predication = (B, out_features out) /\
    StateOK hidden cell.
Proof.
  intros Hin Hlen Hv Hst. unfold Plain.DecoderRNN_forward.
  destruct (Embedding_forward1_ok embedding inputs) as [em [Hem Hems]].
  { intros b Hb. apply Hv. lia. }
  rewrite Hem. simpl.
  assert (Hu : shape3 (unsqueeze1 em) = (B, 1%nat, embedding_dim embedding)).
  { unfold shape2 in Hems. injection Hems as H0 H1.
    unfold shape3. simpl. rewrite H0, H1, Hlen. reflexivity. }
  destruct (rnn_step _ _ _ Hu Hst) as [o [h' [c' [Hr [Hos Hst']]]]].
  rewrite Hr. simpl.
  destruct (squeeze1_ok o B D Hos) as [sq [Hsq Hsqs]].
  rewrite Hsq. simpl.
  rewrite <- Hin in Hsqs.
  destruct (Linear_forward2_ok out sq B Hsqs) as [pred [Hpred Hpreds]].
  rewrite Hpred. simpl.
  exists pred, h', c'. split; [reflexivity|]. split; assumption.
Qed.

Variable batch_norm : Tensor3 -> result Tensor3.

Hypothesis batch_norm_step :
  forall x, shape3 x = (B, 1%nat, embedding_dim embedding) ->
    exists y, batch_norm x = Ok y /\ shape3 y = (B, 1%nat, embedding_dim embedding).

(** The attention decoder step returns scores of shape (B, out_dim). *)
Lemma DecoderAttentionRNN_forward_ok
  (m : string) (rd : option nat) (theta : Attn.AttentionParams)
  (attention : Attn.Attention) (linear : Linear)
  (src_outputs : Tensor3) (S : nat) (tar_input : LongTensor1)
  (last_hidden last_cell : Tensor3) :
  Attn.Attention_init m rd theta = Ok attention ->
  (forall d, rd = Some d -> m <> "dot"%string -> D = d) ->
  in_features linear = (D + D)%nat ->
  shape3 src_outputs = (B, S, D) ->
  llen tar_input = B ->
  (forall b, (b < B)%nat -> valid_token embedding (lat1 tar_input b) = true) ->
  StateOK last_hidden last_cell ->
  exists predication hidden cell,
    Attn.DecoderAttentionRNN_forward attention embedding batch_norm rnn linear
      src_outputs tar_input last_hidden last_cell
      = Ok (predication, hidden, cell) /\
    shape2 predication = (B, out_features linear) /\
    StateOK hidden cell.
Proof.
  intros Hinit Hrd Hin Hsrc Hlen Hv Hst. unfold Attn.DecoderAttentionRNN_forward.
  destruct (Embedding_forward1_ok embedding tar_input) as [em [Hem Hems]].
  { intros b Hb. apply Hv. lia. }
  rewrite Hem. simpl.
  assert (Hu : shape3 (unsqueeze1 em) = (B, 1%nat, embedding_dim embedding)).
  { unfold shape2 in Hems. injection Hems as H0 H1.
    unfold shape3. simpl. rewrite H0, H1, Hlen. reflexivity. }
  destruct (batch_norm_step _ Hu) as [bn [Hbn Hbns]].
  rewrite Hbn. simpl.
  destruct (rnn_step _ _ _ Hbns Hst) as [o [h' [c' [Hr [Hos Hst']]]]].
  rewrite Hr. simpl.
  destruct (Attention_forward_ok m rd theta attention src_outputs o B S D
              Hinit Hsrc Hos Hrd) as [x [Hx Hxs]].
  rewrite Hx. simpl.
  destruct (mul3_broadcast_last src_outputs (softmax_dim1 x) B S D Hsrc)
    as [tmp [Htmp [Htmps _]]].
  { rewrite softmax_dim1_shape. exact Hxs. }
  rewrite Htmp. simpl.
  destruct (squeeze1_ok o B D Hos) as [sq [Hsq Hsqs]].
  rewrite Hsq. simpl.
  assert (Hctx : shape2 (sum_dim1 tmp) = (B, D)).
  { destruct (shape3_inv _ _ _ _ Htmps) as [H0 [_ H2]].
    unfold shape2. simpl. rewrite H0, H2. reflexivity. }
  destruct (cat2_dim1_ok sq (sum_dim1 tmp) B D D Hsqs Hctx) as [ct [Hct Hcts]].
  rewrite Hct. simpl.
  rewrite <- Hin in Hcts.
  destruct (Linear_forward2_ok linear ct B Hcts) as [pred [Hpred Hpreds]].
  rewrite Hpred. simpl.
  exists pred, h', c'. split; [reflexivity|]. split; assumption.
Qed.

(** ** The assembled models

    The drivers run to the end on the real decoder steps: the conditions
    under which the loops were shown to terminate are met by
    [DecoderRNN.forward] and [DecoderAttentionRNN.forward] whenever the
    recurrent stack and the normalisation layer keep their shape contract,
    the target tokens are in the vocabulary, and the vocabulary the scores
    range over is not larger than the embedding table. *)

(** X15. The plain model returns: with any encoder that succeeds, the
    repository's plain decoder step, a recurrent stack that keeps its shape
    contract, a seed column of valid tokens and an output vocabulary no larger
    than the embedding table, [Seq2Seq.forward] returns a tensor of shape
    (B, L, V).  Tokens fed back by the arg-max are always valid. *)
Lemma Seq2Seq_model_returns
  (encoder : LongTensor2 -> list Z -> result (Tensor3 * Tensor3))
  (out : Linear) (src : LongTensor2) (len : list Z) (trg : LongTensor2)
  (h0 c0 : Tensor3) :
  encoder src len = Ok (h0, c0) ->
  StateOK h0 c0 ->
  in_features out = D ->
  (1 <= out_features out <= num_embeddings embedding)%nat ->
  lrows trg = B ->
  (1 <= lcols trg)%nat ->
  (forall b, (b < B)%nat -> valid_token embedding (lat2 trg b 0%nat) = true) ->
  exists o,
    Plain.Seq2Seq_forward encoder (Plain.DecoderRNN_forward embedding rnn out)
      (out_features out) src len trg = Ok o /\
    shape3 o = (B, lcols trg, out_features out).
Proof.
  intros Henc Hst Hin [HV1 HV2] HB HL Hv.
  destruct (Plain_forward_returns encoder
              (Plain.DecoderRNN_forward embedding rnn out) (out_features out)
              (fun inp h c =>
                 llen inp = B /\
                 (forall b, (b < B)%nat -> valid_token embedding (lat1 inp b) = true) /\
                 StateOK h c)
              src len trg h0 c0 Henc HL HV1) as [o Ho].
  - simpl. split; [exact HB|]. split; [exact Hv | exact Hst].
  - intros inp h c [Hlen [Hval Hs]].
    destruct (DecoderRNN_forward_ok out inp h c Hin Hlen Hval Hs)
      as [pred [h' [c' [Hd [Hp Hs']]]]].
    exists pred, h', c'. split; [exact Hd|].
    unfold shape2 in Hp. injection Hp as Hrows Hcols.
    split; [unfold shape2; rewrite Hrows, Hcols, HB; reflexivity|].
    simpl. split; [exact Hrows|]. split; [|exact Hs'].
    intros b _. apply argmax_row_valid_token; lia.
  - exists o. split; [exact Ho|].
    destruct (Plain_forward_inv _ _ _ _ _ _ _ Ho) as [_ [Hs _]].
    rewrite Hs, HB. reflexivity.
Qed.

(** X16. The attention model returns: with any encoder that succeeds with
    outputs of shape (B, S, D), the repository's attention decoder step (any of
    the three scorers), sub-modules that keep their shape contract, valid
    target tokens and an output vocabulary no larger than the embedding
    table, [Seq2SeqAttention.forward] returns a tensor of shape (B, L, V),
    for every teacher-forcing rate and every random stream, having consumed
    L - 1 random values. *)
Lemma Seq2SeqAttention_model_returns
  (encoder : LongTensor2 -> list Z -> result (Tensor3 * Tensor3 * Tensor3))
  (m : string) (rd : option nat) (theta : Attn.AttentionParams)
  (attention : Attn.Attention) (linear : Linear) (random : nat -> R)
  (src : LongTensor2) (len : list Z) (tar : LongTensor2) (rate : R)
  (rng0 S : nat) (enc h0 c0 : Tensor3) :
  Attn.Attention_init m rd theta = Ok attention ->
  (forall d, rd = Some d -> m <> "dot"%string -> D = d) ->
  encoder src len = Ok (enc, h0, c0) ->
  shape3 enc = (B, S, D) ->
  StateOK h0 c0 ->
  in_features linear = (D + D)%nat ->
  (1 <= out_features linear <= num_embeddings embedding)%nat ->
  lrows tar = B ->
  (1 <= lcols tar)%nat ->
  (forall b t, (b < B)%nat -> (t < lcols tar)%nat ->
               valid_token embedding (lat2 tar b t) = true) ->
  exists o,
    Attn.Seq2SeqAttention_forward encoder
      (Attn.DecoderAttentionRNN_forward attention embedding batch_norm rnn linear)
      (out_features linear) random src len tar rate rng0
      = Ok (o, (rng0 + (lcols tar - 1))%nat) /\
    shape3 o = (B, lcols tar, out_features linear).
Proof.
  intros Hinit Hrd Henc Hencs Hst Hin [HV1 HV2] HB HL Hv.
  destruct (Attn_forward_returns encoder
              (Attn.DecoderAttentionRNN_forward attention embedding batch_norm
                 rnn linear) (out_features linear) random
              (fun inp h c =>
                 llen inp = B /\
                 (forall b, (b < B)%nat -> valid_token embedding (lat1 inp b) = true) /\
                 StateOK h c)
              src len tar rate rng0 enc h0 c0 Henc HL HV1) as [o Ho].
  - simpl. split; [exact HB|]. split; [|exact Hst].
    intros b Hb. apply Hv; [exact Hb | lia].
  - intros inp h c [Hlen [Hval Hs]].
    destruct (DecoderAttentionRNN_forward_ok m rd theta attention linear enc S
                inp h c Hinit Hrd Hin Hencs Hlen Hval Hs)
      as [pred [h' [c' [Hd [Hp Hs']]]]].
    exists pred, h', c'. split; [exact Hd|].
    unfold shape2 in Hp. injection Hp as Hrows Hcols.
    split; [unfold shape2; rewrite Hrows, Hcols, HB; reflexivity|].
    split.
    + simpl. split; [exact Hrows|]. split; [|exact Hs'].
      intros b _. apply argmax_row_valid_token; lia.
    + intros t Ht. simpl. split; [exact HB|]. split; [|exact Hs'].
      intros b Hb. apply Hv; [exact Hb | lia].
  - exists o. split; [exact Ho|].
    destruct (Attn_forward_inv _ _ _ _ _ _ _ _ _ _ _ Ho) as [_ [Hs _]].
    rewrite Hs, HB. reflexivity.
Qed.

End DecoderContracts.

(** ** What the loop writes

    The scores of which the arg-max is taken are the ones stored at the
    current time index of the output tensor. *)

Lemma Attn_loop_body_writes
  (decoder : Tensor3 -> LongTensor1 -> Tensor3 -> Tensor3
             -> result (Tensor2 * Tensor3 * Tensor3))
  (random : nat -> R) (enc : Tensor3) (tar : LongTensor2) (rate : R)
  (t : nat) (st st' : Attn.loop_state) (pred : Tensor2) (h c : Tensor3) :
  Attn.loop_body decoder random enc tar rate t st = Ok st' ->
  decoder enc (Attn.input_ st) (Attn.hidden st) (Attn.cell st) = Ok (pred, h, c) ->
  shape2 pred = (dim0 (Attn.outputs st), dim2 (Attn.outputs st)) ->
  forall b k, at3 (Attn.outputs st') b t k = at2 pred b k.
Proof.
  intros Hbody Hdec Hshape.
  destruct (Attn_loop_body_inv _ _ _ _ _ _ _ _ Hbody)
    as [pred' [h' [c' [Hdec' [Hset _]]]]].
  rewrite Hdec in Hdec'. inversion Hdec'. subst pred' h' c'.
  unfold shape2 in Hshape. injection Hshape as Hr Hc.
  destruct (setitem_col_inv _ _ _ _ Hset) as [_ [_ Hat]].
  apply Hat; assumption.
Qed.

Lemma Plain_loop_body_writes
  (decoder : LongTensor1 -> Tensor3 -> Tensor3
             -> result (Tensor2 * Tensor3 * Tensor3))
  (t : nat) (st st' : Plain.loop_state) (pred : Tensor2) (h c : Tensor3) :
  Plain.loop_body decoder t st = Ok st' ->
  decoder (Plain.input_ st) (Plain.hidden st) (Plain.cell st) = Ok (pred, h, c) ->
  shape2 pred = (dim0 (Plain.outputs st), dim2 (Plain.outputs st)) ->
  forall b k, at3 (Plain.outputs st') b t k = at2 pred b k.
Proof.
  intros Hbody Hdec Hshape.
  destruct (Plain_loop_body_inv _ _ _ _ Hbody)
    as [pred' [h' [c' [Hdec' [Hset _]]]]].
  rewrite Hdec in Hdec'. inversion Hdec'. subst pred' h' c'.
  unfold shape2 in Hshape. injection Hshape as Hr Hc.
  destruct (setitem_col_inv _ _ _ _ Hset) as [_ [_ Hat]].
  apply Hat; assumption.
Qed.

(** ** Padding positions under the 'dot' scorer

    The encoder zero-fills the positions beyond a sequence's true length.
    Such a position scores 0 against any decoder state, and the softmax gives
    it the weight of the score 0; nothing sets it apart from the other
    positions. *)

Lemma sumR_zero (n : nat) (f : nat -> R) :
  (forall i, (i < n)%nat -> f i = 0%R) -> sumR n f = 0%R.
Proof.
  induction n as [|n IH]; intros H; simpl.
  - reflexivity.
  - rewrite IH by (intros i Hi; apply H; lia).
    rewrite (H n) by lia. lra.
Qed.

(** X6. Under the 'dot' scorer a source position whose encoder output is the
    zero vector (a padding position) scores exactly 0, and the scorer treats
    it like any other position: it gets the weight the softmax gives to the
    score 0, which is the same at every zero position of that batch element
    and at most the weight of any position whose score is not negative. *)
Lemma Attention_dot_padding_weight (theta : Attn.AttentionParams)
  (rd : option nat) (self : Attn.Attention) (src_inputs tar_input : Tensor3)
  (B S D b s : nat) :
  Attn.Attention_init "dot" rd theta = Ok self ->
  shape3 src_inputs = (B, S, D) ->
  shape3 tar_input = (B, 1%nat, D) ->
  (b < B)%nat -> (s < S)%nat ->
  (forall k, (k < D)%nat -> at3 src_inputs b s k = 0%R) ->
  exists scores,
    Attn.Attention_forward self src_inputs tar_input = Ok (softmax_dim1 scores) /\
    at3 scores b s 0%nat = 0%R /\
    (forall s', (s' < S)%nat ->
       (forall k, (k < D)%nat -> at3 src_inputs b s' k = 0%R) ->
       at3 (softmax_dim1 scores) b s' 0%nat
       = at3 (softmax_dim1 scores) b s 0%nat) /\
    (forall s', (s' < S)%nat ->
       (0 <= at3 scores b s' 0%nat)%R ->
       (at3 (softmax_dim1 scores) b s 0%nat
        <= at3 (softmax_dim1 scores) b s' 0%nat)%R).
Proof.
  intros Hinit Hsrc Htar Hb Hs Hpad.
  destruct (Attention_init_cases _ _ _ _ Hinit)
    as [[_ ->] | [[Hm _] | [Hm _]]]; try discriminate Hm.
  destruct (shape3_inv _ _ _ _ Hsrc) as [Hs0 [Hs1 Hs2]].
  destruct (shape3_inv _ _ _ _ Htar) as [Ht0 [Ht1 Ht2]].
  unfold Attn.Attention_forward, Attn.Attention_dot, bmm. simpl.
  rewrite Hs0, Ht0, Hs2, Ht2, !Nat.eqb_refl. simpl.
  eexists. split; [reflexivity|].
  assert (Hzero : forall s',
             (forall k, (k < D)%nat -> at3 src_inputs b s' k = 0%R) ->
             sumR D (fun k => (at3 src_inputs b s' k * at3 tar_input b 0%nat k)%R)
             = 0%R).
  { intros s' Hz. apply sumR_zero. intros k Hk. rewrite (Hz k Hk). lra. }
  split; [simpl; exact (Hzero s Hpad)|]. split.
  - intros s' _ Hz. simpl. rewrite (Hzero s' Hz), (Hzero s Hpad). reflexivity.
  - intros s' Hs' Hge. simpl in *. rewrite (Hzero s Hpad).
    unfold Rdiv. apply Rmult_le_compat_r.
    + apply Rlt_le, Rinv_0_lt_compat.
      apply sumR_pos; [lia | intros; apply exp_pos].
    + destruct Hge as [Hgt | Heq].
      * apply Rlt_le, exp_increasing. exact Hgt.
      * rewrite <- Heq. apply Rle_refl.
Qed.

(** * Further properties of the attention scorer *)

Lemma sumR_plus (n : nat) (f g : nat -> R) :
  sumR n (fun i => (f i + g i)%R) = (sumR n f + sumR n g)%R.
Proof.
  induction n as [|n IH]; simpl.
  - lra.
  - rewrite IH. lra.
Qed.

Lemma sumR_const (n : nat) (c : R) : sumR n (fun _ => c) = (INR n * c)%R.
Proof.
  induction n as [|n IH].
  - simpl. lra.
  - cbn [sumR]. rewrite IH, S_INR. lra.
Qed.

Lemma sumR_le (n : nat) (f g : nat -> R) :
  (forall i, (i < n)%nat -> (f i <= g i)%R) -> (sumR n f <= sumR n g)%R.
Proof.
  induction n as [|n IH]; intros H; simpl.
  - lra.
  - specialize (IH (fun i Hi => H i (Nat.lt_lt_succ_r _ _ Hi))).
    specialize (H n (Nat.lt_succ_diag_r n)). lra.
Qed.

(** One term of a sum of non-negative terms is at most the sum. *)
Lemma sumR_term_le (n : nat) (f : nat -> R) (j : nat) :
  (forall i, (i < n)%nat -> (0 <= f i)%R) -> (j < n)%nat -> (f j <= sumR n f)%R.
Proof.
  induction n as [|n IH]; intros Hpos Hj; [lia|]. simpl.
  assert (H0 : (0 <= sumR n f)%R).
  { rewrite <- (sumR_zero n (fun _ => 0%R)) by reflexivity.
    apply sumR_le. intros i Hi. apply Hpos. lia. }
  destruct (Nat.eq_dec j n) as [->|Hne].
  - lra.
  - specialize (IH (fun i Hi => Hpos i (Nat.lt_lt_succ_r _ _ Hi)) ltac:(lia)).
    specialize (Hpos n (Nat.lt_succ_diag_r n)). lra.
Qed.

(** Adding one constant to all the scores of a batch element leaves its
    softmax unchanged. *)
Lemma softmax_dim1_shift (x y : Tensor3) (b k : nat) (c : R) :
  dim1 y = dim1 x ->
  (forall s, (s < dim1 x)%nat -> at3 y b s k = (at3 x b s k + c)%R) ->
  forall s, (s < dim1 x)%nat ->
    at3 (softmax_dim1 y) b s k = at3 (softmax_dim1 x) b s k.
Proof.
  intros Hd Hy s Hs. simpl. rewrite Hd.
  rewrite (sumR_ext (dim1 x) (fun s' => exp (at3 y b s' k))
             (fun s' => (exp (at3 x b s' k) * exp c)%R)).
  - rewrite sumR_scale, (Hy s Hs), exp_plus.
    assert (Hpos : (0 < sumR (dim1 x) (fun s' => exp (at3 x b s' k)))%R)
      by (apply sumR_pos; [lia | intros; apply exp_pos]).
    pose proof (exp_pos c). field. split; lra.
  - intros i Hi. rewrite (Hy i Hi), exp_plus. reflexivity.
Qed.

(** X2. The 'dot' scorer accepts any number K of decoder states at once:
    with encoder outputs (B, S, D) and states (B, K, D) it returns a tensor
    of shape (B, S, K) in which every column is a distribution over the S
    positions.  When the batch sizes or the feature sizes differ it raises
    [RuntimeError]. *)
Theorem Attention_forward_dot_shapes
  (rnn_dim : option nat) (theta : Attn.AttentionParams) (self : Attn.Attention)
  (src_inputs tar_input : Tensor3) :
  Attn.Attention_init "dot" rnn_dim theta = Ok self ->
  (dim0 src_inputs = dim0 tar_input /\ dim2 src_inputs = dim2 tar_input ->
   exists out,
     Attn.Attention_forward self src_inputs tar_input = Ok out /\
     shape3 out = (dim0 src_inputs, dim1 src_inputs, dim1 tar_input) /\
     (forall b k, (0 < dim1 src_inputs)%nat ->
        sumR (dim1 src_inputs) (fun s => at3 out b s k) = 1%R)) /\
  (dim0 src_inputs <> dim0 tar_input \/ dim2 src_inputs <> dim2 tar_input ->
   Attn.Attention_forward self src_inputs tar_input = Raise RuntimeError).
Proof.
  intros Hinit.
  destruct (Attention_init_cases _ _ _ _ Hinit)
    as [[_ ->] | [[Hm _] | [Hm _]]]; try discriminate Hm.
  unfold Attn.Attention_forward, Attn.Attention_dot, bmm. simpl. split.
  - intros [H0 H2]. rewrite H0, H2, !Nat.eqb_refl. simpl.
    eexists. split; [reflexivity|]. split; [reflexivity|].
    intros b k HS.
    apply (softmax_dim1_sum
             (mkT3 (dim0 tar_input) (dim1 src_inputs) (dim1 tar_input)
                (fun n i j => sumR (dim2 tar_input)
                   (fun k0 => (at3 src_inputs n i k0 * at3 tar_input n j k0)%R)))
             b k HS).
  - intros [H|H].
    + destruct (Nat.eqb_spec (dim0 src_inputs) (dim0 tar_input)); [contradiction|].
      reflexivity.
    + destruct (Nat.eqb_spec (dim2 src_inputs) (dim2 tar_input)); [contradiction|].
      rewrite andb_false_r. reflexivity.
Qed.

(** X2 on the example tensors, and on a decoder state of the wrong width. *)
Lemma Attention_forward_dot_shapes_witness :
  Attn.Attention_init "dot" None ex_attention_params
    = Ok (Attn.mkAttention "dot" None None) /\
  (exists out,
     Attn.Attention_forward (Attn.mkAttention "dot" None None)
       ex_enc_outputs ex_dec_state = Ok out /\
     shape3 out = (2%nat, 4%nat, 1%nat) /\
     (forall b k, (0 < 4)%nat -> sumR 4 (fun s => at3 out b s k) = 1%R)) /\
  Attn.Attention_forward (Attn.mkAttention "dot" None None)
    ex_enc_outputs (zeros3 2 1 8) = Raise RuntimeError.
Proof.
  split; [reflexivity|]. split.
  - apply (proj1 (Attention_forward_dot_shapes None ex_attention_params
                    (Attn.mkAttention "dot" None None)
                    ex_enc_outputs ex_dec_state eq_refl)).
    split; reflexivity.
  - apply (proj2 (Attention_forward_dot_shapes None ex_attention_params
                    (Attn.mkAttention "dot" None None)
                    ex_enc_outputs (zeros3 2 1 8) eq_refl)).
    right. simpl. discriminate.
Defined.

(** X3. The bias of the 'general' scorer's linear layer has no effect on the
    attention distribution: it adds the same amount (bias . decoder state) to
    the score of every source position, and the softmax cancels it. *)
Theorem Attention_general_bias_irrelevant
  (d : nat) (theta1 theta2 : Attn.AttentionParams)
  (self1 self2 : Attn.Attention) (src_inputs tar_input : Tensor3) (B S : nat) :
  Attn.Attention_init "general" (Some d) theta1 = Ok self1 ->
  Attn.Attention_init "general" (Some d) theta2 = Ok self2 ->
  p_weight (Attn.nn_params theta1) = p_weight (Attn.nn_params theta2) ->
  shape3 src_inputs = (B, S, d) ->
  shape3 tar_input = (B, 1%nat, d) ->
  exists out1 out2,
    Attn.Attention_forward self1 src_inputs tar_input = Ok out1 /\
    Attn.Attention_forward self2 src_inputs tar_input = Ok out2 /\
    forall b s, (s < S)%nat -> at3 out1 b s 0%nat = at3 out2 b s 0%nat.
Proof.
  intros H1 H2 HW Hsrc Htar.
  destruct (Attention_init_cases _ _ _ _ H1)
    as [[Hm _] | [[_ [d1 [Hd1 ->]]] | [Hm _]]]; try discriminate Hm.
  destruct (Attention_init_cases _ _ _ _ H2)
    as [[Hm _] | [[_ [d2 [Hd2 ->]]] | [Hm _]]]; try discriminate Hm.
  inversion Hd1. inversion Hd2. subst d1 d2. clear Hd1 Hd2.
  destruct (shape3_inv _ _ _ _ Hsrc) as [Hs0 [Hs1 Hs2]].
  destruct (shape3_inv _ _ _ _ Htar) as [Ht0 [Ht1 Ht2]].
  unfold Attn.Attention_forward, Attn.Attention_general, Linear_forward3, bmm.
  simpl. rewrite Hs2, Nat.eqb_refl. simpl.
  rewrite Hs0, Ht0, Ht2, !Nat.eqb_refl. simpl.
  eexists. eexists. split; [reflexivity|]. split; [reflexivity|].
  intros b s Hs. rewrite <- Hs1 in Hs.
  set (bias1 := p_bias (Attn.nn_params theta1)).
  set (bias2 := p_bias (Attn.nn_params theta2)).
  apply (softmax_dim1_shift _ _ b 0%nat
           (sumR d (fun k => (bias1 k * at3 tar_input b 0%nat k)%R)
            - sumR d (fun k => (bias2 k * at3 tar_input b 0%nat k)%R))%R);
    [reflexivity | | exact Hs].
  intros s' _. simpl. rewrite HW.
  rewrite (sumR_ext d _
             (fun k => (sumR d (fun k0 => at3 src_inputs b s' k0
                                          * p_weight (Attn.nn_params theta2) k k0)
                        * at3 tar_input b 0%nat k
                        + bias1 k * at3 tar_input b 0%nat k)%R))
    by (intros; lra).
  rewrite (sumR_ext d
             (fun k => ((sumR d (fun k0 => at3 src_inputs b s' k0
                                           * p_weight (Attn.nn_params theta2) k k0)
                         + bias2 k) * at3 tar_input b 0%nat k)%R)
             (fun k => (sumR d (fun k0 => at3 src_inputs b s' k0
                                          * p_weight (Attn.nn_params theta2) k k0)
                        * at3 tar_input b 0%nat k
                        + bias2 k * at3 tar_input b 0%nat k)%R))
    by (intros; lra).
  rewrite !sumR_plus. lra.
Qed.

(** X3 on the example tensors, with biases 0 and 5. *)
Lemma Attention_general_bias_irrelevant_witness :
  exists out1 out2,
    Attn.Attention_forward ex_general ex_enc_outputs ex_dec_state = Ok out1 /\
    Attn.Attention_forward ex_general_biased ex_enc_outputs ex_dec_state = Ok out2 /\
    forall b s, (s < 4)%nat -> at3 out1 b s 0%nat = at3 out2 b s 0%nat.
Proof.
  apply (Attention_general_bias_irrelevant 16 ex_attention_params
           ex_attention_params_biased ex_general ex_general_biased
           ex_enc_outputs ex_dec_state 2 4); reflexivity.
Defined.

(** X4. Likewise the bias of the 'concat' scorer's last layer [v] has no
    effect on the attention distribution. *)
Theorem Attention_concat_v_bias_irrelevant
  (d : nat) (theta1 theta2 : Attn.AttentionParams)
  (self1 self2 : Attn.Attention) (src_inputs tar_input : Tensor3) (B S : nat) :
  Attn.Attention_init "concat" (Some d) theta1 = Ok self1 ->
  Attn.Attention_init "concat" (Some d) theta2 = Ok self2 ->
  Attn.nn_params theta1 = Attn.nn_params theta2 ->
  p_weight (Attn.v_params theta1) = p_weight (Attn.v_params theta2) ->
  shape3 src_inputs = (B, S, d) ->
  shape3 tar_input = (B, 1%nat, d) ->
  exists out1 out2,
    Attn.Attention_forward self1 src_inputs tar_input = Ok out1 /\
    Attn.Attention_forward self2 src_inputs tar_input = Ok out2 /\
    forall b s, (s < S)%nat -> at3 out1 b s 0%nat = at3 out2 b s 0%nat.
Proof.
  intros H1 H2 Hnn HW Hsrc Htar.
  destruct (Attention_init_cases _ _ _ _ H1)
    as [[Hm _] | [[Hm _] | [_ [d1 [Hd1 ->]]]]]; try discriminate Hm.
  destruct (Attention_init_cases _ _ _ _ H2)
    as [[Hm _] | [[Hm _] | [_ [d2 [Hd2 ->]]]]]; try discriminate Hm.
  inversion Hd1. inversion Hd2. subst d1 d2. clear Hd1 Hd2.
  rewrite Hnn, HW.
  unfold Attn.Attention_forward, Attn.Attention_concat. simpl.
  pose proof (permute021_shape _ _ _ _ Htar) as Htar'.
  pose proof (permute021_shape _ _ _ _ Hsrc) as Hsrc'.
  destruct (expand_last_ok (permute021 tar_input) B d (dim1 src_inputs) Htar')
    as [e [He Hes]].
  rewrite He. simpl.
  destruct (shape3_inv _ _ _ _ Hsrc) as [_ [Hs1 _]]. rewrite Hs1 in Hes.
  destruct (cat3_dim1_ok _ _ _ _ _ _ Hsrc' Hes) as [h [Hh Hhs]].
  rewrite Hh. simpl.
  apply permute021_shape in Hhs.
  replace (d + d)%nat with (d * 2)%nat in Hhs by lia.
  destruct (Linear_forward3_ok
              (mkLinear (d * 2) d (p_weight (Attn.nn_params theta2))
                 (p_bias (Attn.nn_params theta2))) _ B S Hhs)
    as [y [Hy Hys]].
  rewrite Hy. simpl.
  destruct (shape3_inv _ _ _ _ Hys) as [Hy0 [Hy1 Hy2]].
  unfold Linear_forward3. simpl. rewrite Hy2, Nat.eqb_refl.
  eexists. eexists. split; [reflexivity|]. split; [reflexivity|].
  intros b s Hs. rewrite <- Hy1 in Hs.
  apply (softmax_dim1_shift _ _ b 0%nat
           (p_bias (Attn.v_params theta1) 0%nat
            - p_bias (Attn.v_params theta2) 0%nat)%R);
    [reflexivity | | exact Hs].
  intros s' _. simpl. lra.
Qed.

(** X4 on the example tensors, with biases 0 and 5. *)
Lemma Attention_concat_v_bias_irrelevant_witness :
  exists out1 out2,
    Attn.Attention_forward ex_concat ex_enc_outputs ex_dec_state = Ok out1 /\
    Attn.Attention_forward ex_concat_biased ex_enc_outputs ex_dec_state = Ok out2 /\
    forall b s, (s < 4)%nat -> at3 out1 b s 0%nat = at3 out2 b s 0%nat.
Proof.
  apply (Attention_concat_v_bias_irrelevant 16 ex_attention_params
           ex_attention_params_vbiased ex_concat ex_concat_biased
           ex_enc_outputs ex_dec_state 2 4); reflexivity.
Defined.

(** X5. Under the 'dot' scorer a decoder state that is the zero vector gives
    the uniform distribution: every source position of that batch element
    gets the weight 1 / S. *)
Theorem Attention_dot_zero_state_uniform
  (rnn_dim : option nat) (theta : Attn.AttentionParams) (self : Attn.Attention)
  (src_inputs tar_input : Tensor3) (B S D b : nat) :
  Attn.Attention_init "dot" rnn_dim theta = Ok self ->
  shape3 src_inputs = (B, S, D) ->
  shape3 tar_input = (B, 1%nat, D) ->
  (forall k, (k < D)%nat -> at3 tar_input b 0%nat k = 0%R) ->
  exists out,
    Attn.Attention_forward self src_inputs tar_input = Ok out /\
    forall s, (s < S)%nat -> at3 out b s 0%nat = (1 / INR S)%R.
Proof.
  intros Hinit Hsrc Htar Hz.
  destruct (Attention_init_cases _ _ _ _ Hinit)
    as [[_ ->] | [[Hm _] | [Hm _]]]; try discriminate Hm.
  destruct (shape3_inv _ _ _ _ Hsrc) as [Hs0 [Hs1 Hs2]].
  destruct (shape3_inv _ _ _ _ Htar) as [Ht0 [Ht1 Ht2]].
  unfold Attn.Attention_forward, Attn.Attention_dot, bmm. simpl.
  rewrite Hs0, Ht0, Hs2, Ht2, !Nat.eqb_refl. simpl.
  eexists. split; [reflexivity|].
  intros s Hs. simpl. rewrite Hs1.
  assert (Hscore : forall s',
             sumR D (fun k => (at3 src_inputs b s' k * at3 tar_input b 0%nat k)%R)
             = 0%R).
  { intros s'. apply sumR_zero. intros k Hk. rewrite (Hz k Hk). lra. }
  rewrite Hscore.
  rewrite (sumR_ext S _ (fun _ => exp 0)) by (intros; rewrite Hscore; reflexivity).
  rewrite sumR_const, exp_0.
  assert (HS : (0 < INR S)%R) by (apply lt_0_INR; lia).
  field. lra.
Qed.

(** X5 on the example encoder outputs, with a zero decoder state. *)
Lemma Attention_dot_zero_state_uniform_witness :
  exists out,
    Attn.Attention_forward (Attn.mkAttention "dot" None None)
      ex_enc_outputs (zeros3 2 1 16) = Ok out /\
    forall s, (s < 4)%nat -> at3 out 1%nat s 0%nat = (1 / INR 4)%R.
Proof.
  apply (Attention_dot_zero_state_uniform None ex_attention_params
           (Attn.mkAttention "dot" None None) ex_enc_outputs (zeros3 2 1 16)
           2 4 16 1).
  - reflexivity.
  - reflexivity.
  - reflexivity.
  - intros k _. reflexivity.
Defined.

(** X6 (see [Attention_dot_padding_weight]) on a batch whose second sequence
    is zero from position 2 on, as the encoder leaves it. *)
Lemma Attention_dot_padding_weight_witness :
  exists scores,
    Attn.Attention_forward (Attn.mkAttention "dot" None None)
      ex_enc_outputs_padded ex_dec_state = Ok (softmax_dim1 scores) /\
    at3 scores 1%nat 3%nat 0%nat = 0%R /\
    (forall s', (s' < 4)%nat ->
       (forall k, (k < 16)%nat -> at3 ex_enc_outputs_padded 1%nat s' k = 0%R) ->
       at3 (softmax_dim1 scores) 1%nat s' 0%nat
       = at3 (softmax_dim1 scores) 1%nat 3%nat 0%nat) /\
    (forall s', (s' < 4)%nat ->
       (0 <= at3 scores 1%nat s' 0%nat)%R ->
       (at3 (softmax_dim1 scores) 1%nat 3%nat 0%nat
        <= at3 (softmax_dim1 scores) 1%nat s' 0%nat)%R).
Proof.
  apply (Attention_dot_padding_weight ex_attention_params None
           (Attn.mkAttention "dot" None None) ex_enc_outputs_padded ex_dec_state
           2 4 16 1 3).
  - reflexivity.
  - reflexivity.
  - reflexivity.
  - lia.
  - lia.
  - intros k _. reflexivity.
Defined.

(** X7. For each of the three methods no attention weight exceeds 1; and
    with a single source position the weight is exactly 1, whatever the
    scores are. *)
Theorem Attention_forward_weight_range
  (m : string) (rd : option nat) (theta : Attn.AttentionParams)
  (self : Attn.Attention) (src_inputs tar_input : Tensor3) (B S D : nat) :
  Attn.Attention_init m rd theta = Ok self ->
  shape3 src_inputs = (B, S, D) ->
  shape3 tar_input = (B, 1%nat, D) ->
  (forall d, rd = Some d -> m <> "dot"%string -> D = d) ->
  exists out,
    Attn.Attention_forward self src_inputs tar_input = Ok out /\
    (forall b s, (s < S)%nat -> (0 <= at3 out b s 0%nat <= 1)%R) /\
    (S = 1%nat -> forall b, at3 out b 0%nat 0%nat = 1%R).
Proof.
  intros Hinit Hsrc Htar HD.
  destruct (Attention_forward_ok m rd theta self src_inputs tar_input B S D
              Hinit Hsrc Htar HD) as [x [Hx Hshape]].
  destruct (shape3_inv _ _ _ _ Hshape) as [_ [Hx1 _]].
  exists (softmax_dim1 x). split; [exact Hx|]. split.
  - intros b s Hs. rewrite <- Hx1 in Hs.
    pose proof (softmax_dim1_pos x b s 0%nat Hs) as Hpos.
    split; [apply Rlt_le; exact Hpos|].
    rewrite <- (softmax_dim1_sum x b 0%nat) by lia.
    apply (sumR_term_le (dim1 x) (fun s' => at3 (softmax_dim1 x) b s' 0%nat) s);
      [|exact Hs].
    intros i Hi. apply Rlt_le, softmax_dim1_pos. exact Hi.
  - intros HS b. rewrite HS in Hx1.
    pose proof (softmax_dim1_sum x b 0%nat) as Hsum.
    rewrite Hx1 in Hsum. specialize (Hsum (Nat.lt_0_1)).
    cbn [sumR] in Hsum. lra.
Qed.

(** X7 with the 'concat' scorer on encoder outputs that hold a single
    source position. *)
Lemma Attention_forward_weight_range_witness :
  exists out,
    Attn.Attention_forward ex_concat ex_enc_outputs_single ex_dec_state = Ok out /\
    (forall b s, (s < 1)%nat -> (0 <= at3 out b s 0%nat <= 1)%R) /\
    (1%nat = 1%nat -> forall b, at3 out b 0%nat 0%nat = 1%R).
Proof.
  apply (Attention_forward_weight_range "concat" (Some 16%nat)
           ex_attention_params ex_concat ex_enc_outputs_single ex_dec_state
           2 1 16).
  - reflexivity.
  - reflexivity.
  - reflexivity.
  - intros d Hd _. inversion Hd. reflexivity.
Defined.

(** * Further properties of the encoders *)

Lemma Embedding_forward2_invalid (e : Embedding) (x : LongTensor2) (b t : nat) :
  (b < lrows x)%nat -> (t < lcols x)%nat ->
  valid_token e (lat2 x b t) = false ->
  Embedding_forward2 e x = Raise IndexError.
Proof.
  intros Hb Ht Hv. unfold Embedding_forward2.
  destruct (forallb _ (seq 0 (lrows x))) eqn:Hall; [|reflexivity].
  rewrite forallb_forall in Hall.
  specialize (Hall b ltac:(apply in_seq; lia)).
  rewrite forallb_forall in Hall.
  specialize (Hall t ltac:(apply in_seq; lia)).
  rewrite Hv in Hall. discriminate Hall.
Qed.

Lemma Embedding_forward2_inv (e : Embedding) (x : LongTensor2) (y : Tensor3) :
  Embedding_forward2 e x = Ok y ->
  shape3 y = (lrows x, lcols x, embedding_dim e) /\
  (forall b t, (b < lrows x)%nat -> (t < lcols x)%nat ->
               valid_token e (lat2 x b t) = true) /\
  (forall b t j, at3 y b t j = table e (Z.to_nat (lat2 x b t)) j).
Proof.
  unfold Embedding_forward2.
  destruct (forallb _ (seq 0 (lrows x))) eqn:Hall; [|discriminate].
  intros H. inversion H. subst y. clear H.
  split; [reflexivity|]. split; [|reflexivity].
  intros b t Hb Ht.
  rewrite forallb_forall in Hall.
  specialize (Hall b ltac:(apply in_seq; lia)).
  rewrite forallb_forall in Hall.
  apply Hall. apply in_seq. lia.
Qed.

(** The packing call succeeds exactly on a non-empty input with a length
    vector of 64-bit integers, of the batch size, whose last entry is
    positive and which is sorted in decreasing order. *)
Lemma pack_padded_sequence_is_ok (input : Tensor3) (lengths : list Z) :
  is_ok (pack_padded_sequence input lengths)
  = forallb fits_int64 lengths
    && negb (numel3 input =? 0)%nat
    && (List.length lengths =? dim0 input)%nat
    && (0 <? last lengths 0)%Z
    && sorted_decreasing lengths.
Proof.
  unfold pack_padded_sequence.
  destruct (forallb fits_int64 lengths); [|reflexivity]. cbn [negb andb].
  destruct (numel3 input =? 0)%nat; [reflexivity|].
  destruct (List.length lengths =? dim0 input)%nat; [|reflexivity].
  cbn [negb andb].
  destruct (Z.leb_spec (last lengths 0%Z) 0%Z) as [Hle|Hlt].
  - destruct (Z.ltb_spec 0%Z (last lengths 0%Z)); [lia | reflexivity].
  - destruct (Z.ltb_spec 0%Z (last lengths 0%Z)); [|lia].
    destruct (sorted_decreasing lengths); reflexivity.
Qed.

(** X8. A source token outside the embedding table (padding positions
    included) makes either encoder raise [IndexError] in the embedding
    lookup; nothing else is entered, whatever the lengths are. *)
Theorem EncoderRNN_forward_invalid_token
  (embedding : Embedding) (batch_norm : Tensor3 -> result Tensor3)
  (rnn : PackedSequence -> result (PackedSequence * (Tensor3 * Tensor3)))
  (rnn_dim : nat) (inputs : LongTensor2) (lengths : list Z) (b t : nat) :
  (b < lrows inputs)%nat -> (t < lcols inputs)%nat ->
  valid_token embedding (lat2 inputs b t) = false ->
  Attn.EncoderRNN_forward embedding batch_norm rnn rnn_dim inputs lengths
    = ([StEmbedding], Raise IndexError) /\
  Plain.EncoderRNN_forward embedding rnn inputs lengths
    = ([StEmbedding], Raise IndexError).
Proof.
  intros Hb Ht Hv.
  unfold Attn.EncoderRNN_forward, Plain.EncoderRNN_forward.
  rewrite (Embedding_forward2_invalid embedding inputs b t Hb Ht Hv).
  split; reflexivity.
Qed.

(** X8 on a batch that holds the token 10 in a vocabulary of 10. *)
Lemma EncoderRNN_forward_invalid_token_witness :
  valid_token ex_embedding (lat2 ex_src_tokens_invalid 1%nat 3%nat) = false /\
  Attn.EncoderRNN_forward ex_embedding ex_batch_norm ex_enc_rnn 16
    ex_src_tokens_invalid [4; 2]%Z = ([StEmbedding], Raise IndexError) /\
  Plain.EncoderRNN_forward ex_embedding ex_plain_enc_rnn
    ex_src_tokens_invalid [4; 2]%Z = ([StEmbedding], Raise IndexError).
Proof.
  split; [reflexivity|]. split.
  - apply (proj1 (EncoderRNN_forward_invalid_token ex_embedding ex_batch_norm
                    ex_enc_rnn 16 ex_src_tokens_invalid [4; 2]%Z 1 3
                    ltac:(simpl; lia) ltac:(simpl; lia) eq_refl)).
  - apply (proj2 (EncoderRNN_forward_invalid_token ex_embedding ex_batch_norm
                    ex_plain_enc_rnn 16 ex_src_tokens_invalid [4; 2]%Z 1 3
                    ltac:(simpl; lia) ltac:(simpl; lia) eq_refl)).
Defined.

(** X9. When the tokens are valid (and, in the attention variant, the
    normalisation succeeds), the recurrent stack of either encoder is reached
    exactly when every length fits a 64-bit integer, the batch is not empty,
    the length vector has one entry per batch element, its last entry is
    positive and it is sorted in decreasing order. *)
Theorem EncoderRNN_forward_reaches_recurrence
  (embedding : Embedding) (batch_norm : Tensor3 -> result Tensor3)
  (rnn : PackedSequence -> result (PackedSequence * (Tensor3 * Tensor3)))
  (rnn_dim : nat) (inputs : LongTensor2) (lengths : list Z) (e e' : Tensor3) :
  Embedding_forward2 embedding inputs = Ok e ->
  batch_norm e = Ok e' ->
  recurrence_ran (Attn.EncoderRNN_forward embedding batch_norm rnn rnn_dim
                    inputs lengths)
  = forallb fits_int64 lengths
    && negb (numel3 e' =? 0)%nat
    && (List.length lengths =? dim0 e')%nat
    && (0 <? last lengths 0)%Z
    && sorted_decreasing lengths
  /\
  recurrence_ran (Plain.EncoderRNN_forward embedding rnn inputs lengths)
  = forallb fits_int64 lengths
    && negb (lrows inputs * lcols inputs * embedding_dim embedding =? 0)%nat
    && (List.length lengths =? lrows inputs)%nat
    && (0 <? last lengths 0)%Z
    && sorted_decreasing lengths.
Proof.
  intros He Hb. split.
  - rewrite <- pack_padded_sequence_is_ok.
    unfold Attn.EncoderRNN_forward.
    unfold recurrence_ran, stages_entered, call, inline, tret, tbind.
    rewrite He, Hb.
    destruct (pack_padded_sequence e' lengths) as [p|x]; [|reflexivity].
    destruct (rnn p) as [[po [h c]]|x]; [|reflexivity].
    destruct (pad_packed_sequence po) as [pd pl].
    destruct (add3 (slice2_to pd rnn_dim) (slice2_from pd rnn_dim)); [|reflexivity].
    destruct (add3 (slice0_to h 1) (slice0_from h 1)); [|reflexivity].
    destruct (add3 (slice0_to c 1) (slice0_from c 1)); reflexivity.
  - destruct (Embedding_forward2_inv _ _ _ He) as [Hs _].
    destruct (shape3_inv _ _ _ _ Hs) as [H0 [H1 H2]].
    replace (lrows inputs * lcols inputs * embedding_dim embedding)%nat
      with (numel3 e) by (unfold numel3; rewrite H0, H1, H2; reflexivity).
    rewrite <- H0, <- pack_padded_sequence_is_ok.
    unfold Plain.EncoderRNN_forward.
    unfold recurrence_ran, stages_entered, call, inline, tret, tbind.
    rewrite He.
    destruct (pack_padded_sequence e lengths) as [p|x]; [|reflexivity].
    destruct (rnn p) as [[po [h c]]|x]; [|reflexivity].
    destruct (pad_packed_sequence po) as [pd pl]. reflexivity.
Qed.

(** X9 on the example batch: the lengths [4; 2] reach the recurrence; a
    first length of 2^63, which no 64-bit integer holds, and a length vector
    with an entry too many do not. *)
Lemma EncoderRNN_forward_reaches_recurrence_witness :
  recurrence_ran (Attn.EncoderRNN_forward ex_embedding ex_batch_norm ex_enc_rnn
                    16 ex_src_tokens [4; 2]%Z) = true /\
  recurrence_ran (Attn.EncoderRNN_forward ex_embedding ex_batch_norm ex_enc_rnn
                    16 ex_src_tokens [9223372036854775808; 2]%Z) = false /\
  recurrence_ran (Plain.EncoderRNN_forward ex_embedding ex_plain_enc_rnn
                    ex_src_tokens [4; 2; 1]%Z) = false.
Proof.
  split; [|split].
  - rewrite (proj1 (EncoderRNN_forward_reaches_recurrence ex_embedding
                      ex_batch_norm ex_enc_rnn 16 ex_src_tokens [4; 2]%Z
                      _ _ eq_refl eq_refl)).
    reflexivity.
  - rewrite (proj1 (EncoderRNN_forward_reaches_recurrence ex_embedding
                      ex_batch_norm ex_enc_rnn 16 ex_src_tokens
                      [9223372036854775808; 2]%Z _ _ eq_refl eq_refl)).
    reflexivity.
  - rewrite (proj2 (EncoderRNN_forward_reaches_recurrence ex_embedding
                      ex_batch_norm ex_plain_enc_rnn 16 ex_src_tokens
                      [4; 2; 1]%Z _ _ eq_refl eq_refl)).
    reflexivity.
Defined.

(** X10. The outputs of the attention encoder are padded back to the longest
    length of the batch, and at every position at or beyond a sequence's true
    length they are the zero vector. *)
Theorem EncoderRNN_forward_outputs_zero_padded
  (embedding : Embedding) (batch_norm : Tensor3 -> result Tensor3)
  (rnn : PackedSequence -> result (PackedSequence * (Tensor3 * Tensor3)))
  (rnn_dim n_layer B : nat) (inputs : LongTensor2) (lengths : list Z)
  (e e' : Tensor3) (p po : PackedSequence) (h c : Tensor3) :
  Embedding_forward2 embedding inputs = Ok e ->
  batch_norm e = Ok e' ->
  pack_padded_sequence e' lengths = Ok p ->
  rnn p = Ok (po, (h, c)) ->
  dim0 (ps_data po) = B ->
  dim2 (ps_data po) = (2 * rnn_dim)%nat ->
  (1 <= n_layer)%nat ->
  shape3 h = ((2 * n_layer)%nat, B, rnn_dim) ->
  shape3 c = ((2 * n_layer)%nat, B, rnn_dim) ->
  exists outputs hidden cell,
    outcome (Attn.EncoderRNN_forward embedding batch_norm rnn rnn_dim
               inputs lengths) = Ok (outputs, hidden, cell) /\
    shape3 outputs = (B, Z.to_nat (hd 0%Z (ps_lengths po)), rnn_dim) /\
    forall b t k,
      (b < B)%nat -> (t < Z.to_nat (hd 0%Z (ps_lengths po)))%nat ->
      (k < rnn_dim)%nat ->
      (length_at (ps_lengths po) b <= Z.of_nat t)%Z ->
      at3 outputs b t k = 0%R.
Proof.
  intros He Hb Hp Hr HB HD Hn Hh Hc.
  destruct (Attn_EncoderRNN_forward_merges embedding batch_norm rnn rnn_dim
              n_layer B inputs lengths e e' p po h c He Hb Hp Hr HB HD Hn Hh Hc)
    as [o [h' [c' [Hout [_ [Hos [_ [_ [Hoat _]]]]]]]]].
  exists o, h', c'. split; [exact Hout|]. split; [exact Hos|].
  intros b t k Hb' Ht Hk Hlen.
  rewrite (Hoat b t k Hb' Ht Hk).
  unfold pad_packed_sequence. cbn [fst at3].
  destruct (Z.ltb_spec (Z.of_nat t) (length_at (ps_lengths po) b)); [lia|].
  lra.
Qed.

(** X10 on the example batch with lengths [4; 2]: positions 2 and 3 of the
    second sequence are zero. *)
Lemma EncoderRNN_forward_outputs_zero_padded_witness :
  exists outputs hidden cell,
    outcome (Attn.EncoderRNN_forward ex_embedding ex_batch_norm ex_enc_rnn 16
               ex_src_tokens [4; 2]%Z) = Ok (outputs, hidden, cell) /\
    shape3 outputs = (2%nat, 4%nat, 16%nat) /\
    forall b t k,
      (b < 2)%nat -> (t < 4)%nat -> (k < 16)%nat ->
      (length_at [4; 2]%Z b <= Z.of_nat t)%Z ->
      at3 outputs b t k = 0%R.
Proof.
  eapply (EncoderRNN_forward_outputs_zero_padded ex_embedding ex_batch_norm
            ex_enc_rnn 16 1 2 ex_src_tokens [4; 2]%Z _ _ _
            (mkPacked (mkT3 2 4 32 (fun _ _ _ => 1%R)) [4; 2]%Z)).
  - reflexivity.
  - reflexivity.
  - reflexivity.
  - reflexivity.
  - reflexivity.
  - reflexivity.
  - lia.
  - reflexivity.
  - reflexivity.
Defined.

(** X11. With a single bidirectional layer the attention encoder returns
    outputs of shape (B, T, rnn_dim) that are the forward half plus the
    backward half of the padded recurrent outputs, and hidden and cell states
    of shape (1, B, rnn_dim) that are the forward state plus the backward
    state. *)
Theorem EncoderRNN_forward_single_layer
  (embedding : Embedding) (batch_norm : Tensor3 -> result Tensor3)
  (rnn : PackedSequence -> result (PackedSequence * (Tensor3 * Tensor3)))
  (rnn_dim B : nat) (inputs : LongTensor2) (lengths : list Z)
  (e e' : Tensor3) (p po : PackedSequence) (h c : Tensor3) :
  Embedding_forward2 embedding inputs = Ok e ->
  batch_norm e = Ok e' ->
  pack_padded_sequence e' lengths = Ok p ->
  rnn p = Ok (po, (h, c)) ->
  dim0 (ps_data po) = B ->
  dim2 (ps_data po) = (2 * rnn_dim)%nat ->
  shape3 h = (2%nat, B, rnn_dim) ->
  shape3 c = (2%nat, B, rnn_dim) ->
  exists outputs hidden cell,
    outcome (Attn.EncoderRNN_forward embedding batch_norm rnn rnn_dim
               inputs lengths) = Ok (outputs, hidden, cell) /\
    shape3 outputs = (B, Z.to_nat (hd 0%Z (ps_lengths po)), rnn_dim) /\
    shape3 hidden = (1%nat, B, rnn_dim) /\
    shape3 cell = (1%nat, B, rnn_dim) /\
    (forall b t k,
       (b < B)%nat -> (t < Z.to_nat (hd 0%Z (ps_lengths po)))%nat ->
       (k < rnn_dim)%nat ->
       at3 outputs b t k
       = (at3 (fst (pad_packed_sequence po)) b t k
          + at3 (fst (pad_packed_sequence po)) b t (rnn_dim + k)%nat)%R) /\
    (forall b k, (b < B)%nat -> (k < rnn_dim)%nat ->
       at3 hidden 0%nat b k = (at3 h 0%nat b k + at3 h 1%nat b k)%R /\
       at3 cell 0%nat b k = (at3 c 0%nat b k + at3 c 1%nat b k)%R).
Proof.
  intros He Hb Hp Hr HB HD Hh Hc.
  destruct (Attn_EncoderRNN_forward_merges embedding batch_norm rnn rnn_dim
              1 B inputs lengths e e' p po h c He Hb Hp Hr HB HD (le_n 1) Hh Hc)
    as [o [h' [c' [Hout [_ [Hos [Hhs [Hcs [Hoat Hst]]]]]]]]].
  exists o, h', c'. split; [exact Hout|]. split; [exact Hos|].
  split; [exact Hhs|]. split; [exact Hcs|]. split; [exact Hoat|].
  intros b k Hb' Hk.
  apply (Hst 0%nat b k); [simpl; lia | exact Hb' | exact Hk].
Qed.

(** X11 on the example batch. *)
Lemma EncoderRNN_forward_single_layer_witness :
  exists outputs hidden cell,
    outcome (Attn.EncoderRNN_forward ex_embedding ex_batch_norm ex_enc_rnn 16
               ex_src_tokens [4; 2]%Z) = Ok (outputs, hidden, cell) /\
    shape3 outputs = (2%nat, 4%nat, 16%nat) /\
    shape3 hidden = (1%nat, 2%nat, 16%nat) /\
    shape3 cell = (1%nat, 2%nat, 16%nat) /\
    (forall b t k,
       (b < 2)%nat -> (t < 4)%nat -> (k < 16)%nat ->
       at3 outputs b t k
       = (at3 (fst (pad_packed_sequence
                      (mkPacked (mkT3 2 4 32 (fun _ _ _ => 1%R)) [4; 2]%Z))) b t k
          + at3 (fst (pad_packed_sequence
                        (mkPacked (mkT3 2 4 32 (fun _ _ _ => 1%R)) [4; 2]%Z)))
              b t (16 + k)%nat)%R) /\
    (forall b k, (b < 2)%nat -> (k < 16)%nat ->
       at3 hidden 0%nat b k = (1 + 1)%R /\
       at3 cell 0%nat b k = (1 + 1)%R).
Proof.
  eapply (EncoderRNN_forward_single_layer ex_embedding ex_batch_norm
            ex_enc_rnn 16 2 ex_src_tokens [4; 2]%Z _ _ _
            (mkPacked (mkT3 2 4 32 (fun _ _ _ => 1%R)) [4; 2]%Z)
            (mkT3 2 2 16 (fun _ _ _ => 1%R)) (mkT3 2 2 16 (fun _ _ _ => 1%R))).
  - reflexivity.
  - reflexivity.
  - reflexivity.
  - reflexivity.
  - reflexivity.
  - reflexivity.
  - reflexivity.
  - reflexivity.
Defined.

(** * Further properties of the decoder steps *)

Lemma Embedding_forward1_invalid (e : Embedding) (x : LongTensor1) (b : nat) :
  (b < llen x)%nat ->
  valid_token e (lat1 x b) = false ->
  Embedding_forward1 e x = Raise IndexError.
Proof.
  intros Hb Hv. unfold Embedding_forward1.
  destruct (forallb _ (seq 0 (llen x))) eqn:Hall; [|reflexivity].
  rewrite forallb_forall in Hall.
  specialize (Hall b ltac:(apply in_seq; lia)).
  rewrite Hv in Hall. discriminate Hall.
Qed.

Lemma sumR_split (n m : nat) (f : nat -> R) :
  sumR (n + m) f = (sumR n f + sumR m (fun i => f (n + i)%nat))%R.
Proof.
  induction m as [|m IH].
  - rewrite Nat.add_0_r. simpl. lra.
  - rewrite Nat.add_succ_r. cbn [sumR]. rewrite IH. lra.
Qed.

(** A weighted average lies between the bounds of what is averaged. *)
Lemma weighted_average_bounds (n : nat) (x w : nat -> R) (lo hi : R) :
  (forall i, (i < n)%nat -> (0 <= w i)%R) ->
  sumR n w = 1%R ->
  (forall i, (i < n)%nat -> (lo <= x i <= hi)%R) ->
  (lo <= sumR n (fun i => (x i * w i)%R) <= hi)%R.
Proof.
  intros Hw Hsum Hx. split.
  - replace lo with (sumR n w * lo)%R by (rewrite Hsum; lra).
    rewrite <- sumR_scale. apply sumR_le. intros i Hi.
    specialize (Hw i Hi). specialize (Hx i Hi). nra.
  - replace hi with (sumR n w * hi)%R by (rewrite Hsum; lra).
    rewrite <- sumR_scale. apply sumR_le. intros i Hi.
    specialize (Hw i Hi). specialize (Hx i Hi). nra.
Qed.

(** X12. A token outside the embedding table makes either decoder step raise
    [IndexError] in the embedding lookup, before the recurrent stack is
    consulted: the result is the same for every recurrent stack. *)
Theorem Decoder_forward_invalid_token
  (embedding : Embedding) (inputs : LongTensor1) (b : nat) :
  (b < llen inputs)%nat ->
  valid_token embedding (lat1 inputs b) = false ->
  (forall rnn out last_hidden last_cell,
      Plain.DecoderRNN_forward embedding rnn out inputs last_hidden last_cell
      = Raise IndexError) /\
  (forall attention batch_norm rnn linear src_outputs last_hidden last_cell,
      Attn.DecoderAttentionRNN_forward attention embedding batch_norm rnn linear
        src_outputs inputs last_hidden last_cell
      = Raise IndexError).
Proof.
  intros Hb Hv. split; intros;
    [unfold Plain.DecoderRNN_forward | unfold Attn.DecoderAttentionRNN_forward];
    rewrite (Embedding_forward1_invalid embedding inputs b Hb Hv); reflexivity.
Qed.

(** X12 on an input vector that holds the token 10 in a vocabulary of 10. *)
Lemma Decoder_forward_invalid_token_witness :
  valid_token ex_embedding (lat1 (mkL1 2 (fun b => Z.of_nat (9 + b))) 1%nat) = false /\
  Plain.DecoderRNN_forward ex_embedding ex_dec_rnn ex_out_linear
    (mkL1 2 (fun b => Z.of_nat (9 + b))) (zeros3 1 2 16) (zeros3 1 2 16)
  = Raise IndexError.
Proof.
  split; [reflexivity|].
  apply (proj1 (Decoder_forward_invalid_token ex_embedding
                  (mkL1 2 (fun b => Z.of_nat (9 + b))) 1
                  ltac:(simpl; lia) eq_refl)).
Defined.

(** X13. The context vector the attention decoder computes (the encoder
    outputs times the attention distribution, summed over the source
    positions) is a weighted average: each coordinate lies between the
    smallest and the largest value that coordinate takes over the source
    positions of that batch element. *)
Theorem context_vector_within_range
  (m : string) (rd : option nat) (theta : Attn.AttentionParams)
  (attention : Attn.Attention) (src_outputs dec_output : Tensor3)
  (B S D b k : nat) (lo hi : R) :
  Attn.Attention_init m rd theta = Ok attention ->
  shape3 src_outputs = (B, S, D) ->
  shape3 dec_output = (B, 1%nat, D) ->
  (forall d, rd = Some d -> m <> "dot"%string -> D = d) ->
  (0 < S)%nat -> (b < B)%nat -> (k < D)%nat ->
  (forall s, (s < S)%nat -> (lo <= at3 src_outputs b s k <= hi)%R) ->
  exists attention_distribution temp,
    Attn.Attention_forward attention src_outputs dec_output
      = Ok attention_distribution /\
    mul3 src_outputs attention_distribution = Ok temp /\
    (lo <= at2 (sum_dim1 temp) b k <= hi)%R.
Proof.
  intros Hinit Hsrc Hdec HD HS Hb Hk Hx.
  destruct (Attention_forward_ok m rd theta attention src_outputs dec_output
              B S D Hinit Hsrc Hdec HD) as [x [Hfw Hxs]].
  destruct (softmax_distribution x B S Hxs HS) as [Hws [Hpos Hsum]].
  destruct (mul3_broadcast_last src_outputs (softmax_dim1 x) B S D Hsrc Hws)
    as [temp [Htemp [Hts Hat]]].
  exists (softmax_dim1 x), temp.
  split; [exact Hfw|]. split; [exact Htemp|].
  destruct (shape3_inv _ _ _ _ Hts) as [_ [Ht1 _]].
  cbn [sum_dim1 at2]. rewrite Ht1.
  rewrite (sumR_ext S _ (fun s => (at3 src_outputs b s k
                                    * at3 (softmax_dim1 x) b s 0%nat)%R))
    by (intros s Hs; apply Hat; assumption).
  apply weighted_average_bounds.
  - intros s Hs. apply Hpos; assumption.
  - apply Hsum. exact Hb.
  - exact Hx.
Qed.

(** X13 on the example tensors: the values of coordinate 0 of the first
    batch element are 0, 1, 2, 3 over the four positions. *)
Lemma context_vector_within_range_witness :
  exists attention_distribution temp,
    Attn.Attention_forward ex_general ex_enc_outputs ex_dec_state
      = Ok attention_distribution /\
    mul3 ex_enc_outputs attention_distribution = Ok temp /\
    (0 <= at2 (sum_dim1 temp) 0%nat 0%nat <= 3)%R.
Proof.
  apply (context_vector_within_range "general" (Some 16%nat) ex_attention_params
           ex_general ex_enc_outputs ex_dec_state 2 4 16 0 0 0%R 3%R).
  - reflexivity.
  - reflexivity.
  - reflexivity.
  - intros d Hd _. inversion Hd. reflexivity.
  - lia.
  - lia.
  - lia.
  - intros s Hs. cbn [ex_enc_outputs at3].
    rewrite Nat.add_0_l, Nat.add_0_r.
    split; [apply pos_INR|].
    replace 3%R with (INR 3) by (simpl; lra).
    apply le_INR. lia.
Defined.

(** X14. The scores of an attention decoder step, for batch element [b] and
    word [v], are

      bias v + sum_k dec_output[b,k] * W[v,k] + sum_k context[b,k] * W[v,D+k]

    where [dec_output] is what the recurrent stack returned, [context] is the
    sum over the source positions of the encoder outputs weighted by the
    attention distribution, and the first D columns of the output layer act
    on the decoder output, the last D on the context.  The new state is the
    recurrent stack's. *)
Theorem DecoderAttentionRNN_forward_scores
  (m : string) (rd : option nat) (theta : Attn.AttentionParams)
  (attention : Attn.Attention) (embedding : Embedding)
  (batch_norm : Tensor3 -> result Tensor3)
  (rnn : Tensor3 -> Tensor3 * Tensor3 -> result (Tensor3 * (Tensor3 * Tensor3)))
  (linear : Linear) (src_outputs : Tensor3) (tar_input : LongTensor1)
  (last_hidden last_cell : Tensor3)
  (em : Tensor2) (normed dec_output dec_hidden dec_cell : Tensor3) (B S D : nat) :
  Attn.Attention_init m rd theta = Ok attention ->
  (forall d, rd = Some d -> m <> "dot"%string -> D = d) ->
  Embedding_forward1 embedding tar_input = Ok em ->
  batch_norm (unsqueeze1 em) = Ok normed ->
  rnn normed (last_hidden, last_cell) = Ok (dec_output, (dec_hidden, dec_cell)) ->
  shape3 dec_output = (B, 1%nat, D) ->
  shape3 src_outputs = (B, S, D) ->
  in_features linear = (D + D)%nat ->
  exists w predication,
    Attn.Attention_forward attention src_outputs dec_output = Ok w /\
    Attn.DecoderAttentionRNN_forward attention embedding batch_norm rnn linear
      src_outputs tar_input last_hidden last_cell
      = Ok (predication, dec_hidden, dec_cell) /\
    shape2 predication = (B, out_features linear) /\
    forall b v, (b < B)%nat ->
      at2 predication b v
      = (sumR D (fun k => at3 dec_output b 0%nat k * weight linear v k)
         + sumR D (fun k =>
                     sumR S (fun s => at3 src_outputs b s k * at3 w b s 0%nat)
                     * weight linear v (D + k)%nat)
         + bias linear v)%R.
Proof.
  intros Hinit HD Hem Hbn Hr Hdec Hsrc Hin.
  destruct (Attention_forward_ok m rd theta attention src_outputs dec_output
              B S D Hinit Hsrc Hdec HD) as [x [Hfw Hxs]].
  assert (Hws : shape3 (softmax_dim1 x) = (B, S, 1%nat))
    by (rewrite softmax_dim1_shape; exact Hxs).
  destruct (mul3_broadcast_last src_outputs (softmax_dim1 x) B S D Hsrc Hws)
    as [temp [Htemp [Hts Hat]]].
  destruct (shape3_inv _ _ _ _ Hdec) as [Hd0 [Hd1 Hd2]].
  destruct (shape3_inv _ _ _ _ Hts) as [Ht0 [Ht1 Ht2]].
  exists (softmax_dim1 x).
  unfold Attn.DecoderAttentionRNN_forward.
  rewrite Hem. cbn [bind]. rewrite Hbn. cbn [bind]. rewrite Hr. cbn [bind].
  rewrite Hfw. cbn [bind]. rewrite Htemp. cbn [bind].
  unfold squeeze1. rewrite Hd1. cbn [Nat.eqb bind].
  unfold cat2_dim1. cbn [rows cols sum_dim1 at2].
  rewrite Hd0, Ht0, Nat.eqb_refl. cbn [bind].
  unfold Linear_forward2. cbn [rows cols at2].
  rewrite Hd2, Ht2, Hin, Nat.eqb_refl. cbn [bind].
  eexists. split; [reflexivity|]. split; [reflexivity|]. split; [reflexivity|].
  intros b v Hb. cbn [at2]. rewrite Ht1.
  rewrite sumR_split. f_equal. f_equal.
  - apply sumR_ext. intros k Hk.
    destruct (Nat.ltb_spec k D) as [_|Hge]; [reflexivity | lia].
  - apply sumR_ext. intros k Hk.
    destruct (Nat.ltb_spec (D + k) D) as [Hlt|_]; [lia|].
    replace (D + k - D)%nat with k by lia.
    f_equal. apply sumR_ext. intros s Hs. apply Hat; assumption.
Qed.

(** X14 on the example decoder and tensors. *)
Lemma DecoderAttentionRNN_forward_scores_witness :
  exists w predication,
    Attn.Attention_forward ex_general ex_enc_outputs
      (mkT3 2 1 16 (fun _ _ _ => 1%R)) = Ok w /\
    Attn.DecoderAttentionRNN_forward ex_general ex_embedding ex_batch_norm
      ex_dec_rnn ex_attn_linear ex_enc_outputs
      (mkL1 2 (fun b => Z.of_nat b)) (zeros3 1 2 16) (zeros3 1 2 16)
      = Ok (predication, zeros3 1 2 16, zeros3 1 2 16) /\
    shape2 predication = (2%nat, 3%nat) /\
    forall b v, (b < 2)%nat ->
      at2 predication b v
      = (sumR 16 (fun k => 1 * INR v)
         + sumR 16 (fun k =>
                      sumR 4 (fun s => at3 ex_enc_outputs b s k * at3 w b s 0%nat)
                      * INR v)
         + 0)%R.
Proof.
  eapply (DecoderAttentionRNN_forward_scores "general" (Some 16%nat)
            ex_attention_params ex_general ex_embedding ex_batch_norm
            ex_dec_rnn ex_attn_linear ex_enc_outputs
            (mkL1 2 (fun b => Z.of_nat b)) (zeros3 1 2 16) (zeros3 1 2 16)
            _ _ (mkT3 2 1 16 (fun _ _ _ => 1%R)) (zeros3 1 2 16) (zeros3 1 2 16)
            2 4 16).
  - reflexivity.
  - intros d Hd _. inversion Hd. reflexivity.
  - reflexivity.
  - reflexivity.
  - reflexivity.
  - reflexivity.
  - reflexivity.
  - reflexivity.
Defined.

(** * The assembled models on the example batch *)

Lemma ex_dec_rnn_step (x h c : Tensor3) :
  shape3 x = (2%nat, 1%nat, embedding_dim ex_embedding) -> True ->
  exists o h' c',
    ex_dec_rnn x (h, c) = Ok (o, (h', c')) /\
    shape3 o = (2%nat, 1%nat, 16%nat) /\ True.
Proof.
  intros Hx _. destruct (shape3_inv _ _ _ _ Hx) as [H0 _].
  unfold ex_dec_rnn. eexists. eexists. eexists.
  split; [reflexivity|]. split; [|exact I].
  unfold shape3. simpl. rewrite H0. reflexivity.
Qed.

Lemma ex_batch_norm_step (x : Tensor3) :
  shape3 x = (2%nat, 1%nat, embedding_dim ex_embedding) ->
  exists y, ex_batch_norm x = Ok y /\
            shape3 y = (2%nat, 1%nat, embedding_dim ex_embedding).
Proof. intros Hx. exists x. split; [reflexivity | exact Hx]. Qed.

Lemma ex_tar_tokens_valid (b t : nat) :
  (b < 2)%nat -> (t < lcols ex_tar_tokens)%nat ->
  valid_token ex_embedding (lat2 ex_tar_tokens b t) = true.
Proof.
  simpl. intros Hb Ht.
  destruct b as [|[|b]]; [| |lia];
    (destruct t as [|[|[|t]]]; [reflexivity | reflexivity | reflexivity | lia]).
Qed.

(** X15 on the example batch: the plain model with its own decoder step. *)
Lemma Seq2Seq_model_returns_witness :
  exists o,
    Plain.Seq2Seq_forward ex_plain_encoder
      (Plain.DecoderRNN_forward ex_embedding ex_dec_rnn ex_out_linear)
      (out_features ex_out_linear) ex_src_tokens [4; 2]%Z ex_tar_tokens = Ok o /\
    shape3 o = (2%nat, lcols ex_tar_tokens, out_features ex_out_linear).
Proof.
  eapply (Seq2Seq_model_returns ex_embedding ex_dec_rnn 2 16 (fun _ _ => True)
            ex_dec_rnn_step ex_plain_encoder ex_out_linear
            ex_src_tokens [4; 2]%Z ex_tar_tokens).
  - reflexivity.
  - exact I.
  - reflexivity.
  - simpl. lia.
  - reflexivity.
  - simpl. lia.
  - intros b Hb. apply ex_tar_tokens_valid; [exact Hb | simpl; lia].
Defined.

(** X16 on the example batch: the attention model with its own decoder step
    and the 'general' scorer, at the default teacher-forcing rate. *)
Lemma Seq2SeqAttention_model_returns_witness :
  exists o,
    Attn.Seq2SeqAttention_forward ex_attn_encoder
      (Attn.DecoderAttentionRNN_forward ex_general ex_embedding ex_batch_norm
         ex_dec_rnn ex_attn_linear)
      (out_features ex_attn_linear) ex_random ex_src_tokens [4; 2]%Z
      ex_tar_tokens (/ 2)%R 0
    = Ok (o, (0 + (lcols ex_tar_tokens - 1))%nat) /\
    shape3 o = (2%nat, lcols ex_tar_tokens, out_features ex_attn_linear).
Proof.
  eapply (Seq2SeqAttention_model_returns ex_embedding ex_dec_rnn 2 16
            (fun _ _ => True) ex_dec_rnn_step ex_batch_norm ex_batch_norm_step
            ex_attn_encoder "general" (Some 16%nat) ex_attention_params
            ex_general ex_attn_linear ex_random ex_src_tokens [4; 2]%Z
            ex_tar_tokens (/ 2)%R 0 4).
  - reflexivity.
  - intros d Hd _. inversion Hd. reflexivity.
  - reflexivity.
  - reflexivity.
  - exact I.
  - reflexivity.
  - simpl. lia.
  - reflexivity.
  - simpl. lia.
  - intros b t Hb Ht. apply ex_tar_tokens_valid; assumption.
Defined.

(** * Further properties of the drivers *)

(** X17. With a target of a single column the decoder is never called:
    once the encoder has succeeded, either driver returns the all-zero tensor
    of shape (B, 1, V) whatever the decoder is (even one that always raises),
    and the attention driver consumes no random value. *)
Theorem forward_single_column_target :
  (forall encoder decoder out_dim src len trg h c,
      encoder src len = Ok (h, c) ->
      lcols trg = 1%nat ->
      Plain.Seq2Seq_forward encoder decoder out_dim src len trg
      = Ok (zeros3 (lrows trg) 1 out_dim)) /\
  (forall encoder decoder out_dim random src len tar rate rng0 enc h c,
      encoder src len = Ok (enc, h, c) ->
      lcols tar = 1%nat ->
      Attn.Seq2SeqAttention_forward encoder decoder out_dim random src len tar
        rate rng0
      = Ok (zeros3 (lrows tar) 1 out_dim, rng0)).
Proof.
  split.
  - intros encoder decoder out_dim src len trg h c Henc HL.
    unfold Plain.Seq2Seq_forward, Plain.loop_init, select_col, range.
    rewrite Henc, HL. reflexivity.
  - intros encoder decoder out_dim random src len tar rate rng0 enc h c Henc HL.
    unfold Attn.Seq2SeqAttention_forward, Attn.loop_init, select_col, range.
    rewrite Henc, HL. reflexivity.
Qed.

(** X17 with decoders that always raise. *)
Lemma forward_single_column_target_witness :
  Plain.Seq2Seq_forward ex_plain_encoder (fun _ _ _ => Raise RuntimeError) 3
    ex_src_tokens [4; 2]%Z ex_tar_seed = Ok (zeros3 2 1 3) /\
  Attn.Seq2SeqAttention_forward ex_attn_encoder
    (fun _ _ _ _ => Raise RuntimeError) 3 ex_random
    ex_src_tokens [4; 2]%Z ex_tar_seed (/ 2)%R 7 = Ok (zeros3 2 1 3, 7%nat).
Proof.
  split.
  - eapply (proj1 forward_single_column_target ex_plain_encoder
              (fun _ _ _ => Raise RuntimeError) 3%nat ex_src_tokens [4; 2]%Z
              ex_tar_seed); reflexivity.
  - eapply (proj2 forward_single_column_target ex_attn_encoder
              (fun _ _ _ _ => Raise RuntimeError) 3%nat ex_random ex_src_tokens
              [4; 2]%Z ex_tar_seed (/ 2)%R 7%nat); reflexivity.
Defined.

(** X18. The encoder runs before the target is looked at.  If it raises,
    that exception is what either driver raises; if it succeeds and the
    target has no column, reading the seed column raises [IndexError]. *)
Theorem forward_empty_target :
  (forall encoder decoder out_dim src len trg,
      (forall e, encoder src len = Raise e ->
         Plain.Seq2Seq_forward encoder decoder out_dim src len trg = Raise e) /\
      (forall h c, encoder src len = Ok (h, c) -> lcols trg = 0%nat ->
         Plain.Seq2Seq_forward encoder decoder out_dim src len trg
         = Raise IndexError)) /\
  (forall encoder decoder out_dim random src len tar rate rng0,
      (forall e, encoder src len = Raise e ->
         Attn.Seq2SeqAttention_forward encoder decoder out_dim random src len
           tar rate rng0 = Raise e) /\
      (forall enc h c, encoder src len = Ok (enc, h, c) -> lcols tar = 0%nat ->
         Attn.Seq2SeqAttention_forward encoder decoder out_dim random src len
           tar rate rng0 = Raise IndexError)).
Proof.
  split.
  - intros encoder decoder out_dim src len trg. split.
    + intros e He. unfold Plain.Seq2Seq_forward, Plain.loop_init.
      rewrite He. reflexivity.
    + intros h c He HL.
      unfold Plain.Seq2Seq_forward, Plain.loop_init, select_col.
      rewrite He, HL. reflexivity.
  - intros encoder decoder out_dim random src len tar rate rng0. split.
    + intros e He. unfold Attn.Seq2SeqAttention_forward, Attn.loop_init.
      rewrite He. reflexivity.
    + intros enc h c He HL.
      unfold Attn.Seq2SeqAttention_forward, Attn.loop_init, select_col.
      rewrite He, HL. reflexivity.
Qed.

(** X18 on the example models: unsorted source lengths surface as the
    packing error; an empty target as [IndexError]. *)
Lemma forward_empty_target_witness :
  Attn.Seq2SeqAttention_forward ex_attn_encoder ex_attn_decoder 3 ex_random
    ex_src_tokens [2; 4]%Z ex_tar_tokens (/ 2)%R 0 = Raise RuntimeError /\
  Plain.Seq2Seq_forward ex_plain_encoder ex_plain_decoder 3
    ex_src_tokens [4; 2]%Z (mkL2 2 0 (fun _ _ => 0%Z)) = Raise IndexError.
Proof.
  split.
  - apply (proj1 (proj2 forward_empty_target ex_attn_encoder ex_attn_decoder
                    3%nat ex_random ex_src_tokens [2; 4]%Z ex_tar_tokens
                    (/ 2)%R 0%nat)).
    reflexivity.
  - eapply (proj2 (proj1 forward_empty_target ex_plain_encoder ex_plain_decoder
                     3%nat ex_src_tokens [4; 2]%Z (mkL2 2 0 (fun _ _ => 0%Z))));
      reflexivity.
Defined.

(** X19. A call of the attention driver that returns has consumed exactly
    max_len - 1 values of the random stream, one per decoder step. *)
Theorem Seq2SeqAttention_forward_draw_count
  (encoder : LongTensor2 -> list Z -> result (Tensor3 * Tensor3 * Tensor3))
  (decoder : Tensor3 -> LongTensor1 -> Tensor3 -> Tensor3
             -> result (Tensor2 * Tensor3 * Tensor3))
  (out_dim : nat) (random : nat -> R)
  (src : LongTensor2) (len : list Z) (tar : LongTensor2) (rate : R)
  (rng0 : nat) (out : Tensor3) (n : nat) :
  Attn.Seq2SeqAttention_forward encoder decoder out_dim random src len tar
    rate rng0 = Ok (out, n) ->
  n = (rng0 + (lcols tar - 1))%nat.
Proof.
  rewrite Attn_forward_state_after. intros H.
  destruct (bind_Ok_inv _ _ _ H) as [st [Hst Hout]].
  inversion Hout. subst out n.
  apply (Attn_state_after_rng _ _ _ _ _ _ _ _ _ _ _ Hst).
Qed.

(** X19 on the example batch of 3 target columns, starting at position 5. *)
Lemma Seq2SeqAttention_forward_draw_count_witness :
  exists out n,
    Attn.Seq2SeqAttention_forward ex_attn_encoder ex_attn_decoder 3 ex_random
      ex_src_tokens [4; 2]%Z ex_tar_tokens (/ 2)%R 5 = Ok (out, n) /\
    n = (5 + (lcols ex_tar_tokens - 1))%nat.
Proof.
  destruct (Attn_forward_returns ex_attn_encoder ex_attn_decoder 3 ex_random
              (fun inp _ _ => llen inp = 2%nat)
              ex_src_tokens [4; 2]%Z ex_tar_tokens (/ 2)%R 5 _ _ _
              eq_refl ltac:(simpl; lia) ltac:(lia) eq_refl) as [out Hout].
  - intros inp h c Hinp. unfold ex_attn_decoder.
    eexists. eexists. eexists. split; [reflexivity|].
    split; [unfold shape2; simpl; rewrite Hinp; reflexivity|].
    split; [simpl; exact Hinp | intros; reflexivity].
  - exists out. eexists. split; [exact Hout|].
    exact (Seq2SeqAttention_forward_draw_count _ _ _ _ _ _ _ _ _ _ _ Hout).
Defined.

Lemma for_range_ext {St : Type} (body1 body2 : nat -> St -> result St)
  (ts : list nat) (st : St) :
  (forall t s, In t ts -> body1 t s = body2 t s) ->
  for_range body1 ts st = for_range body2 ts st.
Proof.
  revert st. induction ts as [|t ts IH]; intros st H; simpl.
  - reflexivity.
  - rewrite (H t st (or_introl eq_refl)).
    destruct (body2 t st) as [st'|e]; simpl; [|reflexivity].
    apply IH. intros t' s Hin. apply H. right. exact Hin.
Qed.

Section Seq2SeqAttentionTrace.

Variable encoder : LongTensor2 -> list Z -> result (Tensor3 * Tensor3 * Tensor3).
Variable decoder : Tensor3 -> LongTensor1 -> Tensor3 -> Tensor3
                   -> result (Tensor2 * Tensor3 * Tensor3).
Variable out_dim : nat.
Variable random : nat -> R.

Lemma Attn_state_after_inv (src : LongTensor2) (len : list Z)
  (tar : LongTensor2) (rate : R) (rng0 n : nat) (st : Attn.loop_state) :
  Attn.state_after encoder decoder out_dim random src len tar rate rng0 n = Ok st ->
  Attn.loop_inv out_dim tar st.
Proof.
  unfold Attn.state_after. intros H.
  destruct (bind_Ok_inv _ _ _ H) as [[enc st0] [Hinit Hrun]]. clear H.
  destruct (Attn_loop_init_inv _ _ _ _ _ _ _ _ Hinit) as [h [c [_ [_ ->]]]].
  apply (for_range_invariant
           (Attn.loop_body decoder random enc tar rate) (Attn.loop_inv out_dim tar)
           (range 1 (S n))) with (st := Attn.mkLoop
             (mkL1 (lrows tar) (fun b => lat2 tar b 0%nat)) h c
             (zeros3 (lrows tar) (lcols tar) out_dim) rng0).
  - intros t s s' Hin HP Hb.
    apply (Attn_loop_body_preserves decoder out_dim random enc tar rate t s s');
      try assumption.
    apply range_from_one_In in Hin. lia.
  - split; [reflexivity | intros; reflexivity].
  - exact Hrun.
Qed.

(** The iterations after time index [n] start from the state after [n]. *)
Lemma Attn_state_after_add (src : LongTensor2) (len : list Z)
  (tar : LongTensor2) (rate : R) (rng0 n m : nat)
  (enc : Tensor3) (st0 : Attn.loop_state) :
  Attn.loop_init encoder out_dim src len tar rng0 = Ok (enc, st0) ->
  Attn.state_after encoder decoder out_dim random src len tar rate rng0 (n + m)
  = bind (Attn.state_after encoder decoder out_dim random src len tar rate rng0 n)
      (for_range (Attn.loop_body decoder random enc tar rate) (seq (S n) m)).
Proof.
  intros Hinit. unfold Attn.state_after. rewrite Hinit.
  cbv beta iota delta [bind]. unfold range.
  replace (S (n + m) - 1)%nat with (n + m)%nat by lia.
  replace (S n - 1)%nat with n by lia.
  rewrite seq_app, for_range_app. reflexivity.
Qed.

(** Iterations at other time indices leave time index [t] as it is. *)
Lemma Attn_for_range_keeps (enc : Tensor3) (tar : LongTensor2) (rate : R)
  (t : nat) (ts : list nat) (st st' : Attn.loop_state) :
  ~ In t ts ->
  for_range (Attn.loop_body decoder random enc tar rate) ts st = Ok st' ->
  forall b k, at3 (Attn.outputs st') b t k = at3 (Attn.outputs st) b t k.
Proof.
  intros Hnot Hrun.
  apply (for_range_invariant (Attn.loop_body decoder random enc tar rate)
           (fun s => forall b k,
                at3 (Attn.outputs s) b t k = at3 (Attn.outputs st) b t k)
           ts) with (st := st); [| reflexivity | exact Hrun].
  intros t' s s' Hin HP Hb b k.
  destruct (Attn_loop_body_inv _ _ _ _ _ _ _ _ Hb)
    as [pred [h [c [_ [Hset _]]]]].
  destruct (setitem_col_inv _ _ _ _ Hset) as [_ [Hother _]].
  rewrite Hother; [apply HP|].
  intros ->. contradiction.
Qed.

(** X20. In the tensor the attention driver returns, time index [t] (for
    1 <= t < max_len) holds the scores the decoder returned at step [t], the
    step that started from the state after [t - 1] iterations; later steps do
    not touch it. *)
Theorem Seq2SeqAttention_forward_outputs_at
  (src : LongTensor2) (len : list Z) (tar : LongTensor2) (rate : R)
  (rng0 n r : nat) (out : Tensor3) (st : Attn.loop_state)
  (enc h0 c0 : Tensor3) (pred : Tensor2) (h c : Tensor3) :
  Attn.Seq2SeqAttention_forward encoder decoder out_dim random src len tar
    rate rng0 = Ok (out, r) ->
  (S n < lcols tar)%nat ->
  encoder src len = Ok (enc, h0, c0) ->
  Attn.state_after encoder decoder out_dim random src len tar rate rng0 n = Ok st ->
  decoder enc (Attn.input_ st) (Attn.hidden st) (Attn.cell st) = Ok (pred, h, c) ->
  shape2 pred = (lrows tar, out_dim) ->
  forall b k, at3 out b (S n) k = at2 pred b k.
Proof.
  intros Hfw Hlt Henc Hn Hdec Hshape.
  rewrite Attn_forward_state_after in Hfw.
  destruct (bind_Ok_inv _ _ _ Hfw) as [stf [Hstf Hout]].
  inversion Hout. subst out r. clear Hout Hfw.
  assert (Hinit : exists st0,
             Attn.loop_init encoder out_dim src len tar rng0 = Ok (enc, st0)).
  { unfold Attn.loop_init. rewrite Henc. cbv beta iota delta [bind].
    unfold select_col. destruct (Nat.ltb_spec 0 (lcols tar)); [|lia].
    eexists. reflexivity. }
  destruct Hinit as [st0 Hinit].
  replace (lcols tar - 1)%nat with (S n + (lcols tar - 1 - S n))%nat in Hstf by lia.
  rewrite (Attn_state_after_add src len tar rate rng0 (S n) _ enc st0 Hinit) in Hstf.
  destruct (bind_Ok_inv _ _ _ Hstf) as [st' [HSn Hrest]].
  destruct (Attn_state_after_step _ _ _ _ _ _ _ _ _ _ _ _ Hn HSn)
    as [enc' [h0' [c0' [Henc' Hbody]]]].
  rewrite Henc in Henc'. inversion Henc'. subst enc' h0' c0'.
  destruct (Attn_state_after_inv _ _ _ _ _ _ _ Hn) as [Hs _].
  destruct (shape3_inv _ _ _ _ Hs) as [Hd0 [_ Hd2]].
  intros b k.
  rewrite (Attn_for_range_keeps enc tar rate (S n)
             (seq (S (S n)) (lcols tar - 1 - S n)) st' stf).
  - apply (Attn_loop_body_writes decoder random enc tar rate (S n) st st' pred h c
             Hbody Hdec).
    rewrite Hd0, Hd2. exact Hshape.
  - rewrite in_seq. lia.
  - exact Hrest.
Qed.

(** X21. With a teacher-forcing rate of 0 (and random values that are not
    negative) the attention driver reads nothing of the target but its shape
    and its seed column: two targets that agree on those give the same
    result. *)
Theorem Seq2SeqAttention_rate_zero_ignores_target
  (src : LongTensor2) (len : list Z) (tar tar' : LongTensor2) (rng0 : nat) :
  (forall i, (0 <= random i)%R) ->
  lrows tar' = lrows tar -> lcols tar' = lcols tar ->
  select_col tar' 0 = select_col tar 0 ->
  Attn.Seq2SeqAttention_forward encoder decoder out_dim random src len tar'
    0%R rng0
  = Attn.Seq2SeqAttention_forward encoder decoder out_dim random src len tar
      0%R rng0.
Proof.
  intros Hrand Hr Hc Hs.
  unfold Attn.Seq2SeqAttention_forward, Attn.loop_init. rewrite Hr, Hc, Hs.
  destruct (encoder src len) as [[[enc h] c]|e]; [|reflexivity].
  cbv beta iota delta [bind].
  destruct (select_col tar 0) as [inp|e]; [|reflexivity].
  rewrite (for_range_ext (Attn.loop_body decoder random enc tar' 0%R)
             (Attn.loop_body decoder random enc tar 0%R)); [reflexivity|].
  intros t s _. unfold Attn.loop_body.
  rewrite (proj2 (Rltb_false (random (Attn.rng s)) 0%R) (Hrand _)).
  reflexivity.
Qed.

End Seq2SeqAttentionTrace.

(** X20 on the example batch, at time index 1. *)
Lemma Seq2SeqAttention_forward_outputs_at_witness :
  exists out,
    Attn.Seq2SeqAttention_forward ex_attn_encoder ex_attn_decoder 3 ex_random
      ex_src_tokens [4; 2]%Z ex_tar_tokens (/ 2)%R 0 = Ok (out, 2%nat) /\
    forall b k, at3 out b 1%nat k = INR k.
Proof.
  destruct (ex_attn_forward_returns (/ 2)%R) as [out Hout].
  exists out. split; [exact Hout|].
  eapply (Seq2SeqAttention_forward_outputs_at ex_attn_encoder ex_attn_decoder
            3 ex_random ex_src_tokens [4; 2]%Z ex_tar_tokens (/ 2)%R 0 0 2 out
            _ _ _ _ (mkT2 2 3 (fun _ k => INR k))).
  - exact Hout.
  - simpl. lia.
  - reflexivity.
  - reflexivity.
  - reflexivity.
  - reflexivity.
Defined.

(** X21 on the example batch and a target that differs from it in every
    column but the first. *)
Lemma Seq2SeqAttention_rate_zero_ignores_target_witness :
  Attn.Seq2SeqAttention_forward ex_attn_encoder ex_attn_decoder 3 ex_random
    ex_src_tokens [4; 2]%Z ex_tar_tokens_alt 0%R 0
  = Attn.Seq2SeqAttention_forward ex_attn_encoder ex_attn_decoder 3 ex_random
      ex_src_tokens [4; 2]%Z ex_tar_tokens 0%R 0.
Proof.
  apply (Seq2SeqAttention_rate_zero_ignores_target ex_attn_encoder
           ex_attn_decoder 3 ex_random ex_src_tokens [4; 2]%Z
           ex_tar_tokens ex_tar_tokens_alt 0).
  - intros i. unfold ex_random. lra.
  - reflexivity.
  - reflexivity.
  - reflexivity.
Defined.

(** * The two drivers compared *)

Section DriversCompared.

Variable decoder : Tensor3 -> LongTensor1 -> Tensor3 -> Tensor3
                   -> result (Tensor2 * Tensor3 * Tensor3).
Variable random : nat -> R.
Hypothesis random_nonneg : forall i, (0 <= random i)%R.

(** At rate 0 one iteration of the attention loop is one iteration of the
    plain loop run with the decoder closed over the encoder outputs. *)
Lemma loop_body_rate_zero (enc : Tensor3) (tar : LongTensor2) (t : nat)
  (st : Attn.loop_state) :
  bind (Attn.loop_body decoder random enc tar 0%R t st)
    (fun st' => Ok (forget_rng st'))
  = Plain.loop_body (decoder enc) t (forget_rng st).
Proof.
  unfold Attn.loop_body, Plain.loop_body, forget_rng. cbn [Plain.input_
    Plain.hidden Plain.cell Plain.outputs].
  destruct (decoder enc (Attn.input_ st) (Attn.hidden st) (Attn.cell st))
    as [[[pred h] c]|e]; [|reflexivity].
  cbv beta iota delta [bind].
  destruct (setitem_col (Attn.outputs st) t pred) as [o|e]; [|reflexivity].
  destruct (max_dim1 pred) as [[values indices]|e]; [|reflexivity].
  rewrite (proj2 (Rltb_false (random (Attn.rng st)) 0%R) (random_nonneg _)).
  reflexivity.
Qed.

Lemma for_range_rate_zero (enc : Tensor3) (tar : LongTensor2) (ts : list nat)
  (st : Attn.loop_state) :
  bind (for_range (Attn.loop_body decoder random enc tar 0%R) ts st)
    (fun st' => Ok (forget_rng st'))
  = for_range (Plain.loop_body (decoder enc)) ts (forget_rng st).
Proof.
  revert st. induction ts as [|t ts IH]; intros st; simpl.
  - reflexivity.
  - rewrite <- (loop_body_rate_zero enc tar t st).
    destruct (Attn.loop_body decoder random enc tar 0%R t st) as [st1|e];
      simpl; [apply IH | reflexivity].
Qed.

(** X22. With a teacher-forcing rate of 0 (and random values that are not
    negative) the attention driver computes what the plain driver computes
    when it is given the attention decoder closed over the encoder outputs
    and an encoder that returns the same final state: the same output tensor,
    or the same exception. *)
Theorem Seq2SeqAttention_rate_zero_is_Seq2Seq
  (encoderA : LongTensor2 -> list Z -> result (Tensor3 * Tensor3 * Tensor3))
  (encoderP : LongTensor2 -> list Z -> result (Tensor3 * Tensor3))
  (out_dim : nat) (src : LongTensor2) (len : list Z) (tar : LongTensor2)
  (rng0 : nat) (enc h0 c0 : Tensor3) :
  encoderA src len = Ok (enc, h0, c0) ->
  encoderP src len = Ok (h0, c0) ->
  bind (Attn.Seq2SeqAttention_forward encoderA decoder out_dim random src len
          tar 0%R rng0)
    (fun r => Ok (fst r))
  = Plain.Seq2Seq_forward encoderP (decoder enc) out_dim src len tar.
Proof.
  intros HA HP.
  unfold Attn.Seq2SeqAttention_forward, Attn.loop_init,
    Plain.Seq2Seq_forward, Plain.loop_init.
  rewrite HA, HP. cbv beta iota delta [bind].
  destruct (select_col tar 0) as [inp|e]; [|reflexivity].
  change (Plain.mkLoop inp h0 c0 (zeros3 (lrows tar) (lcols tar) out_dim))
    with (forget_rng (Attn.mkLoop inp h0 c0
                        (zeros3 (lrows tar) (lcols tar) out_dim) rng0)).
  rewrite <- (for_range_rate_zero enc tar (range 1 (lcols tar))
                (Attn.mkLoop inp h0 c0
                   (zeros3 (lrows tar) (lcols tar) out_dim) rng0)).
  destruct (for_range (Attn.loop_body decoder random enc tar 0%R)
              (range 1 (lcols tar))
              (Attn.mkLoop inp h0 c0
                 (zeros3 (lrows tar) (lcols tar) out_dim) rng0)) as [st|e];
    reflexivity.
Qed.

End DriversCompared.

(** X22 on the example batch. *)
Lemma Seq2SeqAttention_rate_zero_is_Seq2Seq_witness :
  exists enc,
    bind (Attn.Seq2SeqAttention_forward ex_attn_encoder ex_attn_decoder 3
            ex_random ex_src_tokens [4; 2]%Z ex_tar_tokens 0%R 0)
      (fun r => Ok (fst r))
    = Plain.Seq2Seq_forward ex_attn_encoder_states (ex_attn_decoder enc) 3
        ex_src_tokens [4; 2]%Z ex_tar_tokens.
Proof.
  eexists.
  eapply (Seq2SeqAttention_rate_zero_is_Seq2Seq ex_attn_decoder ex_random
            ltac:(intros i; unfold ex_random; lra)
            ex_attn_encoder ex_attn_encoder_states 3 ex_src_tokens [4; 2]%Z
            ex_tar_tokens 0).
  - reflexivity.
  - reflexivity.
Defined.

(** * The scorers compared *)

Lemma sumR_delta (n k : nat) (f : nat -> R) :
  (k < n)%nat ->
  sumR n (fun j => (f j * (if (k =? j)%nat then 1 else 0))%R) = f k.
Proof.
  induction n as [|n IH]; intros Hk; [lia|]. simpl.
  destruct (Nat.eqb_spec k n) as [->|Hne].
  - rewrite (sumR_zero n).
    + lra.
    + intros i Hi. destruct (Nat.eqb_spec n i); [lia | lra].
  - rewrite IH by lia. lra.
Qed.

(** X23. The 'general' scorer whose linear layer has the identity matrix as
    weight (and any bias) returns the attention distribution of the 'dot'
    scorer. *)
Theorem Attention_general_identity_is_dot
  (d : nat) (theta theta0 : Attn.AttentionParams) (rd0 : option nat)
  (general dot : Attn.Attention) (src_inputs tar_input : Tensor3) (B S : nat) :
  Attn.Attention_init "general" (Some d) theta = Ok general ->
  Attn.Attention_init "dot" rd0 theta0 = Ok dot ->
  (forall o k, (o < d)%nat -> (k < d)%nat ->
     p_weight (Attn.nn_params theta) o k = if (o =? k)%nat then 1%R else 0%R) ->
  shape3 src_inputs = (B, S, d) ->
  shape3 tar_input = (B, 1%nat, d) ->
  exists out_general out_dot,
    Attn.Attention_forward general src_inputs tar_input = Ok out_general /\
    Attn.Attention_forward dot src_inputs tar_input = Ok out_dot /\
    forall b s, (s < S)%nat -> at3 out_general b s 0%nat = at3 out_dot b s 0%nat.
Proof.
  intros Hg Hd HW Hsrc Htar.
  destruct (Attention_init_cases _ _ _ _ Hg)
    as [[Hm _] | [[_ [d1 [Hd1 ->]]] | [Hm _]]]; try discriminate Hm.
  inversion Hd1. subst d1. clear Hd1.
  destruct (Attention_init_cases _ _ _ _ Hd)
    as [[_ ->] | [[Hm _] | [Hm _]]]; try discriminate Hm.
  destruct (shape3_inv _ _ _ _ Hsrc) as [Hs0 [Hs1 Hs2]].
  destruct (shape3_inv _ _ _ _ Htar) as [Ht0 [Ht1 Ht2]].
  unfold Attn.Attention_forward, Attn.Attention_general, Attn.Attention_dot,
    Linear_forward3, bmm.
  simpl. rewrite Hs2, Nat.eqb_refl. simpl.
  rewrite Hs0, Ht0, Ht2, !Nat.eqb_refl. simpl.
  eexists. eexists. split; [reflexivity|]. split; [reflexivity|].
  intros b s Hs. rewrite <- Hs1 in Hs.
  set (bias := p_bias (Attn.nn_params theta)).
  apply (softmax_dim1_shift _ _ b 0%nat
           (sumR d (fun k => (bias k * at3 tar_input b 0%nat k)%R)));
    [reflexivity | | exact Hs].
  intros s' _. simpl. rewrite <- sumR_plus.
  apply sumR_ext. intros k Hk.
  rewrite (sumR_ext d _ (fun j => (at3 src_inputs b s' j
                                   * (if (k =? j)%nat then 1 else 0))%R))
    by (intros j Hj; rewrite (HW k j Hk Hj); reflexivity).
  rewrite (sumR_delta d k _ Hk). fold bias. lra.
Qed.

(** X23 on the example tensors: the example 'general' scorer has the
    identity as weight. *)
Lemma Attention_general_identity_is_dot_witness :
  exists out_general out_dot,
    Attn.Attention_forward ex_general ex_enc_outputs ex_dec_state = Ok out_general /\
    Attn.Attention_forward (Attn.mkAttention "dot" None None)
      ex_enc_outputs ex_dec_state = Ok out_dot /\
    forall b s, (s < 4)%nat -> at3 out_general b s 0%nat = at3 out_dot b s 0%nat.
Proof.
  apply (Attention_general_identity_is_dot 16 ex_attention_params
           ex_attention_params None ex_general
           (Attn.mkAttention "dot" None None) ex_enc_outputs ex_dec_state 2 4).
  - reflexivity.
  - reflexivity.
  - intros o k _ _. reflexivity.
  - reflexivity.
  - reflexivity.
Defined.

(** * Batch elements do not mix *)

Lemma same_at_batch_shape (b : nat) (x y : Tensor3) :
  same_at_batch b x y ->
  dim0 x = dim0 y /\ dim1 x = dim1 y /\ dim2 x = dim2 y.
Proof.
  intros [Hs _]. unfold shape3 in Hs. inversion Hs. auto.
Qed.

Lemma permute021_local (b : nat) (x y : Tensor3) :
  same_at_batch b x y -> same_at_batch b (permute021 x) (permute021 y).
Proof.
  intros H. destruct (same_at_batch_shape b x y H) as [H0 [H1 H2]].
  destruct H as [_ Hat]. split.
  - unfold shape3. simpl. rewrite H0, H1, H2. reflexivity.
  - intros i j Hi Hj. simpl in *. apply Hat; assumption.
Qed.

Lemma tan3_local (b : nat) (x y : Tensor3) :
  same_at_batch b x y -> same_at_batch b (tan3 x) (tan3 y).
Proof.
  intros H. destruct (same_at_batch_shape b x y H) as [H0 [H1 H2]].
  destruct H as [_ Hat]. split.
  - unfold shape3. simpl. rewrite H0, H1, H2. reflexivity.
  - intros i j Hi Hj. simpl in *. rewrite Hat by assumption. reflexivity.
Qed.

Lemma softmax_dim1_local (b : nat) (x y : Tensor3) :
  same_at_batch b x y -> same_at_batch b (softmax_dim1 x) (softmax_dim1 y).
Proof.
  intros H. destruct (same_at_batch_shape b x y H) as [H0 [H1 H2]].
  destruct H as [_ Hat]. split.
  - unfold shape3. simpl. rewrite H0, H1, H2. reflexivity.
  - intros i j Hi Hj. simpl in *. rewrite <- H1.
    rewrite (Hat i j Hi Hj).
    rewrite (sumR_ext (dim1 x) (fun s' => exp (at3 x b s' j))
               (fun s' => exp (at3 y b s' j)))
      by (intros s' Hs'; rewrite (Hat s' j Hs' Hj); reflexivity).
    reflexivity.
Qed.

Lemma bmm_local (b : nat) (x x' y y' r : Tensor3) :
  same_at_batch b x x' -> same_at_batch b y y' ->
  bmm x y = Ok r ->
  exists r', bmm x' y' = Ok r' /\ same_at_batch b r r'.
Proof.
  intros Hx Hy.
  destruct (same_at_batch_shape b x x' Hx) as [Hx0 [Hx1 Hx2]].
  destruct (same_at_batch_shape b y y' Hy) as [Hy0 [Hy1 Hy2]].
  destruct Hx as [_ Hxat]. destruct Hy as [_ Hyat].
  unfold bmm. rewrite <- Hx0, <- Hy0, <- Hx2, <- Hy1.
  destruct ((dim0 x =? dim0 y)%nat && (dim2 x =? dim1 y)%nat) eqn:E;
    [|discriminate].
  apply andb_prop in E. destruct E as [_ E2]. apply Nat.eqb_eq in E2.
  intros H. inversion H. subst r. clear H.
  eexists. split; [reflexivity|]. split.
  - unfold shape3. simpl. rewrite Hx1, Hy2. reflexivity.
  - intros i j Hi Hj. simpl in *. apply sumR_ext. intros k Hk.
    rewrite (Hxat i k Hi Hk), (Hyat k j ltac:(lia) Hj). reflexivity.
Qed.

Lemma Linear_forward3_local (b : nat) (l : Linear) (x x' r : Tensor3) :
  same_at_batch b x x' ->
  Linear_forward3 l x = Ok r ->
  exists r', Linear_forward3 l x' = Ok r' /\ same_at_batch b r r'.
Proof.
  intros Hx.
  destruct (same_at_batch_shape b x x' Hx) as [Hx0 [Hx1 Hx2]].
  destruct Hx as [_ Hxat].
  unfold Linear_forward3. rewrite <- Hx2.
  destruct (Nat.eqb_spec (dim2 x) (in_features l)) as [E|]; [|discriminate].
  intros H. inversion H. subst r. clear H.
  eexists. split; [reflexivity|]. split.
  - unfold shape3. simpl. rewrite Hx0, Hx1. reflexivity.
  - intros i j Hi Hj. simpl in *. f_equal. apply sumR_ext. intros k Hk.
    rewrite (Hxat i k Hi ltac:(lia)). reflexivity.
Qed.

Lemma expand_last_local (b n : nat) (x x' r : Tensor3) :
  same_at_batch b x x' ->
  expand_last x n = Ok r ->
  exists r', expand_last x' n = Ok r' /\ same_at_batch b r r'.
Proof.
  intros Hx.
  destruct (same_at_batch_shape b x x' Hx) as [Hx0 [Hx1 Hx2]].
  unfold expand_last. rewrite <- Hx2.
  destruct (dim2 x =? n)%nat.
  - intros H. inversion H. subst r. exists x'. split; [reflexivity | exact Hx].
  - destruct (Nat.eqb_spec (dim2 x) 1) as [E|]; [|discriminate].
    intros H. inversion H. subst r. clear H.
    destruct Hx as [_ Hxat].
    eexists. split; [reflexivity|]. split.
    + unfold shape3. simpl. rewrite Hx0, Hx1. reflexivity.
    + intros i j Hi Hj. simpl in *. apply Hxat; [exact Hi | lia].
Qed.

Lemma cat3_dim1_local (b : nat) (x x' y y' r : Tensor3) :
  same_at_batch b x x' -> same_at_batch b y y' ->
  cat3_dim1 x y = Ok r ->
  exists r', cat3_dim1 x' y' = Ok r' /\ same_at_batch b r r'.
Proof.
  intros Hx Hy.
  destruct (same_at_batch_shape b x x' Hx) as [Hx0 [Hx1 Hx2]].
  destruct (same_at_batch_shape b y y' Hy) as [Hy0 [Hy1 Hy2]].
  destruct Hx as [_ Hxat]. destruct Hy as [_ Hyat].
  unfold cat3_dim1. rewrite <- Hx0, <- Hy0, <- Hx2, <- Hy2.
  destruct ((dim0 x =? dim0 y)%nat && (dim2 x =? dim2 y)%nat) eqn:E;
    [|discriminate].
  apply andb_prop in E. destruct E as [_ E2]. apply Nat.eqb_eq in E2.
  intros H. inversion H. subst r. clear H.
  eexists. split; [reflexivity|]. split.
  - unfold shape3. simpl. rewrite Hx1, Hy1. reflexivity.
  - intros i j Hi Hj. simpl in *. rewrite <- Hx1.
    destruct (Nat.ltb_spec i (dim1 x)) as [Hlt|Hge].
    + apply Hxat; assumption.
    + apply Hyat; lia.
Qed.

(** X24. The attention weights of a batch element depend on that batch
    element only: if two batches of encoder outputs and decoder states have
    the same shapes and agree on batch element [b], then [forward] succeeds
    on the one when it does on the other, and returns the same weights for
    [b]. *)
Theorem Attention_forward_batch_local
  (self : Attn.Attention) (b : nat)
  (src_inputs src_inputs' tar_input tar_input' out : Tensor3) :
  same_at_batch b src_inputs src_inputs' ->
  same_at_batch b tar_input tar_input' ->
  Attn.Attention_forward self src_inputs tar_input = Ok out ->
  exists out',
    Attn.Attention_forward self src_inputs' tar_input' = Ok out' /\
    same_at_batch b out out'.
Proof.
  intros Hsrc Htar. unfold Attn.Attention_forward. intros H.
  destruct (bind_Ok_inv _ _ _ H) as [x [Hx Hout]]. clear H.
  inversion Hout. subst out. clear Hout.
  pose proof (permute021_local b _ _ Htar) as Htar'.
  assert (Hscore : exists x',
             (if String.eqb (Attn.method self) "dot" then
                Attn.Attention_dot self src_inputs' (permute021 tar_input')
              else if String.eqb (Attn.method self) "general" then
                Attn.Attention_general self src_inputs' (permute021 tar_input')
              else if String.eqb (Attn.method self) "concat" then
                Attn.Attention_concat self src_inputs' (permute021 tar_input')
              else Raise AttributeError) = Ok x' /\
             same_at_batch b x x').
  { destruct (String.eqb (Attn.method self) "dot").
    - unfold Attn.Attention_dot in *.
      apply (bmm_local b _ _ _ _ _ Hsrc Htar' Hx).
    - destruct (String.eqb (Attn.method self) "general").
      + unfold Attn.Attention_general in *.
        destruct (bind_Ok_inv _ _ _ Hx) as [l [Hl H1]]. rewrite Hl. simpl.
        destruct (bind_Ok_inv _ _ _ H1) as [a [Ha H2]].
        destruct (Linear_forward3_local b l _ _ _ Hsrc Ha) as [a' [Ha' Hsa]].
        rewrite Ha'. simpl.
        apply (bmm_local b _ _ _ _ _ Hsa Htar' H2).
      + destruct (String.eqb (Attn.method self) "concat"); [|discriminate].
        unfold Attn.Attention_concat in *.
        pose proof (permute021_local b _ _ Hsrc) as Hsrc'.
        destruct (same_at_batch_shape b _ _ Hsrc') as [_ [_ Hd2]].
        rewrite <- Hd2.
        destruct (bind_Ok_inv _ _ _ Hx) as [e [He H1]].
        destruct (expand_last_local b _ _ _ _ Htar' He) as [e' [He' Hse]].
        rewrite He'. simpl.
        destruct (bind_Ok_inv _ _ _ H1) as [h [Hh H2]].
        destruct (cat3_dim1_local b _ _ _ _ _ Hsrc' Hse Hh) as [h' [Hh' Hsh]].
        rewrite Hh'. simpl.
        destruct (bind_Ok_inv _ _ _ H2) as [l [Hl H3]]. rewrite Hl. simpl.
        destruct (bind_Ok_inv _ _ _ H3) as [y [Hy H4]].
        destruct (Linear_forward3_local b l _ _ _ (permute021_local b _ _ Hsh) Hy)
          as [y' [Hy' Hsy]].
        rewrite Hy'. simpl.
        destruct (bind_Ok_inv _ _ _ H4) as [lv [Hlv H5]]. rewrite Hlv. simpl.
        apply (Linear_forward3_local b lv _ _ _ (tan3_local b _ _ Hsy) H5). }
  destruct Hscore as [x' [Hx' Hsx]].
  exists (softmax_dim1 x'). cbv zeta. rewrite Hx'. split; [reflexivity|].
  apply softmax_dim1_local. exact Hsx.
Qed.

(** X24 on the example tensors and a batch whose second element is
    different. *)
Lemma Attention_forward_batch_local_witness :
  exists out out',
    Attn.Attention_forward ex_concat ex_enc_outputs ex_dec_state = Ok out /\
    Attn.Attention_forward ex_concat ex_enc_outputs_padded ex_dec_state = Ok out' /\
    same_at_batch 0 out out'.
Proof.
  assert (Hout : exists out,
             Attn.Attention_forward ex_concat ex_enc_outputs ex_dec_state = Ok out).
  { unfold Attn.Attention_forward, Attn.Attention_concat. simpl.
    eexists. reflexivity. }
  destruct Hout as [out Hout].
  destruct (Attention_forward_batch_local ex_concat 0 ex_enc_outputs
              ex_enc_outputs_padded ex_dec_state ex_dec_state out) as [out' [H1 H2]].
  - split; [reflexivity|]. intros i j _ _. reflexivity.
  - split; [reflexivity|]. intros i j _ _. reflexivity.
  - exact Hout.
  - exists out, out'. split; [exact Hout|]. split; [exact H1 | exact H2].
Defined.
